(** * Analyze-LoggerPlusPlus: the aggregation core, embedded and verified

    A shallow embedding of [src/Analyze-LoggerPlusPlus.py]
    ([extract_date_from_headers] and [analyze_burp_log]) together with the
    properties its specification states about it.

    Modelling conventions.
    - Python [str] values are Rocq strings read as ASCII text; on them
      [str.lower] is the map A-Z to a-z.
    - A pandas DataFrame is a list of column names (distinct, as
      [read_csv] makes them), the dtype of each column and a list of rows,
      each row holding one cell per column.  A cell is text or a missing
      value (NaN, None, pd.NA).  A column of dtype object holds text and
      missing values; a column in which [read_csv] found no text at all
      has dtype float64 and holds missing values only.  Columns of numbers
      are not modelled.
    - Timestamps are calendar fields to the second; the bounds of the
      pandas nanosecond range are not modelled.
    - A call either yields a value, or returns [(None, None)] after printing
      a diagnostic, or raises a Python exception: the three constructors of
      [outcome].
    - Library routines whose behaviour is not in the source file (the
      pandas [strptime] for the fixed request-time format,
      [email.utils.parsedate_to_datetime], [urlparse(..).hostname] and the
      [.2f] rendering of a float quotient) are the fields of the interface
      [PyLib]; every general theorem holds for all implementations of it.
      A routine that can raise returns the exception it raises. *)

From Stdlib Require Import List String Ascii Arith ZArith Bool Lia DecimalString
  Permutation Sorted.
Import ListNotations.
Local Open Scope string_scope.
Local Open Scope list_scope.
Local Open Scope nat_scope.

Set Implicit Arguments.

(** ** Python text helpers *)

Module Py.

Definition is_upper (c : ascii) : bool :=
  let n := nat_of_ascii c in (65 <=? n) && (n <=? 90).

(** [str.lower] on one ASCII character. *)
Definition lower_char (c : ascii) : ascii :=
  if is_upper c then ascii_of_nat (nat_of_ascii c + 32) else c.

(** [s.lower()] *)
Fixpoint lower (s : string) : string :=
  match s with
  | EmptyString => EmptyString
  | String c s' => String (lower_char c) (lower s')
  end.

(** [s.endswith(suf)] for one suffix: [s] is [suf], or the tail of [s] ends
    with [suf]. *)
Fixpoint endswith (s suf : string) : bool :=
  String.eqb s suf ||
  match s with
  | EmptyString => false
  | String _ s' => endswith s' suf
  end.

(** [s.endswith(tuple)]: true when some member of the tuple is a suffix. *)
Definition endswith_any (s : string) (sufs : list string) : bool :=
  existsb (endswith s) sufs.

(** [s.startswith(pre)] *)
Fixpoint startswith (s pre : string) : bool :=
  match pre, s with
  | EmptyString, _ => true
  | String p pre', String c s' => Ascii.eqb c p && startswith s' pre'
  | String _ _, EmptyString => false
  end.

(** The white space of [\s] and of [str.strip] on ASCII text:
    TAB, LF, VT, FF, CR, the separators 0x1c-0x1f and the blank. *)
Definition is_space (c : ascii) : bool :=
  let n := nat_of_ascii c in
  ((9 <=? n) && (n <=? 13)) || ((28 <=? n) && (n <=? 32)).

Fixpoint lstrip (s : string) : string :=
  match s with
  | String c s' => if is_space c then lstrip s' else s
  | EmptyString => EmptyString
  end.

Fixpoint rstrip (s : string) : string :=
  match s with
  | EmptyString => EmptyString
  | String c s' =>
      match rstrip s' with
      | EmptyString => if is_space c then EmptyString else String c EmptyString
      | r => String c r
      end
  end.

(** [s.strip()] *)
Definition strip (s : string) : string := rstrip (lstrip s).

(** [sep.join(parts)] *)
Fixpoint join (sep : string) (parts : list string) : string :=
  match parts with
  | [] => EmptyString
  | [p] => p
  | p :: ps => (p ++ sep ++ join sep ps)%string
  end.

(** [''.join(parts)] *)
Definition concat_all (parts : list string) : string :=
  fold_right String.append EmptyString parts.

(** [str(n)] for a non-negative int. *)
Definition str_of_nat (n : nat) : string :=
  NilZero.string_of_uint (Nat.to_uint n).

(** Zero padding to two digits, as [%d], [%m], [%H], [%M], [%S] print. *)
Definition pad2 (n : nat) : string :=
  if n <? 10 then ("0" ++ str_of_nat n)%string else str_of_nat n.

End Py.

(** ** Outcomes of a call *)

(** The exceptions the modelled code can raise. *)
Inductive exn :=
| KeyError (key : string)
| AttributeError
| ValueError
| TypeError
| OverflowError.

(** The diagnostics printed before [return None, None]. *)
Inductive diagnostic :=
| EmptyData              (* "The initial data is empty. ..." *)
| AllFiltered            (* "All data was filtered out. ..." *)
| MissingColumn (c : string) (* "Error: Required column ... not found. ..." *)
| NoHeadersColumn        (* "Error: 'Response.Headers' column not found. ..." *)
| NoTimestamps.          (* "Error: No valid timestamps could be determined ..." *)

Inductive outcome (A : Type) :=
| Ok (a : A)
| Stop (d : diagnostic)
| Raise (e : exn).
Arguments Ok {A} a.
Arguments Stop {A} d.
Arguments Raise {A} e.

Definition bind {A B} (m : outcome A) (k : A -> outcome B) : outcome B :=
  match m with
  | Ok a => k a
  | Stop d => Stop d
  | Raise e => Raise e
  end.

Notation "x <- m ;; k" := (bind m (fun x => k))
  (at level 61, m at next level, right associativity).

Fixpoint mapM {A B} (f : A -> outcome B) (l : list A) : outcome (list B) :=
  match l with
  | [] => Ok []
  | a :: l' => b <- f a ;; bs <- mapM f l' ;; Ok (b :: bs)
  end.

(** ** DataFrames *)

Inductive cell :=
| Str (s : string)
| Null.

Definition cell_eq_dec (a b : cell) : {a = b} + {a <> b}.
Proof. decide equality. apply string_dec. Defined.

Definition is_null (c : cell) : bool :=
  match c with Null => true | Str _ => false end.

(** The dtype of a column, as far as the code depends on it: [object]
    stands for a dtype that holds text, [float64] for one that does not. *)
Inductive dtype :=
| object
| float64.

Definition is_object (dt : dtype) : bool :=
  match dt with object => true | float64 => false end.

Record DataFrame := mkDF {
  columns : list string;
  dtypes : list dtype;
  rows : list (list cell)
}.

(** [df.empty]: some axis has length zero. *)
Definition empty (df : DataFrame) : bool :=
  match columns df, rows df with
  | [], _ => true
  | _, [] => true
  | _, _ => false
  end.

Fixpoint index_of (name : string) (cols : list string) : option nat :=
  match cols with
  | [] => None
  | c :: cols' =>
      if String.eqb c name then Some 0
      else option_map S (index_of name cols')
  end.

(** [col in df.columns] *)
Definition has_column (df : DataFrame) (name : string) : bool :=
  match index_of name (columns df) with Some _ => true | None => false end.

(** The cell of [row] under column [name] (missing when there is none). *)
Definition cell_of (df : DataFrame) (name : string) (row : list cell) : cell :=
  match index_of name (columns df) with
  | Some i => nth i row Null
  | None => Null
  end.

(** [df[name]]: the column as a Series, [KeyError] when absent. *)
Definition getitem (df : DataFrame) (name : string) : outcome (list cell) :=
  match index_of name (columns df) with
  | Some i => Ok (map (fun row => nth i row Null) (rows df))
  | None => Raise (KeyError name)
  end.

(** [df[name].dtype] *)
Definition dtype_of (df : DataFrame) (name : string) : dtype :=
  match index_of name (columns df) with
  | Some i => nth i (dtypes df) object
  | None => object
  end.

(** [series.str]: the accessor exists on a Series of dtype object only;
    on any other it raises [AttributeError] (Can only use .str accessor
    with string values). *)
Definition str_accessor (dt : dtype) (series : list cell) : outcome (list cell) :=
  if is_object dt then Ok series else Raise AttributeError.

(** Boolean-mask selection on positionally aligned lists. *)
Fixpoint select {A} (mask : list bool) (l : list A) : list A :=
  match mask, l with
  | b :: mask', a :: l' => if b then a :: select mask' l' else select mask' l'
  | _, _ => []
  end.

(** [df[mask]]: the rows the mask keeps; columns and dtypes are those of
    [df]. *)
Definition loc_mask (df : DataFrame) (mask : list bool) : DataFrame :=
  mkDF (columns df) (dtypes df) (select mask (rows df)).

(** ** Filter stage (source lines 69-77) *)

(** A Python argument defaulting to [None] that is tested for truth. *)
Definition truthy (l : option (list string)) : bool :=
  match l with
  | Some (_ :: _) => true
  | _ => false
  end.

Definition as_list (l : option (list string)) : list string :=
  match l with Some l => l | None => [] end.

(** [tuple(f".{ext.lower()}" for ext in exclude_extensions)] *)
Definition extensions_tuple (exts : list string) : list string :=
  map (fun ext => ("." ++ Py.lower ext)%string) exts.

(** One entry of [.str.lower().str.endswith(extensions_tuple, na=False)]. *)
Definition ext_excluded (exts : list string) (url : cell) : bool :=
  match url with
  | Str u => Py.endswith_any (Py.lower u) (extensions_tuple exts)
  | Null => false
  end.

(** One entry of [.isin(exclude_tools)]. *)
Definition tool_excluded (tools : list string) (tool : cell) : bool :=
  match tool with
  | Str t => existsb (String.eqb t) tools
  | Null => false
  end.

Definition filter_extensions (df : DataFrame) (exts : option (list string))
  : outcome DataFrame :=
  if truthy exts then
    url <- getitem df "Request.URL" ;;
    url_str <- str_accessor (dtype_of df "Request.URL") url ;;
    Ok (loc_mask df (map (fun c => negb (ext_excluded (as_list exts) c)) url_str))
  else Ok df.

Definition filter_tools (df : DataFrame) (tools : option (list string))
  : outcome DataFrame :=
  if truthy tools then
    tool <- getitem df "Request.Tool" ;;
    Ok (loc_mask df (map (fun c => negb (tool_excluded (as_list tools) c)) tool))
  else Ok df.

Definition filter_stage (df : DataFrame) (exts tools : option (list string))
  : outcome DataFrame :=
  df1 <- filter_extensions df exts ;;
  filter_tools df1 tools.

(** ** Dates and times *)

(** A naive [datetime] / [Timestamp]: wall-clock fields only. *)
Record naive := mkNaive {
  year : nat; month : nat; day : nat;
  hour : nat; minute : nat; second : nat
}.

(** A [datetime] as [parsedate_to_datetime] builds it: wall-clock fields and
    a [tzinfo], which is a fixed UTC offset in seconds, or [None]. *)
Record datetime := mkDatetime {
  wall : naive;
  tzinfo : option Z
}.

(** [datetime.date] *)
Record date := mkDate { d_year : nat; d_month : nat; d_day : nat }.

(** [.dt.date] on one entry. *)
Definition date_of (t : naive) : date := mkDate (year t) (month t) (day t).

Definition date_eqb (a b : date) : bool :=
  (d_year a =? d_year b) && (d_month a =? d_month b) && (d_day a =? d_day b).

(** Chronological order of naive timestamps, as [<=] on Timestamps. *)
Definition naive_leb (a b : naive) : bool :=
  let key t := [year t; month t; day t; hour t; minute t; second t] in
  (fix lex (x y : list nat) : bool :=
     match x, y with
     | i :: x', j :: y' => (i <? j) || ((i =? j) && lex x' y')
     | _, _ => true
     end) (key a) (key b).

(** [strftime('%Y-%m-%d')] *)
Definition strftime_Ymd (d : date) : string :=
  (Py.str_of_nat (d_year d) ++ "-" ++ Py.pad2 (d_month d) ++ "-"
   ++ Py.pad2 (d_day d))%string.

(** [strftime('%d/%m/%Y')] *)
Definition strftime_dmY (d : date) : string :=
  (Py.pad2 (d_day d) ++ "/" ++ Py.pad2 (d_month d) ++ "/"
   ++ Py.str_of_nat (d_year d))%string.

(** [strftime('%d/%m/%Y %H:%M:%S')] *)
Definition strftime_dmY_HMS (t : naive) : string :=
  (strftime_dmY (date_of t) ++ " " ++ Py.pad2 (hour t) ++ ":"
   ++ Py.pad2 (minute t) ++ ":" ++ Py.pad2 (second t))%string.

(** ** The library routines the source calls *)

Class PyLib := {
  (** One entry of [pd.to_datetime(.., format='%m/%d/%Y %I:%M:%S %p',
      errors='coerce')] on text: the parsed naive timestamp, or [None] for
      the NaT a failed parse is coerced to. *)
  strptime_request_time : string -> option naive;
  (** [email.utils.parsedate_to_datetime]: the [datetime], or the exception
      raised ([ValueError] or, in older versions, [TypeError] on text that
      is not a date; [OverflowError] on a zone or year out of range). *)
  parsedate_to_datetime : string -> (datetime + exn)%type;
  (** [urlparse(x).hostname] on text: a host name, [None], or the
      [ValueError] that [urlparse] raises. *)
  urlparse_hostname : string -> outcome (option string);
  (** [f"{total / days:.2f}"] for [days > 0]. *)
  format_2f : nat -> nat -> string
}.

(** ** [extract_date_from_headers] (source lines 45-59) *)

Definition LF : ascii := ascii_of_nat 10.

(** Case-insensitive match of the literal [pre] (given in lower case) at the
    start of [s]; the rest of [s] after the match. *)
Fixpoint match_literal_ci (pre s : string) : option string :=
  match pre, s with
  | EmptyString, _ => Some s
  | String p pre', String c s' =>
      if Ascii.eqb (Py.lower_char c) p then match_literal_ci pre' s' else None
  | String _ _, EmptyString => None
  end.

(** The group after the white space (any characters but a line feed, as
    many as there are): the longest run without a line feed. *)
Fixpoint until_newline (s : string) : string :=
  match s with
  | EmptyString => EmptyString
  | String c s' => if Ascii.eqb c LF then EmptyString else String c (until_newline s')
  end.

(** The pattern of line 52 (the literal Date: in any case, white space, the
    group) tried at one position: group 1 when it matches.  The greedy
    white-space run also passes over line feeds. *)
Definition match_date_here (s : string) : option string :=
  match match_literal_ci "date:" s with
  | Some rest => Some (until_newline (Py.lstrip rest))
  | None => None
  end.

(** [re.search] of that pattern anchored at line starts, with
    [re.IGNORECASE | re.MULTILINE]: group 1 of the leftmost match; [bol]
    tells whether [s] starts a line. *)
Fixpoint search_date (bol : bool) (s : string) : option string :=
  match (if bol then match_date_here s else None) with
  | Some g => Some g
  | None =>
      match s with
      | EmptyString => None
      | String c s' => search_date (Ascii.eqb c LF) s'
      end
  end.

Section Core.
Context {L : PyLib}.

(** Lines 55-58: [TypeError] and [ValueError] are caught and give [None];
    any other exception of the parser leaves the function. *)
Definition try_parsedate (date_str : string) : outcome (option datetime) :=
  match parsedate_to_datetime date_str with
  | inl d => Ok (Some d)
  | inr TypeError | inr ValueError => Ok None
  | inr e => Raise e
  end.

Definition extract_date_from_headers (headers_str : cell) : outcome (option datetime) :=
  match headers_str with
  | Null => Ok None
  | Str s =>
      match search_date true s with
      | Some g => try_parsedate (Py.strip g)
      | None => Ok None
      end
  end.

(** ** Timestamp resolution (source lines 89-103) *)

(** One entry of [pd.to_datetime(df['Request.Time'], format=..,
    errors='coerce')]: missing values stay NaT. *)
Definition to_datetime (c : cell) : option naive :=
  match c with
  | Str s => strptime_request_time s
  | Null => None
  end.

Definition isnull {A} (x : option A) : bool :=
  match x with None => true | Some _ => false end.

Definition notna {A} (x : option A) : bool := negb (isnull x).

Definition tz_eqb (a b : option Z) : bool :=
  match a, b with
  | None, None => true
  | Some x, Some y => Z.eqb x y
  | _, _ => false
  end.

(** Whether a Series of [datetime] objects and [None] is inferred as a
    datetime64 Series, on which [.dt] exists: its non-null entries are all
    naive or all carry the same [tzinfo].  Otherwise the Series keeps
    dtype object. *)
Definition datetimelike (ts : list (option datetime)) : bool :=
  match flat_map (fun t => match t with Some d => [tzinfo d] | None => [] end) ts with
  | [] => true
  | tz :: tzs => forallb (tz_eqb tz) tzs
  end.

(** [series.dt.tz_localize(None)]: drops the offset and keeps the wall
    clock; [.dt] raises [AttributeError] on an object Series. *)
Definition dt_tz_localize_none (ts : list (option datetime))
  : outcome (list (option naive)) :=
  if datetimelike ts then Ok (map (option_map wall) ts)
  else Raise AttributeError.

(** The primary strategy: the ['Time'] column after line 91 or 93. *)
Definition primary_times (df : DataFrame) : outcome (list (option naive)) :=
  if has_column df "Request.Time" then
    col <- getitem df "Request.Time" ;;
    Ok (map to_datetime col)
  else Ok (map (fun _ => None) (rows df)).

(** The fallback strategy: the ['Time'] column after lines 98-100.
    [Series.apply] calls the function on the entries in order, and an
    exception of a call leaves [apply]. *)
Definition fallback_times (df : DataFrame) : outcome (list (option naive)) :=
  if has_column df "Response.Headers" then
    col <- getitem df "Response.Headers" ;;
    time <- mapM extract_date_from_headers col ;;
    if existsb notna time then dt_tz_localize_none time
    else Ok (map (option_map wall) time)
  else Stop NoHeadersColumn.

Definition resolve_times (df : DataFrame) : outcome (list (option naive)) :=
  time <- primary_times df ;;
  if forallb isnull time then fallback_times df else Ok time.

(** ** The filtered, time-resolved record set *)

(** From line 105 on only ['Request.URL'], ['Request.Tool'] and ['Time'] are
    read, so a row is kept as these three values. *)
Record record := mkRecord {
  r_url : cell;
  r_tool : cell;
  r_time : naive
}.

(** [df.dropna(subset=['Time'], inplace=True)] *)
Definition dropna_time (df : DataFrame) (time : list (option naive))
  : list record :=
  flat_map
    (fun rt : list cell * option naive =>
       match snd rt with
       | Some t => [mkRecord (cell_of df "Request.URL" (fst rt))
                             (cell_of df "Request.Tool" (fst rt)) t]
       | None => []
       end)
    (combine (rows df) time).

(** Lines 83-87. *)
Definition check_required (df : DataFrame) : outcome unit :=
  if negb (has_column df "Request.URL") then Stop (MissingColumn "Request.URL")
  else if negb (has_column df "Request.Tool") then Stop (MissingColumn "Request.Tool")
  else Ok tt.

(** Source lines 65-109: everything before the analysis. *)
Definition resolve_stage (df : DataFrame) (exclude_extensions exclude_tools : option (list string))
  : outcome (list record) :=
  if empty df then Stop EmptyData else
  df <- filter_stage df exclude_extensions exclude_tools ;;
  if empty df then Stop AllFiltered else
  _ <- check_required df ;;
  time <- resolve_times df ;;
  match dropna_time df time with
  | [] => Stop NoTimestamps
  | rs => Ok rs
  end.

End Core.

(** ** Python dicts and pandas counts *)

(** A [dict]: keys in insertion order, each at most once. *)
Definition dict (K V : Type) : Type := list (K * V).

Section Dict.
Variables K V : Type.
Variable eqb : K -> K -> bool.

(** [d[k] = f(d[k])] on a [defaultdict] whose missing values are [dflt]. *)
Fixpoint dict_update (k : K) (f : V -> V) (dflt : V) (d : dict K V) : dict K V :=
  match d with
  | [] => [(k, f dflt)]
  | (k', v) :: d' =>
      if eqb k' k then (k', f v) :: d'
      else (k', v) :: dict_update k f dflt d'
  end.

Definition keys (d : dict K V) : list K := map fst d.
Definition values (d : dict K V) : list V := map snd d.

End Dict.

(** [sum(d.values())] *)
Definition sum_values {K} (d : dict K nat) : nat :=
  list_sum (values d).

Section Counting.
Variable K : Type.
Variable eqb : K -> K -> bool.

(** [d[k] += 1] on a [defaultdict(int)]. *)
Definition incr (k : K) (d : dict K nat) : dict K nat :=
  dict_update eqb k S 0 d.

(** Occurrence counts in order of first appearance. *)
Definition tally (l : list K) : dict K nat :=
  fold_left (fun d k => incr k d) l [].

(** Stable insertion by decreasing count. *)
Fixpoint insert_desc (x : K * nat) (l : list (K * nat)) : list (K * nat) :=
  match l with
  | [] => [x]
  | y :: l' => if snd y <=? snd x then x :: y :: l' else y :: insert_desc x l'
  end.

(** [sorted(items, key=lambda item: item[1], reverse=True)]; also the order
    [value_counts] gives its result (the order among equal counts is not
    relied on). *)
Definition sort_desc (l : list (K * nat)) : list (K * nat) :=
  fold_right insert_desc [] l.

(** [series.value_counts().to_dict()]: missing values are not counted
    ([dropna=True] is the default), the rest by decreasing count. *)
Definition value_counts (isna : K -> bool) (s : list K) : dict K nat :=
  sort_desc (tally (filter (fun k => negb (isna k)) s)).

End Counting.

(** Equality of dict keys that are cells.  All missing values count as one
    key here (as with the single [pd.NA] or [np.nan] object); the sums
    proved below do not depend on it. *)
Definition cell_eqb (a b : cell) : bool :=
  if cell_eq_dec a b then true else false.

(** Stable insertion by increasing key, for [sorted(d.items())] on a dict
    with text keys. *)
Fixpoint insert_key {V} (x : string * V) (l : list (string * V)) : list (string * V) :=
  match l with
  | [] => [x]
  | y :: l' => if String.leb (fst x) (fst y) then x :: y :: l' else y :: insert_key x l'
  end.

Definition sorted_items {V} (d : dict string V) : list (string * V) :=
  fold_right insert_key [] d.

(** ** The analysis (source lines 111-146) *)

(** One value of [daily_summary]. *)
Record bucket := mkBucket {
  total : nat;
  tools : dict cell nat
}.

(** [productivity_metrics], in the order of its keys. *)
Record productivity := mkProductivity {
  total_requests : nat;          (* "Total Requests" *)
  active_days : nat;             (* "Analysis Period (Days)" *)
  avg_per_day : string;          (* "Average Requests per Day" *)
  peak_day : string;             (* "Peak Activity Day" *)
  peak_day_count : nat           (* "Requests on Peak Day" *)
}.

Record analysis_data := mkAnalysis {
  endpoint_counts : dict cell nat;
  tool_endpoint_counts : dict cell (dict cell nat);
  daily_summary : dict string bucket;
  tool_summary : dict cell nat;
  target_counts : dict cell nat;
  productivity_metrics : productivity
}.

(** [min] and [max] of the ['Time'] column of a non-empty frame. *)
Definition min_time (t : naive) (ts : list naive) : naive :=
  fold_left (fun m x => if naive_leb m x then m else x) ts t.

Definition max_time (t : naive) (ts : list naive) : naive :=
  fold_left (fun m x => if naive_leb x m then m else x) ts t.

Definition date_range_str (rs : list record) : string :=
  match map r_time rs with
  | [] => EmptyString
  | t :: ts =>
      (strftime_dmY_HMS (min_time t ts) ++ " to "
       ++ strftime_dmY_HMS (max_time t ts))%string
  end.

Section Analysis.
Context {L : PyLib}.

(** Line 115: [urlparse(x).hostname if isinstance(x, str) else None]. *)
Definition target_of (url : cell) : outcome cell :=
  match url with
  | Str u =>
      h <- urlparse_hostname u ;;
      Ok (match h with Some host => Str host | None => Null end)
  | Null => Ok Null
  end.

(** Lines 120-122. *)
Definition tool_endpoint_counts_of (rs : list record) : dict cell (dict cell nat) :=
  fold_left
    (fun d r => dict_update cell_eqb (r_url r) (incr cell_eqb (r_tool r)) [] d)
    rs [].

(** Lines 125-129. *)
Definition daily_summary_of (rs : list record) : dict string bucket :=
  fold_left
    (fun d r =>
       dict_update String.eqb (strftime_Ymd (date_of (r_time r)))
         (fun b => mkBucket (S (total b)) (incr cell_eqb (r_tool r) (tools b)))
         (mkBucket 0 []) d)
    rs [].

(** Lines 134-146. *)
Definition productivity_of (rs : list record) : productivity :=
  let dates := map (fun r => date_of (r_time r)) rs in
  let day_counts := value_counts date_eqb (fun _ => false) dates in
  let n := List.length rs in
  let days := List.length day_counts in
  mkProductivity n days
    (if 0 <? days then format_2f n days else "0.00")
    (match day_counts with (d, _) :: _ => strftime_dmY d | [] => "N/A" end)
    (match day_counts with (_, c) :: _ => c | [] => 0 end).

(** Lines 115-146 and 282-289. *)
Definition analysis_of (rs : list record) : outcome analysis_data :=
  targets <- mapM (fun r => target_of (r_url r)) rs ;;
  Ok (mkAnalysis
        (value_counts cell_eqb is_null (map r_url rs))
        (tool_endpoint_counts_of rs)
        (daily_summary_of rs)
        (value_counts cell_eqb is_null (map r_tool rs))
        (value_counts cell_eqb is_null targets)
        (productivity_of rs)).

End Analysis.

(** ** Rendering (source lines 164-280) *)

Definition DQ : string := String (ascii_of_nat 34) EmptyString.
Definition BACKSLASH : string := String (ascii_of_nat 92) EmptyString.

(** [html.escape(s)] with its default [quote=True]. *)
Definition html_escape_char (c : ascii) : string :=
  let n := nat_of_ascii c in
  if n =? 38 then "&amp;"
  else if n =? 60 then "&lt;"
  else if n =? 62 then "&gt;"
  else if n =? 34 then "&quot;"
  else if n =? 39 then "&#x27;"
  else String c EmptyString.

Fixpoint html_escape (s : string) : string :=
  match s with
  | EmptyString => EmptyString
  | String c s' => (html_escape_char c ++ html_escape s')%string
  end.

(** [html.escape(x)] on a cell: a missing value is a float (or [pd.NA]) and
    has no [replace] method. *)
Definition html_escape_cell (c : cell) : outcome string :=
  match c with
  | Str s => Ok (html_escape s)
  | Null => Raise AttributeError
  end.

(** [str(x)] on a cell. *)
Definition str_of_cell (c : cell) : string :=
  match c with
  | Str s => s
  | Null => "nan"
  end.

Definition hex_digit (n : nat) : string :=
  String.substring n 1 "0123456789abcdef".

(** One character of a JSON string as [json.dumps] writes it
    ([ensure_ascii=True]): only the double quote, the backslash and the
    characters outside the printable ASCII range are rewritten. *)
Definition json_escape_char (c : ascii) : string :=
  let n := nat_of_ascii c in
  if n =? 34 then (BACKSLASH ++ DQ)%string
  else if n =? 92 then (BACKSLASH ++ BACKSLASH)%string
  else if n =? 10 then (BACKSLASH ++ "n")%string
  else if n =? 13 then (BACKSLASH ++ "r")%string
  else if n =? 9 then (BACKSLASH ++ "t")%string
  else if n =? 8 then (BACKSLASH ++ "b")%string
  else if n =? 12 then (BACKSLASH ++ "f")%string
  else if (32 <=? n) && (n <=? 126) then String c EmptyString
  else (BACKSLASH ++ "u00" ++ hex_digit (n / 16) ++ hex_digit (n mod 16))%string.

Fixpoint json_escape (s : string) : string :=
  match s with
  | EmptyString => EmptyString
  | String c s' => (json_escape_char c ++ json_escape s')%string
  end.

(** [json.dumps(s)] on text. *)
Definition json_string (s : string) : string := (DQ ++ json_escape s ++ DQ)%string.

(** [json.dumps(x)] on a cell (a float NaN is written [NaN]). *)
Definition json_cell (c : cell) : string :=
  match c with
  | Str s => json_string s
  | Null => "NaN"
  end.

(** [json.dumps(list)] given the encodings of the items. *)
Definition json_array (items : list string) : string :=
  ("[" ++ Py.join ", " items ++ "]")%string.

(** [pd.to_datetime(d).strftime('%d/%m/%Y')] on a key of [daily_summary],
    which [strftime('%Y-%m-%d')] wrote: year, month (two digits) and day
    (two digits) are read back and printed in the other order. *)
Definition dmY_of_Ymd (d : string) : string :=
  let n := String.length d in
  (String.substring (n - 2) 2 d ++ "/" ++ String.substring (n - 5) 2 d ++ "/"
   ++ String.substring 0 (n - 6) d)%string.

(** The fixed text of the report template (lines 174-280), cut at its eight
    insertion points. *)

Definition tpl_head : string :=
  ("
    <html>
    <head>
        <title>Burp Suite Analysis Report</title>
        <script src=" ++ DQ ++ "https://cdn.jsdelivr.net/npm/chart.js" ++ DQ ++ "></script>
        <script src=" ++ DQ ++ "https://cdn.jsdelivr.net/npm/chartjs-adapter-date-fns/dist/chartjs-adapter-date-fns.bundle.min.js" ++ DQ ++ "></script>
        <style>
            body { font-family: 'Segoe UI', Tahoma, Geneva, Verdana, sans-serif; margin: 0; padding: 0; background-color: #f8f9fa; color: #333; }
            .container { max-width: 1600px; margin: 20px auto; padding: 20px; }
            .header { text-align: center; padding-bottom: 20px; border-bottom: 1px solid #dee2e6; margin-bottom: 20px; }
            h1 { color: #0056b3; } h2 { color: #0056b3; border-bottom: 2px solid #0056b3; padding-bottom: 10px; margin-top: 40px; }
            .report-meta { text-align: center; margin-bottom: 30px; font-style: italic; color: #555; }
            .card { background: #fff; border-radius: 8px; box-shadow: 0 4px 12px rgba(0,0,0,0.08); padding: 20px; margin-bottom: 20px; }
            .grid-container { display: grid; grid-template-columns: repeat(auto-fit, minmax(400px, 1fr)); gap: 20px; }
            .table-container { max-height: 500px; overflow-y: auto; }
            table { width: 100%; border-collapse: collapse; margin-bottom: 10px; table-layout: fixed; }
            th, td { border: 1px solid #dee2e6; padding: 12px; text-align: left; word-wrap: break-word; }
            th { background-color: #007bff; color: white; position: sticky; top: 0; z-index: 1; }
            tr:nth-child(even) { background-color: #f2f2f2; }
            #endpointSearch { width: 100%; padding: 8px; margin-bottom: 10px; border: 1px solid #ccc; border-radius: 4px; box-sizing: border-box; }
        </style>
    </head>
    <body>
        <div class=" ++ DQ ++ "container" ++ DQ ++ ">
            <div class=" ++ DQ ++ "header" ++ DQ ++ "><h1>Burp Suite Analysis Report</h1></div>
            <div class=" ++ DQ ++ "report-meta" ++ DQ ++ "><p><strong>Analysis Period:</strong> ")%string.

Definition tpl_productivity : string :=
  ("</p></div>

            <div class=" ++ DQ ++ "card" ++ DQ ++ ">
                <h2>Productivity Summary</h2>
                <div class=" ++ DQ ++ "grid-container" ++ DQ ++ ">
                    ")%string.

Definition tpl_tools : string :=
  ("
                </div>
            </div>

            <div class=" ++ DQ ++ "card" ++ DQ ++ "><h2>Requests Over Time</h2><canvas id=" ++ DQ ++ "dailyActivityChart" ++ DQ ++ "></canvas></div>

            <div class=" ++ DQ ++ "card" ++ DQ ++ ">
                <h2>Tool Usage Summary</h2>
                <div class=" ++ DQ ++ "grid-container" ++ DQ ++ ">
                    <div>
                        <table>
                            <tr><th>Tool</th><th>Total Requests</th></tr>
                            ")%string.

Definition tpl_endpoints : string :=
  ("
                        </table>
                    </div>
                    <div><canvas id=" ++ DQ ++ "toolChart" ++ DQ ++ "></canvas></div>
                </div>
            </div>
            
            <div class=" ++ DQ ++ "card" ++ DQ ++ ">
                <h2>All Endpoints by Request Count</h2>
                <input type=" ++ DQ ++ "text" ++ DQ ++ " id=" ++ DQ ++ "endpointSearch" ++ DQ ++ " onkeyup=" ++ DQ ++ "filterTable()" ++ DQ ++ " placeholder=" ++ DQ ++ "Search for endpoints.." ++ DQ ++ ">
                <div class=" ++ DQ ++ "table-container" ++ DQ ++ ">
                    <table id=" ++ DQ ++ "endpointsTable" ++ DQ ++ ">
                        <tr><th style=" ++ DQ ++ "width: 85%;" ++ DQ ++ ">Endpoint</th><th style=" ++ DQ ++ "width: 15%;" ++ DQ ++ ">Request Count</th></tr>
                        ")%string.

Definition tpl_daily : string :=
  ("
                    </table>
                </div>
            </div>

            <div class=" ++ DQ ++ "card" ++ DQ ++ ">
                <h2>Daily Request Summary</h2>
                <div class=" ++ DQ ++ "table-container" ++ DQ ++ ">
                    <table>
                        <tr><th>Date</th><th>Total Requests</th><th>Tool Breakdown</th></tr>
                        ")%string.

Definition tpl_script : string :=
  ("
                    </table>
                </div>
            </div>
        </div>

        <script>
            const toolData = ")%string.

Definition tpl_labels : string :=
  (";

            new Chart('toolChart', { type: 'doughnut', data: { labels: toolData.map(item => item[0]), datasets: [{ data: toolData.map(item => item[1]), backgroundColor: ['#3498db', '#e74c3c', '#9b59b6', '#f1c40f', '#2ecc71', '#1abc9c', '#34495e'] }] }, options: { responsive: true, maintainAspectRatio: false } });
            
            new Chart('dailyActivityChart', {
                type: 'line',
                data: {
                    labels: ")%string.

Definition tpl_chart_data : string :=
  (",
                    datasets: [{ label: 'Total Requests per Day', data: ")%string.

Definition tpl_tail : string :=
  (", borderColor: '#28a745', backgroundColor: 'rgba(40, 167, 69, 0.1)', fill: true, tension: 0.1 }]
                },
                options: { scales: { x: { type: 'time', time: { unit: 'day', tooltipFormat: 'dd/MM/yyyy' } } }, responsive: true }
            });

            function filterTable() {
                let input, filter, table, tr, td, i, txtValue;
                input = document.getElementById(" ++ DQ ++ "endpointSearch" ++ DQ ++ ");
                filter = input.value.toUpperCase();
                table = document.getElementById(" ++ DQ ++ "endpointsTable" ++ DQ ++ ");
                tr = table.getElementsByTagName(" ++ DQ ++ "tr" ++ DQ ++ ");
                for (i = 1; i < tr.length; i++) { // Start from 1 to skip header
                    td = tr[i].getElementsByTagName(" ++ DQ ++ "td" ++ DQ ++ ")[0];
                    if (td) {
                        txtValue = td.textContent || td.innerText;
                        if (txtValue.toUpperCase().indexOf(filter) > -1) {
                            tr[i].style.display = " ++ DQ ++ "" ++ DQ ++ ";
                        } else {
                            tr[i].style.display = " ++ DQ ++ "none" ++ DQ ++ ";
                        }
                    }
                }
            }
        </script>
    </body>
    </html>
    ")%string.

(** Line 204. *)
Definition productivity_html (p : productivity) : string :=
  let item (k v : string) : string :=
    ("<div><strong>" ++ k ++ ":</strong> " ++ v ++ "</div>")%string in
  Py.concat_all
    [ item "Total Requests" (Py.str_of_nat (total_requests p));
      item "Analysis Period (Days)" (Py.str_of_nat (active_days p));
      item "Average Requests per Day" (avg_per_day p);
      item "Peak Activity Day" (peak_day p);
      item "Requests on Peak Day" (Py.str_of_nat (peak_day_count p)) ].

(** Line 216. *)
Definition tool_rows_html (tool_summary : dict cell nat) : outcome string :=
  rows <- mapM (fun tc : cell * nat =>
                  t <- html_escape_cell (fst tc) ;;
                  Ok ("<tr><td>" ++ t ++ "</td><td>" ++ Py.str_of_nat (snd tc)
                      ++ "</td></tr>")%string)
               (sort_desc tool_summary) ;;
  Ok (Py.concat_all rows).

(** Line 170. *)
Definition escaped_endpoints_html (endpoint_counts : dict cell nat) : string :=
  Py.concat_all
    (map (fun ec : cell * nat =>
            ("<tr><td>" ++ html_escape (str_of_cell (fst ec)) ++ "</td><td>"
             ++ Py.str_of_nat (snd ec) ++ "</td></tr>")%string)
         (sort_desc endpoint_counts)).

(** Line 171. *)
Definition escaped_daily_summary_html (daily_summary : dict string bucket)
  : outcome string :=
  rows <- mapM (fun dv : string * bucket =>
                  ts <- mapM (fun tc : cell * nat =>
                                t <- html_escape_cell (fst tc) ;;
                                Ok (t ++ ": " ++ Py.str_of_nat (snd tc))%string)
                             (tools (snd dv)) ;;
                  Ok ("<tr><td>" ++ dmY_of_Ymd (fst dv) ++ "</td><td>"
                      ++ Py.str_of_nat (total (snd dv)) ++ "</td><td>"
                      ++ Py.join "<br>" ts ++ "</td></tr>")%string)
               (sorted_items daily_summary) ;;
  Ok (Py.concat_all rows).

(** Line 246: [json.dumps(list(tool_summary.items()))]. *)
Definition tool_data_json (tool_summary : dict cell nat) : string :=
  json_array
    (map (fun tc : cell * nat =>
            json_array [json_cell (fst tc); Py.str_of_nat (snd tc)])
         tool_summary).

(** Lines 165-166. *)
Definition daily_chart_labels (daily_summary : dict string bucket) : string :=
  json_array (map (fun dv => json_string (fst dv)) (sorted_items daily_summary)).

Definition daily_chart_data (daily_summary : dict string bucket) : string :=
  json_array (map (fun dv => Py.str_of_nat (total (snd dv))) (sorted_items daily_summary)).

(** Lines 164-280: the report document. *)
Definition html_content (date_range : string) (a : analysis_data) : outcome string :=
  endpoints <- Ok (escaped_endpoints_html (endpoint_counts a)) ;;
  daily <- escaped_daily_summary_html (daily_summary a) ;;
  tool_rows <- tool_rows_html (tool_summary a) ;;
  Ok (tpl_head ++ date_range
      ++ tpl_productivity ++ productivity_html (productivity_metrics a)
      ++ tpl_tools ++ tool_rows
      ++ tpl_endpoints ++ endpoints
      ++ tpl_daily ++ daily
      ++ tpl_script ++ tool_data_json (tool_summary a)
      ++ tpl_labels ++ daily_chart_labels (daily_summary a)
      ++ tpl_chart_data ++ daily_chart_data (daily_summary a)
      ++ tpl_tail)%string.

(** ** [analyze_burp_log] (source lines 61-291) *)

Section Analyze.
Context {L : PyLib}.

(** Lines 111-291 on the filtered, time-resolved record set. *)
Definition aggregate (rs : list record) : outcome (string * analysis_data) :=
  a <- analysis_of rs ;;
  html <- html_content (date_range_str rs) a ;;
  Ok (html, a).

Definition analyze_burp_log (df : DataFrame)
  (exclude_extensions exclude_tools : option (list string))
  : outcome (string * analysis_data) :=
  rs <- resolve_stage df exclude_extensions exclude_tools ;;
  aggregate rs.

End Analyze.

(** ** A reference implementation of [PyLib]

    Used for the worked examples.  The routines follow their library
    counterparts on ASCII text: the pattern that [strptime] builds for the
    request-time format, [email.utils.parsedate_to_datetime] with the
    [datetime], [timedelta] and [timezone] constructors it calls,
    [urllib.parse.urlparse] up to the host name with the check of
    bracketed hosts, and the correctly rounded float division and [.2f]
    rendering.  The bounds of the pandas nanosecond range and of the float
    range are not applied. *)

(** [s.split(sep)] for a one-character separator. *)
Fixpoint split_on (sep : ascii) (s : string) : list string :=
  match s with
  | EmptyString => [EmptyString]
  | String c s' =>
      if Ascii.eqb c sep then EmptyString :: split_on sep s'
      else
        match split_on sep s' with
        | p :: ps => String c p :: ps
        | [] => [String c EmptyString]
        end
  end.

Module Ref.

Definition is_digit (c : ascii) : bool :=
  let n := nat_of_ascii c in (48 <=? n) && (n <=? 57).

Definition is_alpha (c : ascii) : bool :=
  let n := nat_of_ascii (Py.lower_char c) in (97 <=? n) && (n <=? 122).

(** Reads at most [k] decimal digits: their value, how many were read, and
    the rest. *)
Fixpoint read_digits (k : nat) (acc cnt : nat) (s : string) : nat * nat * string :=
  match k, s with
  | S k', String c s' =>
      if is_digit c then read_digits k' (10 * acc + (nat_of_ascii c - 48)) (S cnt) s'
      else (acc, cnt, s)
  | _, _ => (acc, cnt, s)
  end.

(** A number of [lo] to [hi] digits. *)
Definition number (lo hi : nat) (s : string) : option (nat * string) :=
  match read_digits hi 0 0 s with
  | (v, cnt, rest) => if lo <=? cnt then Some (v, rest) else None
  end.

Definition expect (lit s : string) : option string := match_literal_ci lit s.

Definition is_leap (y : nat) : bool :=
  ((y mod 4 =? 0) && negb (y mod 100 =? 0)) || (y mod 400 =? 0).

Definition days_in_month (y m : nat) : nat :=
  match m with
  | 2 => if is_leap y then 29 else 28
  | 4 | 6 | 9 | 11 => 30
  | _ => 31
  end.

Definition valid_date (y m d : nat) : bool :=
  (1 <=? m) && (m <=? 12) && (1 <=? d) && (d <=? days_in_month y m).

(** [s.find(c)] *)
Fixpoint find_char (c : ascii) (s : string) : option nat :=
  match s with
  | EmptyString => None
  | String x s' => if Ascii.eqb x c then Some 0 else option_map S (find_char c s')
  end.


(** The part of [l] before the first element that satisfies [p], and the
    rest. *)
Fixpoint break_at {A} (p : A -> bool) (l : list A) : list A * list A :=
  match l with
  | [] => ([], [])
  | a :: l' => if p a then ([], l) else let (x, y) := break_at p l' in (a :: x, y)
  end.

(** *** The request time *)

(** One or more white-space characters. *)
Definition spaces (s : string) : option string :=
  match s with
  | String c _ => if Py.is_space c then Some (Py.lstrip s) else None
  | EmptyString => None
  end.

(** The day of the month: one or two digits, or a blank and one digit. *)
Definition day_field (s : string) : option (nat * string) :=
  match s with
  | String c rest => if Ascii.eqb c " " then number 1 1 rest else number 1 2 s
  | EmptyString => None
  end.

(** The timestamp [sec] seconds after the start of the minute [mi], for
    [sec] up to 61: the seconds 60 and 61 are read into the next minute. *)
Definition with_seconds (y mo d h mi sec : nat) : naive :=
  if sec <? 60 then mkNaive y mo d h mi sec
  else if mi <? 59 then mkNaive y mo d h (S mi) (sec - 60)
  else if h <? 23 then mkNaive y mo d (S h) 0 (sec - 60)
  else if d <? days_in_month y mo then mkNaive y mo (S d) 0 0 (sec - 60)
  else if mo <? 12 then mkNaive y (S mo) 1 0 0 (sec - 60)
  else mkNaive (S y) 1 1 0 0 (sec - 60).

(** Month/day/year hour:minute:second AM|PM, the whole text. *)
Definition strptime_request_time (s : string) : option naive :=
  match number 1 2 s with None => None | Some (mo, s) =>
  match expect "/" s with None => None | Some s =>
  match day_field s with None => None | Some (d, s) =>
  match expect "/" s with None => None | Some s =>
  match number 4 4 s with None => None | Some (y, s) =>
  match spaces s with None => None | Some s =>
  match number 1 2 s with None => None | Some (h, s) =>
  match expect ":" s with None => None | Some s =>
  match number 1 2 s with None => None | Some (mi, s) =>
  match expect ":" s with None => None | Some s =>
  match number 1 2 s with None => None | Some (sec, s) =>
  match spaces s with None => None | Some s =>
  let pm := if String.eqb (Py.lower s) "am" then Some false
            else if String.eqb (Py.lower s) "pm" then Some true else None in
  match pm with None => None | Some pm =>
  if (1 <=? h) && (h <=? 12) && (1 <=? y) && valid_date y mo d
     && (mi <=? 59) && (sec <=? 61)
  then Some (with_seconds y mo d ((h mod 12) + (if pm then 12 else 0)) mi sec)
  else None
  end end end end end end end end end end end end end.

(** *** The header date *)

(** [s.split()]: the maximal runs without white space. *)
Fixpoint split_ws (s : string) : list string :=
  match s with
  | EmptyString => []
  | String c s' =>
      if Py.is_space c then split_ws s'
      else
        match s' with
        | EmptyString => [String c EmptyString]
        | String c' _ =>
            if Py.is_space c' then String c EmptyString :: split_ws s'
            else
              match split_ws s' with
              | w :: ws => String c w :: ws
              | [] => [String c EmptyString]
              end
        end
  end.

(** [s[s.rfind(c)+1:]] when [c] occurs in [s]. *)
Fixpoint after_last (c : ascii) (s : string) : option string :=
  match s with
  | EmptyString => None
  | String x s' =>
      match after_last c s' with
      | Some r => Some r
      | None => if Ascii.eqb x c then Some s' else None
      end
  end.

(** [if s[-1] == ',': s = s[:-1]] *)
Definition drop_final_comma (s : string) : string :=
  if Py.endswith s "," then String.substring 0 (String.length s - 1) s else s.

Fixpoint count_digits (s : string) : nat :=
  match s with
  | EmptyString => 0
  | String c s' => (if is_digit c then 1 else 0) + count_digits s'
  end.

(** Decimal digits, single underscores allowed between digits. *)
Fixpoint int_digits (acc : Z) (after_digit : bool) (s : string) : option Z :=
  match s with
  | EmptyString => if after_digit then Some acc else None
  | String c s' =>
      if is_digit c
      then int_digits (10 * acc + Z.of_nat (nat_of_ascii c - 48))%Z true s'
      else if Ascii.eqb c "_" && after_digit
      then match s' with
           | String d _ => if is_digit d then int_digits acc false s' else None
           | EmptyString => None
           end
      else None
  end.

(** [int(s)] on ASCII text without white space, [None] for its
    [ValueError]: an optional sign and decimal digits, at most 4300 of
    them. *)
Definition py_int (s : string) : option Z :=
  if 4300 <? count_digits s then None
  else
    match s with
    | String c s' =>
        if Ascii.eqb c "+" then int_digits 0 false s'
        else if Ascii.eqb c "-" then option_map Z.opp (int_digits 0 false s')
        else int_digits 0 false s
    | EmptyString => None
    end.

Definition daynames : list string :=
  ["mon"; "tue"; "wed"; "thu"; "fri"; "sat"; "sun"].

Definition monthnames : list string :=
  ["jan"; "feb"; "mar"; "apr"; "may"; "jun"; "jul"; "aug"; "sep"; "oct"; "nov"; "dec";
   "january"; "february"; "march"; "april"; "may"; "june"; "july"; "august";
   "september"; "october"; "november"; "december"].

(** The zone names the parser knows, with their offsets as hours and
    minutes. *)
Definition timezones : list (string * Z) :=
  [ ("ut", 0); ("utc", 0); ("gmt", 0); ("z", 0);
    ("ast", -400); ("adt", -300); ("est", -500); ("edt", -400);
    ("cst", -600); ("cdt", -500); ("mst", -700); ("mdt", -600);
    ("pst", -800); ("pdt", -700) ]%Z.

(** The number of the month [name] (given in lower case). *)
Definition month_number (name : string) : option nat :=
  match index_of name monthnames with
  | Some i => Some (if 12 <=? i then i - 11 else S i)
  | None => None
  end.

(** The day name in front of the date is skipped, and so is what precedes
    a comma in the first word. *)
Definition skip_dayname (data : list string) : list string :=
  match data with
  | [] => []
  | w :: ws =>
      if Py.endswith w "," || existsb (String.eqb (Py.lower w)) daynames then ws
      else match after_last "," w with Some r => r :: ws | None => data end
  end.

(** A first word of the form [DD-Mon-YY] is taken apart. *)
Definition rfc850 (data : list string) : list string :=
  match data with
  | [a; b; c] =>
      match split_on "-" a with
      | [x; y; z] => [x; y; z; b; c]
      | _ => data
      end
  | _ => data
  end.

(** A zone written without blank after the time is split off; a date of
    four words without such a zone gets an empty one. *)
Definition split_zone (data : list string) : list string :=
  match data with
  | [a; b; c; s] =>
      match (match find_char "+" s with Some i => Some i | None => find_char "-" s end) with
      | Some (S k) =>
          [a; b; c; String.substring 0 (S k) s;
           String.substring (S k) (String.length s - S k) s]
      | _ => [a; b; c; s; EmptyString]
      end
  | _ => data
  end.

(** The hour, minute and second texts of the time word. *)
Definition split_time (tm : string) : option (string * string * string) :=
  match split_on ":" tm with
  | [h; m] => Some (h, m, "0")
  | [h; m; s] => Some (h, m, s)
  | [x] =>
      match find_char "." x with
      | Some _ =>
          match split_on "." x with
          | [h; m] => Some (h, m, "0")
          | [h; m; s] => Some (h, m, s)
          | _ => None
          end
      | None => None
      end
  | _ => None
  end.

(** The zone as an offset in seconds; [None] makes the result naive. *)
Definition tzoffset (tz : string) : option Z :=
  let hhmm :=
    match find (fun nz => String.eqb (fst nz) (Py.lower tz)) timezones with
    | Some nz => Some (snd nz)
    | None =>
        match py_int tz with
        | Some 0%Z => if Py.startswith tz "-" then None else Some 0%Z
        | r => r
        end
    end in
  option_map
    (fun v => (Z.sgn v * ((Z.abs v / 100) * 3600 + (Z.abs v mod 100) * 60))%Z) hhmm.

Record fields := mkFields {
  f_year : Z; f_month : nat; f_day : Z;
  f_hour : Z; f_minute : Z; f_second : Z;
  f_zone : option Z
}.

(** [_parsedate_tz]: the fields of the date, or [None]. *)
Definition parsedate_tz (data : string) : option fields :=
  match split_zone (rfc850 (skip_dayname (split_ws data))) with
  | String d0 dd' :: String m0 mm' :: String y0 yy' :: tm :: tz :: _ =>
      let dd := String d0 dd' in
      let yy := String y0 yy' in
      let mm := Py.lower (String m0 mm') in
      let '(dd, mm) :=
        match month_number mm with
        | Some _ => (dd, mm)
        | None => (mm, Py.lower dd)
        end in
      match month_number mm with
      | None => None
      | Some mo =>
          let dd := drop_final_comma dd in
          let '(yy, tm) :=
            match find_char ":" yy with
            | Some (S _) => (tm, yy)
            | _ => (yy, tm)
            end in
          let yy := drop_final_comma yy in
          match yy with
          | EmptyString => None
          | String c _ =>
              let '(yy, tz) := if is_digit c then (yy, tz) else (tz, yy) in
              match split_time (drop_final_comma tm) with
              | None => None
              | Some (thh, tmm, tss) =>
                  match py_int yy, py_int dd, py_int thh, py_int tmm, py_int tss with
                  | Some y, Some d, Some h, Some mi, Some s =>
                      let y := if (y <? 100)%Z
                               then (if (68 <? y)%Z then y + 1900 else y + 2000)%Z
                               else y in
                      Some (mkFields y mo d h mi s (tzoffset tz))
                  | _, _, _, _, _ => None
                  end
              end
          end
      end
  | _ => None
  end.

(** [timezone(timedelta(seconds=tz))]: [timedelta] raises [OverflowError]
    beyond 999999999 days, and [timezone] raises [ValueError] unless the
    offset is strictly within 24 hours. *)
Definition tzinfo_of (tz : option Z) : (option Z + exn)%type :=
  match tz with
  | None => inl None
  | Some secs =>
      let days := (secs / 86400)%Z in
      if (days <? -999999999)%Z || (999999999 <? days)%Z then inr OverflowError
      else if (-86400 <? secs)%Z && (secs <? 86400)%Z then inl (Some secs)
      else inr ValueError
  end.

(** The value fits a C int. *)
Definition c_int (z : Z) : bool := (-2147483648 <=? z)%Z && (z <=? 2147483647)%Z.

(** [datetime(year, month, day, hour, minute, second)]: [OverflowError]
    for a field beyond a C int, [ValueError] for one out of range. *)
Definition py_datetime (f : fields) : (naive + exn)%type :=
  let in_range (lo hi z : Z) := (lo <=? z)%Z && (z <=? hi)%Z in
  if negb (forallb c_int [f_year f; f_day f; f_hour f; f_minute f; f_second f])
  then inr OverflowError
  else if in_range 1%Z 9999%Z (f_year f) && in_range 1%Z 31%Z (f_day f)
          && in_range 0%Z 23%Z (f_hour f) && in_range 0%Z 59%Z (f_minute f)
          && in_range 0%Z 59%Z (f_second f)
  then
    let y := Z.to_nat (f_year f) in
    let d := Z.to_nat (f_day f) in
    if valid_date y (f_month f) d
    then inl (mkNaive y (f_month f) d (Z.to_nat (f_hour f)) (Z.to_nat (f_minute f))
                (Z.to_nat (f_second f)))
    else inr ValueError
  else inr ValueError.

(** [email.utils.parsedate_to_datetime]; the zone is built before the
    date. *)
Definition parsedate_to_datetime (data : string) : (datetime + exn)%type :=
  match parsedate_tz data with
  | None => inr ValueError
  | Some f =>
      match tzinfo_of (f_zone f) with
      | inr e => inr e
      | inl tz =>
          match py_datetime f with
          | inl t => inl (mkDatetime t tz)
          | inr e => inr e
          end
      end
  end.

(** *** The host name of a URL *)

Definition is_scheme_char (c : ascii) : bool :=
  is_alpha c || is_digit c || existsb (Ascii.eqb c) ["+"%char; "-"%char; "."%char].

(** The text after the first colon when all that precedes it can be a
    scheme. *)
Fixpoint after_scheme_chars (s : string) : option string :=
  match s with
  | EmptyString => None
  | String c s' =>
      if Ascii.eqb c ":" then Some s'
      else if is_scheme_char c then after_scheme_chars s' else None
  end.

Definition drop_scheme (url : string) : string :=
  match url with
  | String c _ =>
      if is_alpha c then
        match after_scheme_chars url with Some rest => rest | None => url end
      else url
  | EmptyString => url
  end.

Fixpoint take_netloc (s : string) : string :=
  match s with
  | EmptyString => EmptyString
  | String c s' =>
      if existsb (Ascii.eqb c) ["/"%char; "?"%char; "#"%char] then EmptyString
      else String c (take_netloc s')
  end.

Fixpoint contains (c : ascii) (s : string) : bool :=
  match s with
  | EmptyString => false
  | String x s' => Ascii.eqb x c || contains c s'
  end.

(** [netloc.rpartition('@')[2]] *)
Fixpoint after_last_at (s : string) : string :=
  match s with
  | EmptyString => EmptyString
  | String c s' => if contains "@" s then after_last_at s' else s
  end.

Fixpoint until_char (c : ascii) (s : string) : string :=
  match s with
  | EmptyString => EmptyString
  | String x s' => if Ascii.eqb x c then EmptyString else String x (until_char c s')
  end.

(** Lower case up to a percent sign, the zone after it unchanged. *)
Fixpoint lower_host (s : string) : string :=
  match s with
  | EmptyString => EmptyString
  | String c s' => if Ascii.eqb c "%" then s else String (Py.lower_char c) (lower_host s')
  end.

Fixpoint lstrip_c0 (s : string) : string :=
  match s with
  | String c s' => if nat_of_ascii c <=? 32 then lstrip_c0 s' else s
  | EmptyString => EmptyString
  end.

Fixpoint remove_tab_cr_lf (s : string) : string :=
  match s with
  | EmptyString => EmptyString
  | String c s' =>
      let n := nat_of_ascii c in
      if (n =? 9) || (n =? 10) || (n =? 13) then remove_tab_cr_lf s'
      else String c (remove_tab_cr_lf s')
  end.

Definition is_hex (c : ascii) : bool :=
  is_digit c || (let n := nat_of_ascii (Py.lower_char c) in (97 <=? n) && (n <=? 102)).

(** One to four hexadecimal digits. *)
Definition hextet (s : string) : bool :=
  (1 <=? String.length s) && (String.length s <=? 4)
  && forallb is_hex (list_ascii_of_string s).

(** A decimal number of at most three digits and at most 255, without
    leading zero. *)
Definition octet (s : string) : bool :=
  match s with
  | EmptyString => false
  | String c _ =>
      forallb is_digit (list_ascii_of_string s) && (String.length s <=? 3)
      && (String.eqb s "0" || negb (Ascii.eqb c "0"))
      && (fst (fst (read_digits 3 0 0 s)) <=? 255)
  end.

(** [IPv4Address(s)] is accepted. *)
Definition ipv4 (s : string) : bool :=
  match split_on "." s with
  | [a; b; c; d] => octet a && octet b && octet c && octet d
  | _ => false
  end.

Definition is_empty (s : string) : bool :=
  match s with EmptyString => true | String _ _ => false end.

(** The hextets of an address, given the parts between its colons: at
    most one empty part inside marks the run of zeros left out, and an
    empty first or last part is allowed only next to it. *)
Definition hextets_ok (parts : list string) : bool :=
  let n := List.length parts in
  let inner := removelast (tl parts) in
  match List.length (filter is_empty inner) with
  | 0 => (n =? 8) && forallb hextet parts
  | 1 =>
      let skip_index := S (List.length (fst (break_at is_empty inner))) in
      let first_empty := is_empty (hd EmptyString parts) in
      let last_empty := is_empty (last parts EmptyString) in
      let parts_hi := if first_empty then skip_index - 1 else skip_index in
      let parts_lo := if last_empty then n - skip_index - 2 else n - skip_index - 1 in
      (negb first_empty || (parts_hi =? 0))
      && (negb last_empty || (parts_lo =? 0))
      && (parts_hi + parts_lo <=? 7)
      && forallb hextet (firstn parts_hi parts)
      && forallb hextet (skipn (n - parts_lo) parts)
  | _ => false
  end.

(** [IPv6Address(s)] is accepted: an optional scope after a percent sign,
    at least three and at most nine parts, the last one possibly an IPv4
    address that stands for two hextets. *)
Definition ipv6 (s : string) : bool :=
  let addr := until_char "%" s in
  let scope_ok :=
    match find_char "%" s with
    | None => true
    | Some i =>
        let scope := String.substring (S i) (String.length s - S i) s in
        negb (is_empty scope) && negb (contains "%" scope)
    end in
  scope_ok &&
  let parts := split_on ":" addr in
  (3 <=? List.length parts) &&
  let lastp := last parts EmptyString in
  if contains "." lastp
  then ipv4 lastp && (List.length parts <=? 8)
       && hextets_ok (removelast parts ++ ["0"; "0"])
  else (List.length parts <=? 9) && hextets_ok parts.

(** What may stand between the brackets: an IPv6 address, or a later
    address version announced by the letter v. *)
Definition bracketed_host_ok (hostname : string) : bool :=
  match hostname with
  | String c rest =>
      if Ascii.eqb c "v" then
        match snd (break_at (fun x => negb (is_hex x)) (list_ascii_of_string rest)) with
        | dot :: _ :: _ =>
            Ascii.eqb dot "." && negb (is_empty rest)
            && is_hex (hd "."%char (list_ascii_of_string rest))
        | _ => false
        end
      else ipv6 hostname
  | EmptyString => false
  end.

(** The check of a network location that holds both brackets. *)
Definition bracketed_netloc_ok (netloc : string) : bool :=
  let hostname_and_port := after_last_at netloc in
  match find_char "[" hostname_and_port with
  | Some i =>
      let bracketed :=
        String.substring (S i) (String.length hostname_and_port - S i) hostname_and_port in
      let port :=
        match find_char "]" bracketed with
        | Some j => String.substring (S j) (String.length bracketed - S j) bracketed
        | None => EmptyString
        end in
      (i =? 0)
      && (is_empty port || Py.startswith port ":")
      && bracketed_host_ok (until_char "]" bracketed)
  | None => bracketed_host_ok (until_char ":" hostname_and_port)
  end.

(** [urlparse(url).hostname]: the host part of the network location that
    follows [//], in lower case; [None] when there is none; [ValueError]
    when the network location has an unmatched bracket or brackets that
    do not hold an IP address. *)
Definition urlparse_hostname (url : string) : outcome (option string) :=
  let url := drop_scheme (remove_tab_cr_lf (lstrip_c0 url)) in
  match url with
  | String a (String b rest) =>
      if Ascii.eqb a "/" && Ascii.eqb b "/" then
        let netloc := take_netloc rest in
        if xorb (contains "[" netloc) (contains "]" netloc) then Raise ValueError
        else if contains "[" netloc && negb (bracketed_netloc_ok netloc)
        then Raise ValueError
        else
          let hostinfo := after_last_at netloc in
          let host :=
            match find_char "[" hostinfo with
            | Some i =>
                until_char "]"
                  (String.substring (S i) (String.length hostinfo - S i) hostinfo)
            | None => until_char ":" hostinfo
            end in
          match host with
          | EmptyString => Ok None
          | _ => Ok (Some (lower_host host))
          end
      else Ok None
  | _ => Ok None
  end.

(** *** The average *)

(** [a / b] rounded to the nearest integer, a tie to the even one. *)
Definition div_half_even (a b : Z) : Z :=
  let q := (a / b)%Z in
  let r := (a mod b)%Z in
  if (b <? 2 * r)%Z || ((2 * r =? b)%Z && Z.odd q) then (q + 1)%Z else q.

(** The float nearest to [n / d], for positive [n] and [d], as a mantissa
    of 53 bits and an exponent: the result of the division of two ints. *)
Definition float_div (n d : Z) : Z * Z :=
  let k := (Z.log2 n - Z.log2 d)%Z in
  let ge := if (0 <=? k)%Z then (d * 2 ^ k <=? n)%Z else (d <=? n * 2 ^ (- k))%Z in
  let f := if ge then k else (k - 1)%Z in
  let e := (f - 52)%Z in
  let m := if (0 <=? e)%Z then div_half_even n (d * 2 ^ e)
           else div_half_even (n * 2 ^ (- e)) d in
  (m, e).

(** [f"{n / d:.2f}"]: the float quotient, written with two decimals
    rounded from its exact value. *)
Definition format_2f (n d : nat) : string :=
  match n with
  | 0 => "0.00"
  | _ =>
      let (m, e) := float_div (Z.of_nat n) (Z.of_nat d) in
      let h := if (0 <=? e)%Z then (m * 2 ^ e * 100)%Z
               else div_half_even (m * 100) (2 ^ (- e)) in
      (Py.str_of_nat (Z.to_nat (h / 100)) ++ "." ++ Py.pad2 (Z.to_nat (h mod 100)))%string
  end.

Definition lib : PyLib :=
  Build_PyLib strptime_request_time parsedate_to_datetime urlparse_hostname
    format_2f.

End Ref.

(** ** Notions the specification is stated with *)

(** The keep/drop decision of the filter stage on one row of [df]. *)
Definition dropped (df : DataFrame) (exts tools : option (list string))
  (row : list cell) : bool :=
  ext_excluded (as_list exts) (cell_of df "Request.URL" row)
  || tool_excluded (as_list tools) (cell_of df "Request.Tool" row).

(** [s] ends with the suffix [suf]. *)
Definition has_suffix (s suf : string) : Prop :=
  exists p, s = (p ++ suf)%string.

(** [d.get(k)] *)
Fixpoint get {K V} (eqb : K -> K -> bool) (k : K) (d : dict K V) : option V :=
  match d with
  | [] => None
  | (k', v) :: d' => if eqb k' k then Some v else get eqb k d'
  end.

(** The stored count of [k], zero when [k] is not a key. *)
Definition count_for {K} (eqb : K -> K -> bool) (k : K) (d : dict K nat) : nat :=
  match get eqb k d with Some n => n | None => 0 end.

(** The sum of the bucket totals of [daily_summary]. *)
Definition sum_totals (d : dict string bucket) : nat :=
  list_sum (map (fun db => total (snd db)) d).

(** The characters [json.dumps] copies unchanged: printable ASCII other
    than the double quote and the backslash. *)
Definition json_plain (c : ascii) : bool :=
  let n := nat_of_ascii c in
  (32 <=? n) && (n <=? 126) && negb (n =? 34) && negb (n =? 92).

(** The characters that open or close markup or an attribute value. *)
Definition markup_char (c : ascii) : bool :=
  let n := nat_of_ascii c in
  (n =? 60) || (n =? 62) || (n =? 34) || (n =? 39).

(** [needle in haystack] on text. *)
Fixpoint contains_text (needle haystack : string) : bool :=
  Py.startswith haystack needle ||
  match haystack with
  | EmptyString => false
  | String _ h' => contains_text needle h'
  end.

Section Notions.
Context {L : PyLib}.

(** The header dates of the rows of [df], as
    [df['Response.Headers'].apply(extract_date_from_headers)] gives them. *)
Definition header_dates (df : DataFrame) : outcome (list (option datetime)) :=
  mapM (fun r => extract_date_from_headers (cell_of df "Response.Headers" r)) (rows df).

(** The record [row] of [df] has no resolvable Event Time: its request
    time does not parse and its header block yields no date (a column that
    is absent gives none). *)
Definition unresolvable (df : DataFrame) (row : list cell) : Prop :=
  to_datetime (cell_of df "Request.Time" row) = None /\
  forall d, extract_date_from_headers (cell_of df "Response.Headers" row) <> Ok (Some d).

(** No record of [df] has a resolvable Event Time. *)
Definition no_resolvable_time (df : DataFrame) : Prop :=
  forall row, In row (rows df) -> unresolvable df row.

(** The terminal conditions: the record set is empty, the filters remove
    every record, or no record that the filters keep has a resolvable
    Event Time. *)
Definition terminal_condition (df : DataFrame)
  (exts tools : option (list string)) : Prop :=
  empty df = true \/
  (forall row, In row (rows df) -> dropped df exts tools row = true) \/
  (forall row, In row (rows df) -> dropped df exts tools row = false ->
               unresolvable df row).

End Notions.

(** ** Example inputs *)

Module Examples.

(** A frame without the request URL field. *)
Definition df_no_url : DataFrame :=
  mkDF ["Request.Tool"; "Request.Time"] [object; object]
       [[Str "Proxy"; Str "01/02/2024 10:00:00 AM"]].

(** A frame without the request tool field (an export whose header row
    has the two names [has_header] looks for, [Entry.Tool] and
    [Request.URL]). *)
Definition df_no_tool : DataFrame :=
  mkDF ["Entry.Tool"; "Request.URL"; "Request.Time"] [object; object; object]
       [[Str "Proxy"; Str "http://a/x"; Str "01/02/2024 10:00:00 AM"]].

Definition headers (date_value : string) : cell :=
  Str ("HTTP/1.1 200 OK" ++ String LF "Server: x" ++ String LF "Date: "
       ++ date_value ++ String LF "Content-Length: 0")%string.

(** No usable request time; every header block has a valid date line, all
    in GMT. *)
Definition df_header_dates : DataFrame :=
  mkDF ["Request.URL"; "Request.Tool"; "Request.Time"; "Response.Headers"]
       [object; object; object; object]
       [[Str "http://a/x"; Str "Proxy"; Null; headers "Mon, 01 Jan 2024 10:00:00 GMT"];
        [Str "http://a/y"; Str "Proxy"; Str "n/a"; headers "Tue, 02 Jan 2024 23:15:00 GMT"]].

(** The same, the two servers stating their dates with different offsets. *)
Definition df_mixed_offsets : DataFrame :=
  mkDF ["Request.URL"; "Request.Tool"; "Response.Headers"]
       [object; object; object]
       [[Str "http://a/x"; Str "Proxy"; headers "Mon, 01 Jan 2024 10:00:00 GMT"];
        [Str "http://b/y"; Str "Proxy"; headers "Mon, 01 Jan 2024 11:00:00 +0100"]].

Definition cols : list string :=
  ["Request.Time"; "Request.Tool"; "Request.URL"; "Response.Headers"].

(** The dtypes of these columns in a frame read from a file whose header
    blocks are all empty. *)
Definition no_headers : list dtype := [object; object; object; float64].

Definition df_mixed : DataFrame :=
  mkDF cols no_headers
       [[Str "01/02/2024 10:00:00 AM"; Str "Repeater"; Str "http://a/x"; Null];
        [Str "01/02/2024 11:00:00 PM"; Str "Repeater"; Str "http://a/x"; Null];
        [Str "01/03/2024 12:30:05 AM"; Str "Scanner"; Str "http://a/y"; Null];
        [Str "01/03/2024 09:00:00 AM"; Str "scanner"; Str "http://x/a.JS?x=1"; Null];
        [Str "01/04/2024 09:00:00 AM"; Str "Proxy"; Str "http://x/lib.min.JS"; Null]].

(** What the filters keep of [df_mixed] for the extension js and the tool
    Scanner. *)
Definition df_mixed_kept : DataFrame :=
  mkDF cols no_headers
       [[Str "01/02/2024 10:00:00 AM"; Str "Repeater"; Str "http://a/x"; Null];
        [Str "01/02/2024 11:00:00 PM"; Str "Repeater"; Str "http://a/x"; Null];
        [Str "01/03/2024 09:00:00 AM"; Str "scanner"; Str "http://x/a.JS?x=1"; Null]].

(** One record whose URL field is missing. *)
Definition df_null_url : DataFrame :=
  mkDF cols [object; object; float64; float64]
       [[Str "01/02/2024 10:00:00 AM"; Str "Proxy"; Null; Null]].

(** One record whose URL has no host name. *)
Definition df_no_host : DataFrame :=
  mkDF cols no_headers
       [[Str "01/02/2024 10:00:00 AM"; Str "Proxy"; Str "not a url"; Null]].

(** One record whose tool field carries markup. *)
Definition df_script_tool : DataFrame :=
  mkDF cols no_headers
       [[Str "01/02/2024 10:00:00 AM"; Str "</script><script>alert(1)</script>";
         Str "http://a/x"; Null]].

(** Records that cannot be given a time. *)
Definition df_no_time : DataFrame :=
  mkDF cols [object; object; object; object]
       [[Str "yesterday"; Str "Proxy"; Str "http://a/x"; Str "Server: x"];
        [Null; Str "Proxy"; Str "http://a/y"; Null]].

(** A frame without the request tool field whose request times are in
    another format. *)
Definition df_untimed_no_tool : DataFrame :=
  mkDF ["Entry.Tool"; "Request.URL"; "Request.Time"] [object; object; object]
       [[Str "Proxy"; Str "http://a/x"; Str "2024-01-02 10:00:00"]].

(** A frame read from a file whose URL and header fields are all empty,
    the request times being in another format. *)
Definition df_untimed_blank_url : DataFrame :=
  mkDF cols [object; object; float64; float64]
       [[Str "2024-01-02 10:00:00"; Str "Proxy"; Null; Null]].

(** A record whose only date is a header date with a zone beyond the
    range of [timedelta]. *)
Definition df_zone_overflow : DataFrame :=
  mkDF cols [object; object; object; object]
       [[Str "2024-01-02 10:00:00"; Str "Proxy"; Str "http://a/x";
         headers "Mon, 01 Jan 2024 10:00:00 +999999999999999"]].

Definition t (d h : nat) : naive := mkNaive 2024 1 d h 0 0.

(** A filtered, time-resolved record set. *)
Definition rs_sample : list record :=
  [ mkRecord (Str "http://a/x") (Str "Repeater") (t 2 10);
    mkRecord (Str "http://a/x") (Str "Repeater") (t 2 23);
    mkRecord (Str "http://a/y") (Str "Scanner") (t 3 0);
    mkRecord Null Null (t 3 9);
    mkRecord (Str "not a url") (Str "Proxy") (t 4 9) ].

End Examples.

(** ** The loader's header test and the driver's inputs *)

(** [DEFAULT_HEADERS] (source lines 14-16). *)
Definition DEFAULT_HEADERS : list string :=
  [
    "Entry.Tool"; "Entry.Tags"; "Entry.InScope"; "Entry.ListenInterface";
    "Entry.ClientIP"; "Request.AsBase64"; "Request.Headers"; "Request.Body";
    "Request.BodyLength"; "Request.Time"; "Request.Length"; "Request.Tool";
    "Request.Comment"; "Request.Complete"; "Request.URL"; "Request.Method";
    "Request.Path"; "Request.Query"; "Request.PathQuery"; "Request.Protocol";
    "Request.IsSSL"; "Request.UsesCookieJar"; "Request.Hostname";
    "Request.Host"; "Request.Port"; "Request.ContentType";
    "Request.RequestHttpVersion"; "Request.Extension"; "Request.Referrer";
    "Request.HasParams"; "Request.HasGetParam"; "Request.HasPostParam";
    "Request.HasSentCookies"; "Request.CookieString";
    "Request.ParameterCount"; "Request.Parameters"; "Request.Origin";
    "Response.AsBase64"; "Response.Headers"; "Response.Body";
    "Response.BodyLength"; "Response.hash"; "Response.Time";
    "Response.Length"; "Response.Redirect"; "Response.Status";
    "Response.StatusText"; "Response.ResponseHttpVersion"; "Response.RTT";
    "Response.Title"; "Response.ContentType"; "Response.InferredType";
    "Response.MimeType"; "Response.HasSetCookies"; "Response.Cookies";
    "Response.ReflectedParams"; "Response.Reflections" ].

Definition CR : ascii := ascii_of_nat 13.

(** [f.readline()] on a file opened in text mode: the text up to the first
    line end (LF, CR or CR LF, each read as LF), with that line end. *)
Fixpoint readline (content : string) : string :=
  match content with
  | EmptyString => EmptyString
  | String c rest =>
      if Ascii.eqb c LF || Ascii.eqb c CR then String LF EmptyString
      else String c (readline rest)
  end.

(** [has_header] (source lines 18-27); the file is its text, or [None] when
    opening or reading it raises. *)
Definition has_header (file : option string) : bool :=
  match file with
  | Some content =>
      let first_line := readline content in
      contains_text "Entry.Tool" first_line && contains_text "Request.URL" first_line
  | None => false
  end.

(** The truth value of a text: it is not empty. *)
Definition nonempty (s : string) : bool :=
  match s with EmptyString => false | String _ _ => true end.

(** Line 312 of [main]:
    [[ext.strip().lower() for ext in exclude_ext_str.split(',') if ext.strip()]]. *)
Definition main_exclude_extensions (exclude_ext_str : string) : list string :=
  map (fun ext => Py.lower (Py.strip ext))
      (filter (fun ext => nonempty (Py.strip ext)) (split_on "," exclude_ext_str)).

(** Line 313 of [main]:
    [[tool.strip() for tool in exclude_tools_str.split(',') if tool.strip()]]. *)
Definition main_exclude_tools (exclude_tools_str : string) : list string :=
  map Py.strip
      (filter (fun tool => nonempty (Py.strip tool)) (split_on "," exclude_tools_str)).

(** Line 347 of [main], the two lists being those of lines 312-313. *)
Definition main_analyze {L : PyLib} (master_df : DataFrame)
  (exclude_ext_str exclude_tools_str : string) : outcome (string * analysis_data) :=
  analyze_burp_log master_df
    (Some (main_exclude_extensions exclude_ext_str))
    (Some (main_exclude_tools exclude_tools_str)).

(** The text is made of white space and commas only. *)
Definition blank_list (s : string) : bool :=
  forallb (fun c => Py.is_space c || Ascii.eqb c ",") (list_ascii_of_string s).

Definition date_eq_dec (a b : date) : {a = b} + {a <> b}.
Proof. decide equality; apply Nat.eq_dec. Defined.

(** [c] does not occur in [s]. *)
Fixpoint free_of (c : ascii) (s : string) : bool :=
  match s with
  | EmptyString => true
  | String x s' => negb (Ascii.eqb x c) && free_of c s'
  end.

(** The lines [ls], each closed by a line feed. *)
Definition unlines (ls : list string) : string :=
  Py.concat_all (map (fun l => (l ++ String LF EmptyString)%string) ls).

(** The end of a line: the end of the text or a line feed. *)
Definition line_end (tail : string) : bool :=
  match tail with
  | EmptyString => true
  | String c _ => Ascii.eqb c LF
  end.

(** The sum of the per-tool counts kept under the URL [u] in
    [tool_endpoint_counts]. *)
Definition drill_down_total (u : cell) (d : dict cell (dict cell nat)) : nat :=
  match get cell_eqb u d with Some inner => sum_values inner | None => 0 end.

(** The total of the bucket of day [k] in [daily_summary]. *)
Definition bucket_total (k : string) (d : dict string bucket) : nat :=
  match get String.eqb k d with Some b => total b | None => 0 end.


(** The outcomes of the stage before the analysis on a frame that has the
    columns the stage reads: a non-empty record set, the empty-data,
    all-filtered or no-timestamps diagnostic, the [AttributeError] of
    line 72 or line 100, or an exception that [parsedate_to_datetime]
    raised and line 57 does not catch. *)
Definition regular_outcome {L : PyLib} (o : outcome (list record)) : Prop :=
  o = Stop EmptyData \/ o = Stop AllFiltered \/ o = Stop NoTimestamps \/
  o = Raise AttributeError \/ (exists r rs, o = Ok (r :: rs)) \/
  (exists s e, parsedate_to_datetime s = inr e /\
               e <> TypeError /\ e <> ValueError /\ o = Raise e).


(** The number of records of [rs] whose Event Time falls on the day [d]. *)
Definition records_on (d : date) (rs : list record) : nat :=
  List.length (filter (fun r => date_eqb (date_of (r_time r)) d) rs).


(** Every character of [s] satisfies [p]. *)
Definition all_chars (p : ascii -> bool) (s : string) : bool :=
  forallb p (list_ascii_of_string s).

(** The printable ASCII characters, blank to tilde. *)
Definition printable (c : ascii) : bool :=
  let n := nat_of_ascii c in (32 <=? n) && (n <=? 126).

(** The number of occurrences of [c] in [s]. *)
Fixpoint count_char (c : ascii) (s : string) : nat :=
  match s with
  | EmptyString => 0
  | String x s' => (if Ascii.eqb x c then 1 else 0) + count_char c s'
  end.

(** * Properties *)

Unset Implicit Arguments.

(** ** Text *)

Lemma endswith_spec (s suf : string) :
  Py.endswith s suf = true <-> has_suffix s suf.
Proof.
  unfold has_suffix. induction s as [|c s IH]; cbn [Py.endswith].
  - rewrite orb_false_r, String.eqb_eq. split.
    + intros <-. now exists EmptyString.
    + intros [p Hp]. destruct p; simpl in Hp; [assumption | discriminate].
  - rewrite orb_true_iff, String.eqb_eq, IH. split.
    + intros [<- | [p ->]]; [now exists EmptyString | now exists (String c p)].
    + intros [[|c' p] Hp]; simpl in Hp.
      * now left.
      * right. exists p. congruence.
Qed.

Lemma endswith_any_spec (s : string) (sufs : list string) :
  Py.endswith_any s sufs = true <-> exists suf, In suf sufs /\ has_suffix s suf.
Proof.
  unfold Py.endswith_any. rewrite existsb_exists.
  split; intros [suf [Hin H]]; exists suf; split; auto; now apply endswith_spec.
Qed.

(** ** Filter stage *)

Lemma select_map {A B} (g : B -> bool) (h : A -> B) (l : list A) :
  select (map g (map h l)) l = filter (fun a => g (h a)) l.
Proof. induction l as [|a l IH]; simpl; [reflexivity|]. rewrite IH. reflexivity. Qed.

Lemma filter_all {A} (f : A -> bool) (l : list A) :
  (forall a, In a l -> f a = true) -> filter f l = l.
Proof.
  induction l as [|a l IH]; simpl; intros H; [reflexivity|].
  rewrite (H a (or_introl eq_refl)), IH; auto.
Qed.

Lemma filter_filter {A} (f g : A -> bool) (l : list A) :
  filter g (filter f l) = filter (fun a => f a && g a) l.
Proof.
  induction l as [|a l IH]; simpl; [reflexivity|].
  destruct (f a); simpl; [destruct (g a)|]; rewrite IH; reflexivity.
Qed.

Lemma filter_idem {A} (f : A -> bool) (l : list A) :
  filter f (filter f l) = filter f l.
Proof. apply filter_all. intros a Ha. now apply filter_In in Ha. Qed.

Lemma ext_excluded_nil (c : cell) : ext_excluded [] c = false.
Proof. destruct c; reflexivity. Qed.

Lemma tool_excluded_nil (c : cell) : tool_excluded [] c = false.
Proof. destruct c; reflexivity. Qed.

Lemma as_list_falsy (l : option (list string)) : truthy l = false -> as_list l = [].
Proof. destruct l as [[|]|]; simpl; congruence. Qed.

(** What the extension filter returns, in every case. *)
Lemma filter_extensions_eq (df : DataFrame) (exts : option (list string)) :
  filter_extensions df exts =
  if truthy exts && negb (has_column df "Request.URL")
  then Raise (KeyError "Request.URL")
  else if truthy exts && negb (is_object (dtype_of df "Request.URL"))
  then Raise AttributeError
  else Ok (mkDF (columns df) (dtypes df)
             (filter (fun r => negb (ext_excluded (as_list exts) (cell_of df "Request.URL" r)))
                (rows df))).
Proof.
  unfold filter_extensions, getitem, has_column, cell_of, loc_mask, str_accessor.
  destruct (truthy exts) eqn:T; simpl.
  - destruct (index_of "Request.URL" (columns df)); simpl; [|reflexivity].
    destruct (is_object (dtype_of df "Request.URL")); simpl; [|reflexivity].
    now rewrite select_map.
  - rewrite (as_list_falsy _ T). destruct df as [cs ds rs]; simpl. f_equal. f_equal.
    symmetry. apply filter_all. intros r _. now rewrite ext_excluded_nil.
Qed.

Lemma filter_tools_eq (df : DataFrame) (tools : option (list string)) :
  filter_tools df tools =
  if truthy tools && negb (has_column df "Request.Tool")
  then Raise (KeyError "Request.Tool")
  else Ok (mkDF (columns df) (dtypes df)
             (filter (fun r => negb (tool_excluded (as_list tools) (cell_of df "Request.Tool" r)))
                (rows df))).
Proof.
  unfold filter_tools, getitem, has_column, cell_of, loc_mask.
  destruct (truthy tools) eqn:T; simpl.
  - destruct (index_of "Request.Tool" (columns df)); simpl; [|reflexivity].
    now rewrite select_map.
  - rewrite (as_list_falsy _ T). destruct df as [cs ds rs]; simpl. f_equal. f_equal.
    symmetry. apply filter_all. intros r _. now rewrite tool_excluded_nil.
Qed.

(** The filter stage in closed form: a [KeyError] for a filter that needs an
    absent column, the [AttributeError] of [.str] on a URL column that is
    not of dtype object, otherwise the rows that are not [dropped]. *)
Lemma filter_stage_eq (df : DataFrame) (exts tools : option (list string)) :
  filter_stage df exts tools =
  if truthy exts && negb (has_column df "Request.URL")
  then Raise (KeyError "Request.URL")
  else if truthy exts && negb (is_object (dtype_of df "Request.URL"))
  then Raise AttributeError
  else if truthy tools && negb (has_column df "Request.Tool")
  then Raise (KeyError "Request.Tool")
  else Ok (mkDF (columns df) (dtypes df)
             (filter (fun r => negb (dropped df exts tools r)) (rows df))).
Proof.
  unfold filter_stage. rewrite filter_extensions_eq.
  destruct (truthy exts && negb (has_column df "Request.URL")); simpl; [reflexivity|].
  destruct (truthy exts && negb (is_object (dtype_of df "Request.URL"))); simpl;
    [reflexivity|].
  rewrite filter_tools_eq. unfold has_column at 1. simpl.
  fold (has_column df "Request.Tool").
  destruct (truthy tools && negb (has_column df "Request.Tool")); [reflexivity|].
  f_equal. f_equal. rewrite filter_filter. apply filter_ext. intros r.
  unfold dropped, cell_of. simpl. now rewrite negb_orb.
Qed.

Lemma tool_excluded_spec (tools : list string) (t : string) :
  tool_excluded tools (Str t) = true <-> In t tools.
Proof.
  simpl. rewrite existsb_exists. split.
  - intros [x [Hin Hx]]. apply String.eqb_eq in Hx. now subst.
  - intros Hin. exists t. split; [assumption | apply String.eqb_refl].
Qed.

Lemma ext_excluded_spec (exts : list string) (u : string) :
  ext_excluded exts (Str u) = true <->
  exists e, In e exts /\ has_suffix (Py.lower u) ("." ++ Py.lower e)%string.
Proof.
  simpl. rewrite endswith_any_spec. unfold extensions_tuple. split.
  - intros [suf [Hin Hs]]. apply in_map_iff in Hin as [e [<- He]]. eauto.
  - intros [e [He Hs]]. exists ("." ++ Py.lower e)%string. split; [|assumption].
    apply in_map_iff. eauto.
Qed.

(** C3: the extension filter drops a record exactly when its lower-cased URL
    ends with a dot followed by a lower-cased excluded extension (for one
    extension and for a list of them).  On a frame the filter returns the
    rows so decided, in order, where line 72 does not raise: it raises
    [KeyError] when the URL column is absent and [AttributeError] when that
    column is not of dtype object and so has no [.str].  Where the filter
    returns, a record with a missing URL is kept.  [http://x/a.JS?x=1] is
    not excluded by the list [js], the query string defeating the suffix
    match, while [http://x/a.JS] is, and so is [http://x/lib.min.js] by
    the list [JS]. *)
Theorem C3_extension_filter :
  (forall e u,
     ext_excluded [e] (Str u) = true <->
     has_suffix (Py.lower u) ("." ++ Py.lower e)%string) /\
  (forall exts u,
     ext_excluded exts (Str u) = true <->
     exists e, In e exts /\ has_suffix (Py.lower u) ("." ++ Py.lower e)%string) /\
  (forall df e es,
     filter_extensions df (Some (e :: es)) =
     if negb (has_column df "Request.URL") then Raise (KeyError "Request.URL")
     else if negb (is_object (dtype_of df "Request.URL")) then Raise AttributeError
     else Ok (mkDF (columns df) (dtypes df)
                (filter (fun r => negb (ext_excluded (e :: es) (cell_of df "Request.URL" r)))
                   (rows df)))) /\
  (forall df exts df' r,
     filter_extensions df exts = Ok df' ->
     In r (rows df) -> cell_of df "Request.URL" r = Null -> In r (rows df')) /\
  ext_excluded ["js"] (Str "http://x/a.JS?x=1") = false /\
  ext_excluded ["js"] (Str "http://x/a.JS") = true /\
  ext_excluded ["JS"] (Str "http://x/lib.min.js") = true.
Proof.
  split; [|split; [|split; [|split; [|repeat split]]]].
  - intros e u. split.
    + intros H. apply ext_excluded_spec in H as [e' [[<- | []] H]]. exact H.
    + intros H. apply ext_excluded_spec. exists e. split; [now left | exact H].
  - apply ext_excluded_spec.
  - intros df e es. rewrite filter_extensions_eq. reflexivity.
  - intros df exts df' r H Hin Hnull. rewrite filter_extensions_eq in H.
    destruct (truthy exts && negb (has_column df "Request.URL")); [discriminate|].
    destruct (truthy exts && negb (is_object (dtype_of df "Request.URL")));
      [discriminate|].
    injection H as <-. cbn [rows]. apply filter_In. split; [exact Hin|].
    now rewrite Hnull.
Qed.

Lemma dropped_spec (df : DataFrame) (exts tools : option (list string)) (r : list cell) :
  dropped df exts tools r = true <->
  (exists e u, In e (as_list exts) /\ cell_of df "Request.URL" r = Str u /\
               has_suffix (Py.lower u) ("." ++ Py.lower e)%string) \/
  (exists t, In t (as_list tools) /\ cell_of df "Request.Tool" r = Str t).
Proof.
  unfold dropped. rewrite orb_true_iff. split.
  - intros [H | H]; [left | right].
    + destruct (cell_of df "Request.URL" r) as [u|]; [|discriminate].
      apply ext_excluded_spec in H as [e [He Hs]]. eauto.
    + destruct (cell_of df "Request.Tool" r) as [t|]; [|discriminate].
      apply tool_excluded_spec in H. eauto.
  - intros [[e [u [He [-> Hs]]]] | [t [Ht ->]]]; [left | right].
    + apply ext_excluded_spec. eauto.
    + now apply tool_excluded_spec.
Qed.

(** C4: the tool filter is exact, case-sensitive equality with the tool
    field (the list [Scanner] excludes Scanner and keeps scanner), and the
    filter stage keeps, in order, exactly the rows that match no excluded
    extension and no excluded tool: a row is dropped if and only if it
    matches any excluded extension or any excluded tool. *)
Theorem C4_tool_filter_and_composition
  (df : DataFrame) (exts tools : option (list string)) (df' : DataFrame) :
  filter_stage df exts tools = Ok df' ->
  columns df' = columns df /\
  rows df' = filter (fun r => negb (dropped df exts tools r)) (rows df) /\
  (forall r, dropped df exts tools r = true <->
     (exists e u, In e (as_list exts) /\ cell_of df "Request.URL" r = Str u /\
                  has_suffix (Py.lower u) ("." ++ Py.lower e)%string) \/
     (exists t, In t (as_list tools) /\ cell_of df "Request.Tool" r = Str t)) /\
  (forall ts t, tool_excluded ts (Str t) = true <-> In t ts) /\
  tool_excluded ["Scanner"] (Str "Scanner") = true /\
  tool_excluded ["Scanner"] (Str "scanner") = false.
Proof.
  rewrite filter_stage_eq.
  destruct (truthy exts && negb (has_column df "Request.URL")); [discriminate|].
  destruct (truthy exts && negb (is_object (dtype_of df "Request.URL"))); [discriminate|].
  destruct (truthy tools && negb (has_column df "Request.Tool")); [discriminate|].
  intros H. injection H as <-. simpl.
  repeat split; try apply dropped_spec; try apply tool_excluded_spec.
Qed.

Lemma C4_witness :
  filter_stage Examples.df_mixed (Some ["js"]) (Some ["Scanner"]) = Ok Examples.df_mixed_kept /\
  rows Examples.df_mixed_kept =
  filter (fun r => negb (dropped Examples.df_mixed (Some ["js"]) (Some ["Scanner"]) r))
    (rows Examples.df_mixed).
Proof.
  split; [reflexivity|].
  apply (C4_tool_filter_and_composition Examples.df_mixed (Some ["js"]) (Some ["Scanner"])
           Examples.df_mixed_kept).
  reflexivity.
Defined.

(** C8: filtering is idempotent: the filter stage applied, with the same
    exclusion lists, to a frame it has produced returns that frame. *)
Theorem C8_filter_idempotent
  (df : DataFrame) (exts tools : option (list string)) (df' : DataFrame) :
  filter_stage df exts tools = Ok df' ->
  filter_stage df' exts tools = Ok df'.
Proof.
  rewrite !filter_stage_eq.
  destruct (truthy exts && negb (has_column df "Request.URL")) eqn:E1; [discriminate|].
  destruct (truthy exts && negb (is_object (dtype_of df "Request.URL"))) eqn:E3;
    [discriminate|].
  destruct (truthy tools && negb (has_column df "Request.Tool")) eqn:E2; [discriminate|].
  intros H. injection H as <-. unfold has_column, dtype_of in *. simpl.
  rewrite E1, E3, E2. unfold dropped, cell_of. simpl.
  now rewrite filter_idem.
Qed.

Lemma C8_witness :
  filter_stage Examples.df_mixed (Some ["js"]) (Some ["Scanner"]) = Ok Examples.df_mixed_kept /\
  filter_stage Examples.df_mixed_kept (Some ["js"]) (Some ["Scanner"]) = Ok Examples.df_mixed_kept.
Proof.
  split; [reflexivity|].
  apply (C8_filter_idempotent Examples.df_mixed (Some ["js"]) (Some ["Scanner"])
           Examples.df_mixed_kept).
  reflexivity.
Defined.

(** ** Required fields *)

(** C1 (evaluated where the code departs from it): a non-empty record set
    without the request tool field, analysed with a tool exclusion list, and
    one without the request URL field, analysed with an extension exclusion
    list, are not reported as malformed: the filter reads the absent column
    before the required fields are checked and [KeyError] is raised,
    whatever the library routines do. *)
Theorem C1_missing_field_with_filter_raises (L : PyLib) :
  analyze_burp_log Examples.df_no_tool None (Some ["Scanner"])
  = Raise (KeyError "Request.Tool") /\
  analyze_burp_log Examples.df_no_url (Some ["js"]) None
  = Raise (KeyError "Request.URL").
Proof. split; reflexivity. Qed.

(** Without exclusion lists the check of lines 83-87 is reached and an
    absent required field is reported. *)
Lemma missing_required_reported (L : PyLib) (df : DataFrame)
  (exts tools : option (list string)) :
  empty df = false -> truthy exts = false -> truthy tools = false ->
  has_column df "Request.URL" && has_column df "Request.Tool" = false ->
  exists c, analyze_burp_log df exts tools = Stop (MissingColumn c).
Proof.
  intros E Te Tt H. unfold analyze_burp_log, resolve_stage.
  rewrite E, filter_stage_eq, Te, Tt. simpl.
  assert (Hr : filter (fun r => negb (dropped df exts tools r)) (rows df) = rows df).
  { apply filter_all. intros r _. unfold dropped.
    now rewrite (as_list_falsy _ Te), (as_list_falsy _ Tt), ext_excluded_nil, tool_excluded_nil. }
  rewrite Hr. destruct df as [cs ds rs]. simpl. rewrite E. unfold check_required.
  destruct (has_column (mkDF cs ds rs) "Request.URL"); simpl in *.
  - rewrite H. simpl. eauto.
  - eauto.
Qed.

(** Whatever the exclusion lists, a frame without a required field never
    yields a report: the call stops with a diagnostic or raises [KeyError]
    (or the [AttributeError] of line 72 when the request tool field is the
    absent one and the URL column is not of dtype object). *)
Lemma missing_required_no_report (L : PyLib) (df : DataFrame)
  (exts tools : option (list string)) :
  has_column df "Request.URL" && has_column df "Request.Tool" = false ->
  (exists d, analyze_burp_log df exts tools = Stop d) \/
  (exists k, analyze_burp_log df exts tools = Raise (KeyError k)) \/
  analyze_burp_log df exts tools = Raise AttributeError.
Proof.
  intros H. unfold analyze_burp_log, resolve_stage.
  destruct (empty df); [left; simpl; eauto|].
  rewrite filter_stage_eq.
  destruct (truthy exts && negb (has_column df "Request.URL")); [right; left; simpl; eauto|].
  destruct (truthy exts && negb (is_object (dtype_of df "Request.URL")));
    [right; right; reflexivity|].
  destruct (truthy tools && negb (has_column df "Request.Tool")); [right; left; simpl; eauto|].
  left. simpl.
  match goal with |- context [empty ?d] => destruct (empty d) end; [simpl; eauto|].
  unfold check_required, has_column in *. simpl.
  destruct (index_of "Request.URL" (columns df)); simpl in *; [|eauto].
  rewrite H. simpl. eauto.
Qed.

(** ** Timestamp resolution *)

Section Resolution.
Context {L : PyLib}.

Lemma getitem_has (df : DataFrame) (name : string) :
  has_column df name = true ->
  getitem df name = Ok (map (cell_of df name) (rows df)).
Proof.
  unfold has_column, getitem, cell_of.
  destruct (index_of name (columns df)); [reflexivity | discriminate].
Qed.

Lemma cell_of_absent (df : DataFrame) (name : string) (r : list cell) :
  has_column df name = false -> cell_of df name r = Null.
Proof.
  unfold has_column, cell_of.
  destruct (index_of name (columns df)); [discriminate | reflexivity].
Qed.

(** The primary strategy gives each row the parse of its request-time
    field, and nothing when the field or the column is missing. *)
Lemma primary_times_eq (df : DataFrame) :
  primary_times df
  = Ok (map (fun r => to_datetime (cell_of df "Request.Time" r)) (rows df)).
Proof.
  unfold primary_times. destruct (has_column df "Request.Time") eqn:H.
  - rewrite (getitem_has _ _ H). simpl. now rewrite map_map.
  - f_equal. apply map_ext. intros r. now rewrite cell_of_absent.
Qed.

(** The fallback is not consulted as soon as one record resolves by the
    primary strategy. *)
Lemma resolve_times_primary (df : DataFrame) :
  (exists r, In r (rows df) /\ to_datetime (cell_of df "Request.Time" r) <> None) ->
  resolve_times df
  = Ok (map (fun r => to_datetime (cell_of df "Request.Time" r)) (rows df)).
Proof.
  intros [r [Hin Hr]]. unfold resolve_times. rewrite primary_times_eq. simpl.
  destruct (forallb isnull _) eqn:F; [|reflexivity].
  rewrite forallb_forall in F.
  destruct (to_datetime (cell_of df "Request.Time" r)) as [t|] eqn:E; [|congruence].
  assert (X : isnull (Some t) = true).
  { apply F. apply in_map_iff. exists r. split; [exact E | exact Hin]. }
  discriminate X.
Qed.

Lemma all_null_primary (df : DataFrame) :
  (forall r, In r (rows df) -> to_datetime (cell_of df "Request.Time" r) = None) ->
  forallb isnull (map (fun r => to_datetime (cell_of df "Request.Time" r)) (rows df)) = true.
Proof.
  intros H. apply forallb_forall. intros t Ht.
  apply in_map_iff in Ht as [r [<- Hr]]. now rewrite H.
Qed.

(** When no record resolves by the primary strategy the times are those of
    the fallback. *)
Lemma resolve_times_fallback_eq (df : DataFrame) :
  (forall r, In r (rows df) -> to_datetime (cell_of df "Request.Time" r) = None) ->
  resolve_times df = fallback_times df.
Proof.
  intros H. unfold resolve_times. rewrite primary_times_eq. simpl.
  now rewrite all_null_primary.
Qed.

Lemma mapM_map {A B C} (f : B -> outcome C) (g : A -> B) (l : list A) :
  mapM f (map g l) = mapM (fun a => f (g a)) l.
Proof. induction l as [|a l IH]; simpl; [reflexivity | now rewrite IH]. Qed.

(** The fallback on a frame that has the headers column, in terms of the
    header dates. *)
Lemma fallback_times_eq (df : DataFrame) :
  has_column df "Response.Headers" = true ->
  fallback_times df =
  (ts <- header_dates df ;;
   if existsb notna ts then dt_tz_localize_none ts
   else Ok (map (option_map wall) ts)).
Proof.
  intros Hc. unfold fallback_times, header_dates.
  rewrite Hc, (getitem_has _ _ Hc). cbn [bind]. now rewrite mapM_map.
Qed.


(** Header dates with two different offsets make [.dt] fail. *)
Lemma resolve_times_mixed_offsets (df : DataFrame) (ts : list (option datetime)) :
  (forall r, In r (rows df) -> to_datetime (cell_of df "Request.Time" r) = None) ->
  has_column df "Response.Headers" = true ->
  header_dates df = Ok ts ->
  datetimelike ts = false ->
  resolve_times df = Raise AttributeError.
Proof.
  intros H Hc Hts Hd. rewrite (resolve_times_fallback_eq _ H), (fallback_times_eq _ Hc), Hts.
  cbn [bind]. unfold dt_tz_localize_none. rewrite Hd.
  destruct (existsb notna ts) eqn:E; [reflexivity|].
  exfalso. unfold datetimelike in Hd.
  assert (Hn : forall t, In t ts -> t = None).
  { intros t Ht. destruct t; [|reflexivity].
    assert (existsb notna ts = true) by (apply existsb_exists; eauto).
    congruence. }
  clear E Hts. induction ts as [|t ts IH]; simpl in Hd; [discriminate|].
  rewrite (Hn t (or_introl eq_refl)) in Hd. simpl in Hd.
  apply IH; [exact Hd|]. intros t' Ht'. apply Hn. now right.
Qed.

(** An exception of the date parser other than [TypeError] and
    [ValueError] is not caught by line 57. *)
Lemma try_parsedate_escapes (date_str : string) (e : exn) :
  parsedate_to_datetime date_str = inr e ->
  e <> TypeError -> e <> ValueError ->
  try_parsedate date_str = Raise e.
Proof.
  unfold try_parsedate. intros -> H1 H2. destruct e; congruence.
Qed.

Lemma try_parsedate_cases (date_str : string) :
  (exists o, try_parsedate date_str = Ok o) \/
  (exists e, parsedate_to_datetime date_str = inr e /\
             e <> TypeError /\ e <> ValueError /\ try_parsedate date_str = Raise e).
Proof.
  unfold try_parsedate.
  destruct (parsedate_to_datetime date_str) as [d|e] eqn:E; [left; eauto|].
  destruct e; try (left; eauto; fail); right; eexists; repeat split; discriminate.
Qed.

Lemma extract_date_cases (c : cell) :
  (exists o, extract_date_from_headers c = Ok o) \/
  (exists s e, parsedate_to_datetime s = inr e /\
               e <> TypeError /\ e <> ValueError /\
               extract_date_from_headers c = Raise e).
Proof.
  unfold extract_date_from_headers. destruct c as [s|]; [|left; eauto].
  destruct (search_date true s) as [g|]; [|left; eauto].
  destruct (try_parsedate_cases (Py.strip g)) as [H | [e H]]; [now left|].
  right. exists (Py.strip g), e. exact H.
Qed.

(** The header dates are computed, or the exception of the parser on the
    first header block where it raises one leaves the call. *)
Lemma header_dates_cases (df : DataFrame) :
  (exists ts, header_dates df = Ok ts) \/
  (exists s e, parsedate_to_datetime s = inr e /\
               e <> TypeError /\ e <> ValueError /\ header_dates df = Raise e).
Proof.
  unfold header_dates. induction (rows df) as [|r rs IH]; cbn [mapM]; [left; eauto|].
  destruct (extract_date_cases (cell_of df "Response.Headers" r))
    as [[o ->] | [s [e [H1 [H2 [H3 ->]]]]]]; cbn [bind].
  - destruct IH as [[ts ->] | [s [e [H1 [H2 [H3 ->]]]]]]; cbn [bind]; [left; eauto|].
    right. exists s, e. auto.
  - right. exists s, e. auto.
Qed.

Lemma dropna_time_none (df : DataFrame) (time : list (option naive)) :
  (forall t, In t time -> t = None) -> dropna_time df time = [].
Proof.
  unfold dropna_time. revert time.
  induction (rows df) as [|r rs IH]; intros [|t time] H; simpl; try reflexivity.
  rewrite (H t (or_introl eq_refl)). simpl. apply IH. intros t' Ht'. apply H. now right.
Qed.

Lemma mapM_Ok_In {A B} (f : A -> outcome B) (l : list A) (bs : list B) (b : B) :
  mapM f l = Ok bs -> In b bs -> exists a, In a l /\ f a = Ok b.
Proof.
  revert bs. induction l as [|a l IH]; intros bs; cbn [mapM].
  - intros [= <-] [].
  - destruct (f a) as [b0| |] eqn:Fa; cbn [bind]; try discriminate.
    destruct (mapM f l) as [bs0| |]; cbn [bind]; try discriminate.
    intros [= <-] [<- | Hin].
    + exists a. split; [now left | exact Fa].
    + destruct (IH bs0 eq_refl Hin) as [a' [Ha' Hf]]. exists a'. split; [now right | exact Hf].
Qed.

(** When no record has a resolvable time and the extraction of the header
    dates returns, every resolved time is missing. *)
Lemma resolve_times_unresolvable (df : DataFrame) (ts : list (option datetime)) :
  no_resolvable_time df ->
  header_dates df = Ok ts ->
  resolve_times df = Stop NoHeadersColumn \/
  exists time, resolve_times df = Ok time /\ forall t, In t time -> t = None.
Proof.
  intros H Hts. rewrite resolve_times_fallback_eq by (intros r Hr; apply (H r Hr)).
  destruct (has_column df "Response.Headers") eqn:Hc;
    [|left; unfold fallback_times; now rewrite Hc].
  right. rewrite (fallback_times_eq _ Hc), Hts. cbn [bind].
  assert (Hn : forall t, In t ts -> t = None).
  { intros t Ht. destruct (mapM_Ok_In _ _ _ _ Hts Ht) as [r [Hr Hf]].
    destruct t as [d|]; [|reflexivity]. destruct (H r Hr) as [_ Hno].
    exfalso. exact (Hno d Hf). }
  assert (E : existsb notna ts = false).
  { destruct (existsb notna ts) eqn:E; [|reflexivity].
    apply existsb_exists in E as [t [Ht Hna]]. rewrite (Hn t Ht) in Hna. discriminate. }
  rewrite E. eexists. split; [reflexivity|].
  intros t Ht. apply in_map_iff in Ht as [x [<- Hx]]. now rewrite (Hn x Hx).
Qed.

End Resolution.

(** On a frame whose request times are unusable and whose header blocks
    all carry a valid date line in GMT, the resolved Event Times are the
    wall clocks of the header dates. *)
Example header_dates_resolved :
  @resolve_stage Ref.lib Examples.df_header_dates None None
  = Ok [ mkRecord (Str "http://a/x") (Str "Proxy") (mkNaive 2024 1 1 10 0 0);
         mkRecord (Str "http://a/y") (Str "Proxy") (mkNaive 2024 1 2 23 15 0) ].
Proof. reflexivity. Qed.

(** The date line is found in any letter case, and its value is cut at the
    end of the line. *)
Example date_line_found :
  search_date true ("HTTP/1.1 200 OK" ++ String LF "dAtE:   Mon, 01 Jan 2024 10:00:00 GMT"
                    ++ String LF "X: y")%string
  = Some "Mon, 01 Jan 2024 10:00:00 GMT".
Proof. reflexivity. Qed.

(** C2 (evaluated where the code departs from it): the primary time field
    is absent and both header blocks carry a valid date line, one in GMT and
    one with the offset +0100.  The Series of the two parsed dates keeps
    dtype object, [.dt.tz_localize(None)] raises [AttributeError], and no
    Event Time is resolved. *)
Theorem C2_fallback_mixed_offsets_raises :
  @header_dates Ref.lib Examples.df_mixed_offsets
  = Ok [ Some (mkDatetime (mkNaive 2024 1 1 10 0 0) (Some 0%Z));
         Some (mkDatetime (mkNaive 2024 1 1 11 0 0) (Some 3600%Z)) ] /\
  @resolve_times Ref.lib Examples.df_mixed_offsets = Raise AttributeError /\
  @analyze_burp_log Ref.lib Examples.df_mixed_offsets None None = Raise AttributeError.
Proof. repeat split. Qed.

(** ** Terminal conditions *)

(** The rows the filter stage returns are the rows of the input that are
    not dropped, under the same columns. *)
Lemma filter_stage_Ok (df : DataFrame) (exts tools : option (list string))
  (df' : DataFrame) :
  filter_stage df exts tools = Ok df' ->
  df' = mkDF (columns df) (dtypes df)
          (filter (fun r => negb (dropped df exts tools r)) (rows df)).
Proof.
  rewrite filter_stage_eq.
  destruct (truthy exts && negb (has_column df "Request.URL")); [discriminate|].
  destruct (truthy exts && negb (is_object (dtype_of df "Request.URL"))); [discriminate|].
  destruct (truthy tools && negb (has_column df "Request.Tool")); [discriminate|].
  now intros [= <-].
Qed.

(** Where the filter stage returns and the header dates of the kept
    records are extracted without an exception, each terminal condition
    makes the call stop with a diagnostic: no report is produced and
    nothing is raised. *)
Lemma terminal_conditions_stop (L : PyLib) (df : DataFrame)
  (exts tools : option (list string)) (df' : DataFrame) (ts : list (option datetime)) :
  terminal_condition df exts tools ->
  filter_stage df exts tools = Ok df' ->
  header_dates df' = Ok ts ->
  exists d, analyze_burp_log df exts tools = Stop d.
Proof.
  unfold analyze_burp_log, resolve_stage. intros T Hf Hts.
  destruct (empty df) eqn:E; [cbn [bind]; eauto|].
  rewrite Hf. cbn [bind]. destruct (empty df') eqn:E'; [cbn [bind]; eauto|].
  assert (Hn : no_resolvable_time df').
  { pose proof (filter_stage_Ok _ _ _ _ Hf) as ->.
    intros row Hrow. cbn [rows] in Hrow. apply filter_In in Hrow as [Hin Hd].
    apply negb_true_iff in Hd.
    destruct T as [T | [T | T]].
    - congruence.
    - rewrite (T row Hin) in Hd. discriminate.
    - exact (T row Hin Hd). }
  destruct (check_required df') as [[]|d|e] eqn:C; cbn [bind]; eauto.
  - destruct (resolve_times_unresolvable df' ts Hn Hts) as [-> | [time [-> Hnone]]];
      cbn [bind]; eauto.
    rewrite (dropna_time_none _ _ Hnone). cbn. eauto.
  - unfold check_required in C.
    destruct (has_column df' "Request.URL"), (has_column df' "Request.Tool");
      discriminate C.
Qed.

(** C6 (evaluated where the code departs from it): three record sets in
    which no record has a resolvable Event Time, analysed with the lists
    given, do not end in a diagnostic.  On the first the tool filter reads
    the absent request tool column and [KeyError] is raised (line 76, the
    defect of C1); on the second the URL column holds no text, has dtype
    float64, and [.str] raises [AttributeError] (line 72); on the third the
    only header date has a zone beyond the range of [timedelta] and the
    [OverflowError] of the parser is not caught by line 57. *)
Theorem C6_terminal_condition_raises :
  (@terminal_condition Ref.lib Examples.df_untimed_no_tool None (Some ["Scanner"]) /\
   @analyze_burp_log Ref.lib Examples.df_untimed_no_tool None (Some ["Scanner"])
   = Raise (KeyError "Request.Tool")) /\
  (@terminal_condition Ref.lib Examples.df_untimed_blank_url (Some ["js"]) None /\
   @analyze_burp_log Ref.lib Examples.df_untimed_blank_url (Some ["js"]) None
   = Raise AttributeError) /\
  (@terminal_condition Ref.lib Examples.df_zone_overflow None None /\
   @analyze_burp_log Ref.lib Examples.df_zone_overflow None None
   = Raise OverflowError).
Proof.
  repeat split; try (right; right; intros row [<- | []] _; split;
                     [reflexivity | intros d; discriminate]).
Qed.

(** Without the exclusion lists the first two of these record sets end in
    a diagnostic. *)
Example terminal_conditions_reported :
  @analyze_burp_log Ref.lib Examples.df_untimed_no_tool None None
  = Stop (MissingColumn "Request.Tool") /\
  @analyze_burp_log Ref.lib Examples.df_untimed_blank_url None None
  = Stop NoTimestamps.
Proof. split; reflexivity. Qed.

(** The diagnostics of the three conditions on examples. *)
Example empty_input_diagnostic (L : PyLib) :
  analyze_burp_log (mkDF Examples.cols Examples.no_headers []) (Some ["js"]) None
  = Stop EmptyData.
Proof. reflexivity. Qed.

Example all_filtered_diagnostic (L : PyLib) :
  analyze_burp_log Examples.df_mixed None (Some ["Repeater"; "Scanner"; "scanner"; "Proxy"])
  = Stop AllFiltered.
Proof. reflexivity. Qed.

Example no_timestamps_diagnostic :
  @analyze_burp_log Ref.lib Examples.df_no_time None None = Stop NoTimestamps.
Proof. reflexivity. Qed.

(** ** Dicts and counts *)

Section DictFacts.
Variables K V : Type.
Variable eqb : K -> K -> bool.

(** A measure that [f] raises by one from [dflt] at zero: one update adds
    one to the sum of the measures. *)
Lemma list_sum_dict_update (m : V -> nat) (f : V -> V) (dflt : V) (k : K) (d : dict K V) :
  (forall v, m (f v) = S (m v)) -> m dflt = 0 ->
  list_sum (map (fun kv => m (snd kv)) (dict_update eqb k f dflt d))
  = S (list_sum (map (fun kv => m (snd kv)) d)).
Proof.
  intros Hf H0. induction d as [|[k' v] d IH]; simpl.
  - rewrite Hf, H0. reflexivity.
  - destruct (eqb k' k); simpl.
    + rewrite Hf. reflexivity.
    + rewrite IH. lia.
Qed.

(** A property of the values that [f] preserves and [f dflt] has. *)
Lemma Forall_dict_update (P : V -> Prop) (f : V -> V) (dflt : V) (k : K) (d : dict K V) :
  (forall v, P v -> P (f v)) -> P (f dflt) ->
  Forall (fun kv => P (snd kv)) d ->
  Forall (fun kv => P (snd kv)) (dict_update eqb k f dflt d).
Proof.
  intros Hf H0. induction d as [|[k' v] d IH]; simpl; intros H.
  - constructor; [exact H0 | constructor].
  - inversion H as [|x l Hx Hl]; subst. simpl in Hx.
    destruct (eqb k' k); constructor; simpl; auto.
Qed.

End DictFacts.

Lemma sum_values_incr {K} (eqb : K -> K -> bool) (k : K) (d : dict K nat) :
  sum_values (incr eqb k d) = S (sum_values d).
Proof.
  unfold sum_values, values, incr.
  rewrite <- !(map_ext (fun kv : K * nat => id (snd kv)) snd) by reflexivity.
  now apply (@list_sum_dict_update K nat eqb id).
Qed.

Lemma sum_values_tally {K} (eqb : K -> K -> bool) (l : list K) :
  sum_values (tally eqb l) = List.length l.
Proof.
  unfold tally.
  assert (G : forall d, sum_values (fold_left (fun d k => incr eqb k d) l d)
                        = List.length l + sum_values d).
  { induction l as [|k l IH]; intros d; simpl; [reflexivity|].
    rewrite IH, sum_values_incr. lia. }
  rewrite G. unfold sum_values. simpl. lia.
Qed.

Lemma insert_desc_perm {K} (x : K * nat) (l : list (K * nat)) :
  Permutation (insert_desc x l) (x :: l).
Proof.
  induction l as [|y l IH]; simpl; [reflexivity|].
  destruct (snd y <=? snd x); [reflexivity|].
  rewrite IH. apply perm_swap.
Qed.

Lemma sort_desc_perm {K} (l : list (K * nat)) : Permutation (sort_desc l) l.
Proof.
  induction l as [|x l IH]; simpl; [reflexivity|].
  rewrite insert_desc_perm. now constructor.
Qed.

Lemma sum_values_perm {K} (d d' : dict K nat) :
  Permutation d d' -> sum_values d = sum_values d'.
Proof.
  intros H. unfold sum_values, values.
  induction H; simpl; lia.
Qed.

(** The counts of [value_counts] add up to the number of entries that are
    not missing. *)
Lemma sum_values_value_counts {K} (eqb : K -> K -> bool) (isna : K -> bool) (s : list K) :
  sum_values (value_counts eqb isna s)
  = List.length (filter (fun k => negb (isna k)) s).
Proof.
  unfold value_counts.
  now rewrite (sum_values_perm _ _ (sort_desc_perm _)), sum_values_tally.
Qed.

Section CountFacts.
Variable K : Type.
Variable eq_dec : forall a b : K, {a = b} + {a <> b}.
Let eqb (a b : K) : bool := if eq_dec a b then true else false.

Lemma get_In_keys (k : K) (d : dict K nat) :
  In k (keys d) <-> exists n, get eqb k d = Some n.
Proof.
  induction d as [|[k' v] d IH]; simpl.
  - split; [intros [] | intros [n H]; discriminate].
  - unfold eqb at 1. destruct (eq_dec k' k) as [->|N].
    + split; eauto.
    + rewrite <- IH. tauto.
Qed.

Lemma In_get (k : K) (n : nat) (d : dict K nat) :
  NoDup (keys d) -> (In (k, n) d <-> get eqb k d = Some n).
Proof.
  induction d as [|[k' v] d IH]; simpl; intros ND.
  - split; [intros [] | discriminate].
  - inversion ND as [|x l Hx Hl]; subst.
    unfold eqb at 1. destruct (eq_dec k' k) as [->|N].
    + split.
      * intros [E | Hin]; [congruence|].
        exfalso. apply Hx. change k with (fst (k, n)). now apply in_map.
      * intros E. left. congruence.
    + rewrite <- (IH Hl). split; [intros [E | Hin]; [congruence | assumption] | tauto].
Qed.

Lemma keys_incr (k k' : K) (d : dict K nat) :
  In k' (keys (incr eqb k d)) <-> k' = k \/ In k' (keys d).
Proof.
  unfold incr. induction d as [|[k0 v] d IH]; simpl.
  - intuition.
  - unfold eqb at 1. destruct (eq_dec k0 k) as [->|N]; simpl.
    + intuition.
    + rewrite IH. intuition.
Qed.

Lemma NoDup_keys_incr (k : K) (d : dict K nat) :
  NoDup (keys d) -> NoDup (keys (incr eqb k d)).
Proof.
  unfold incr. induction d as [|[k0 v] d IH]; simpl; intros ND.
  - constructor; [intros [] | constructor].
  - inversion ND as [|x l Hx Hl]; subst.
    unfold eqb at 1. destruct (eq_dec k0 k) as [->|N]; simpl.
    + now constructor.
    + constructor; [|now apply IH].
      intros Hin. apply (keys_incr k k0 d) in Hin as [E | Hin]; [congruence | contradiction].
Qed.

Lemma count_for_incr (k k' : K) (d : dict K nat) :
  count_for eqb k' (incr eqb k d)
  = (if eq_dec k k' then 1 else 0) + count_for eqb k' d.
Proof.
  unfold count_for, incr. induction d as [|[k0 v] d IH]; simpl.
  - unfold eqb. destruct (eq_dec k k'); reflexivity.
  - unfold eqb in *. destruct (eq_dec k0 k) as [->|N]; simpl.
    + destruct (eq_dec k k'); reflexivity.
    + destruct (eq_dec k0 k') as [->|N'].
      * destruct (eq_dec k k'); [congruence | reflexivity].
      * exact IH.
Qed.

(** After tallying, the keys are the values that occur, each once, and the
    stored count of a value is its number of occurrences. *)
Lemma tally_spec (l : list K) :
  NoDup (keys (tally eqb l)) /\
  (forall k, In k (keys (tally eqb l)) <-> In k l) /\
  (forall k, count_for eqb k (tally eqb l) = count_occ eq_dec l k).
Proof.
  unfold tally.
  assert (G : forall d,
    NoDup (keys d) ->
    NoDup (keys (fold_left (fun d k => incr eqb k d) l d)) /\
    (forall k, In k (keys (fold_left (fun d k => incr eqb k d) l d)) <-> In k l \/ In k (keys d)) /\
    (forall k, count_for eqb k (fold_left (fun d k => incr eqb k d) l d)
               = count_occ eq_dec l k + count_for eqb k d)).
  { induction l as [|x l IH]; intros d ND; simpl.
    - repeat split; auto; tauto.
    - destruct (IH (incr eqb x d) (NoDup_keys_incr x d ND)) as [H1 [H2 H3]].
      repeat split; [exact H1 | | | ].
      + rewrite H2, keys_incr. intuition.
      + rewrite H2, keys_incr. intuition.
      + intros k. rewrite H3, count_for_incr. destruct (eq_dec x k); lia. }
  destruct (G [] (NoDup_nil K)) as [H1 [H2 H3]].
  repeat split; [exact H1 | | | ].
  - rewrite H2. simpl. tauto.
  - rewrite H2. tauto.
  - intros k. rewrite H3. unfold count_for. simpl. lia.
Qed.

(** The items of [value_counts]: its keys are distinct, none of them is a
    missing value, and [(k, n)] is an item exactly when [k] is not missing
    and occurs [n > 0] times. *)
Lemma value_counts_spec (isna : K -> bool) (s : list K) :
  NoDup (keys (value_counts eqb isna s)) /\
  (forall k, In k (keys (value_counts eqb isna s)) -> isna k = false) /\
  (forall k n, In (k, n) (value_counts eqb isna s) <->
               isna k = false /\ n = count_occ eq_dec s k /\ 0 < n).
Proof.
  unfold value_counts.
  set (l := filter (fun k => negb (isna k)) s).
  destruct (tally_spec l) as [ND [Hk Hc]].
  assert (P : Permutation (sort_desc (tally eqb l)) (tally eqb l)) by apply sort_desc_perm.
  assert (Hl : forall k, In k l <-> In k s /\ isna k = false).
  { intros k. unfold l. rewrite filter_In, negb_true_iff. tauto. }
  assert (Hcount : forall k, isna k = false -> count_occ eq_dec l k = count_occ eq_dec s k).
  { intros k Hna. unfold l. clear -Hna. induction s as [|x s IH]; simpl; [reflexivity|].
    destruct (isna x) eqn:E; simpl.
    - destruct (eq_dec x k); [congruence | exact IH].
    - destruct (eq_dec x k); now rewrite IH. }
  split; [|split].
  - unfold keys. eapply Permutation_NoDup; [|exact ND].
    apply Permutation_map. now symmetry.
  - intros k Hin. unfold keys in Hin.
    apply (Permutation_in _ (Permutation_map fst P)) in Hin.
    apply Hk, Hl in Hin. tauto.
  - intros k n. split.
    + intros H. apply (Permutation_in _ P), (In_get _ _ _ ND) in H.
      assert (In k l) as Hin by (apply Hk, get_In_keys; eauto).
      pose proof (Hc k) as Hck. unfold count_for in Hck. rewrite H in Hck.
      pose proof Hin as Hin'. apply Hl in Hin' as [_ Hna].
      split; [exact Hna|]. rewrite <- (Hcount k Hna), <- Hck. split; [reflexivity|].
      rewrite Hck. now apply count_occ_In.
    + intros [Hna [-> Hpos]].
      apply (Permutation_in _ (Permutation_sym P)), (In_get _ _ _ ND).
      assert (In k l) as Hin.
      { apply Hl. split; [|exact Hna]. now apply (count_occ_In eq_dec). }
      apply Hk, get_In_keys in Hin as [m Hm].
      pose proof (Hc k) as Hck. unfold count_for in Hck. rewrite Hm in Hck.
      rewrite Hm, Hck. f_equal. now apply Hcount.
Qed.

End CountFacts.

(** ** The analysis *)

Section AnalysisFacts.
Context {L : PyLib}.

Lemma analysis_of_Ok (rs : list record) (a : analysis_data) :
  analysis_of rs = Ok a ->
  exists targets,
    mapM (fun r => target_of (r_url r)) rs = Ok targets /\
    a = mkAnalysis
          (value_counts cell_eqb is_null (map r_url rs))
          (tool_endpoint_counts_of rs)
          (daily_summary_of rs)
          (value_counts cell_eqb is_null (map r_tool rs))
          (value_counts cell_eqb is_null targets)
          (productivity_of rs).
Proof.
  unfold analysis_of.
  destruct (mapM (fun r => target_of (r_url r)) rs) as [targets|d|e]; simpl; try discriminate.
  intros H. injection H as <-. eauto.
Qed.

Lemma mapM_Forall2 {A B} (f : A -> outcome B) (l : list A) (bs : list B) :
  mapM f l = Ok bs -> Forall2 (fun a b => f a = Ok b) l bs.
Proof.
  revert bs. induction l as [|x l IH]; simpl; intros bs H.
  - injection H as <-. constructor.
  - destruct (f x) as [b| |] eqn:E; simpl in H; try discriminate.
    destruct (mapM f l) as [bs'| |]; simpl in H; try discriminate.
    injection H as <-. constructor; [exact E | now apply IH].
Qed.

Lemma daily_summary_invariant (rs : list record) :
  Forall (fun kv => total (snd kv) = sum_values (tools (snd kv))) (daily_summary_of rs) /\
  sum_totals (daily_summary_of rs) = List.length rs.
Proof.
  unfold daily_summary_of.
  set (step := fun (d : dict string bucket) (r : record) =>
         dict_update String.eqb (strftime_Ymd (date_of (r_time r)))
           (fun b => mkBucket (S (total b)) (incr cell_eqb (r_tool r) (tools b)))
           (mkBucket 0 []) d).
  assert (Hs : forall d r, sum_totals (step d r) = S (sum_totals d)).
  { intros d r. unfold sum_totals, step.
    apply (list_sum_dict_update string bucket String.eqb total); reflexivity. }
  assert (G : forall d,
    Forall (fun kv => total (snd kv) = sum_values (tools (snd kv))) d ->
    Forall (fun kv => total (snd kv) = sum_values (tools (snd kv))) (fold_left step rs d) /\
    sum_totals (fold_left step rs d) = List.length rs + sum_totals d).
  { induction rs as [|r rs IH]; intros d Hd; simpl; [split; [exact Hd | reflexivity]|].
    destruct (IH (step d r)) as [H1 H2].
    - unfold step.
      apply (Forall_dict_update string bucket String.eqb
               (fun b => total b = sum_values (tools b))); [| |exact Hd].
      + intros b Hb. simpl. now rewrite sum_values_incr, Hb.
      + reflexivity.
    - split; [exact H1|]. rewrite H2, Hs. lia. }
  destruct (G [] (Forall_nil _)) as [H1 H2].
  split; [exact H1|]. rewrite H2. unfold sum_totals. simpl. lia.
Qed.

End AnalysisFacts.

(** C5, as the code has it: the endpoint counts sum to the number of
    records of the filtered, time-resolved set whose URL is not missing
    ([value_counts] does not count missing values), the reported total is
    the size of the set, and the two agree when every record has a URL. *)
Theorem C5_endpoint_counts_sum (L : PyLib) (rs : list record) (a : analysis_data) :
  analysis_of rs = Ok a ->
  sum_values (endpoint_counts a)
  = List.length (filter (fun r => negb (is_null (r_url r))) rs) /\
  total_requests (productivity_metrics a) = List.length rs /\
  ((forall r, In r rs -> r_url r <> Null) ->
   sum_values (endpoint_counts a) = List.length rs).
Proof.
  intros H. apply analysis_of_Ok in H as [targets [_ ->]]. simpl.
  assert (E : sum_values (value_counts cell_eqb is_null (map r_url rs))
              = List.length (filter (fun r => negb (is_null (r_url r))) rs)).
  { rewrite sum_values_value_counts.
    induction rs as [|r rs IH]; simpl; [reflexivity|].
    destruct (is_null (r_url r)); simpl; now rewrite IH. }
  repeat split; [exact E|].
  intros Hall. rewrite E. f_equal. apply filter_all.
  intros r Hr. specialize (Hall r Hr). now destruct (r_url r).
Qed.

Lemma C5_witness :
  @analysis_of Ref.lib (firstn 3 Examples.rs_sample)
  = Ok (mkAnalysis
          [(Str "http://a/x", 2); (Str "http://a/y", 1)]
          [(Str "http://a/x", [(Str "Repeater", 2)]); (Str "http://a/y", [(Str "Scanner", 1)])]
          [("2024-01-02", mkBucket 2 [(Str "Repeater", 2)]);
           ("2024-01-03", mkBucket 1 [(Str "Scanner", 1)])]
          [(Str "Repeater", 2); (Str "Scanner", 1)]
          [(Str "a", 3)]
          (mkProductivity 3 2 "1.50" "02/01/2024" 2)) /\
  sum_values [(Str "http://a/x", 2); (Str "http://a/y", 1)] = 3.
Proof.
  split; [reflexivity|].
  exact (proj1 (C5_endpoint_counts_sum Ref.lib (firstn 3 Examples.rs_sample) _ eq_refl)).
Defined.

(** C5 as stated fails: for one record with a missing URL, a valid time and
    the tool Proxy a report is produced whose endpoint counts sum to 0 while
    the set has 1 record. *)
Lemma C5_counterexample :
  exists html a,
    @analyze_burp_log Ref.lib Examples.df_null_url None None = Ok (html, a) /\
    sum_values (endpoint_counts a) = 0 /\
    total_requests (productivity_metrics a) = 1.
Proof. eexists. eexists. split; [vm_compute; reflexivity | split; reflexivity]. Qed.

(** C7, as the code has it: the target of a record is the host name of its
    URL, and a missing value when the URL is missing or has no host name;
    the target counts have distinct keys, map each host name to the number
    of records with that target, and hold no key for the missing target:
    records without a host name are left out of the target counts, whose
    sum is the number of records that have one. *)
Theorem C7_target_counts (L : PyLib) (rs : list record) (a : analysis_data) :
  analysis_of rs = Ok a ->
  exists targets,
    Forall2 (fun r t => target_of (r_url r) = Ok t) rs targets /\
    NoDup (keys (target_counts a)) /\
    ~ In Null (keys (target_counts a)) /\
    (forall host n,
       In (Str host, n) (target_counts a) <->
       n = count_occ cell_eq_dec targets (Str host) /\ 0 < n) /\
    sum_values (target_counts a)
    = List.length (filter (fun t => negb (is_null t)) targets).
Proof.
  intros H. apply analysis_of_Ok in H as [targets [Ht ->]]. simpl.
  exists targets. split; [now apply mapM_Forall2|].
  destruct (value_counts_spec cell cell_eq_dec is_null targets) as [ND [Hna Hitems]].
  change (fun a b : cell => if cell_eq_dec a b then true else false) with cell_eqb in *.
  split; [exact ND|]. split; [|split].
  - intros Hin. apply Hna in Hin. discriminate.
  - intros host n. rewrite Hitems. simpl. tauto.
  - apply sum_values_value_counts.
Qed.

Lemma C7_witness :
  @analysis_of Ref.lib (firstn 3 Examples.rs_sample)
  = Ok (mkAnalysis
          [(Str "http://a/x", 2); (Str "http://a/y", 1)]
          [(Str "http://a/x", [(Str "Repeater", 2)]); (Str "http://a/y", [(Str "Scanner", 1)])]
          [("2024-01-02", mkBucket 2 [(Str "Repeater", 2)]);
           ("2024-01-03", mkBucket 1 [(Str "Scanner", 1)])]
          [(Str "Repeater", 2); (Str "Scanner", 1)]
          [(Str "a", 3)]
          (mkProductivity 3 2 "1.50" "02/01/2024" 2)) /\
  exists targets,
    Forall2 (fun r t => @target_of Ref.lib (r_url r) = Ok t)
      (firstn 3 Examples.rs_sample) targets /\
    NoDup (keys [(Str "a", 3)]) /\
    ~ In Null (keys [(Str "a", 3)]) /\
    (forall host n,
       In (Str host, n) [(Str "a", 3)] <->
       n = count_occ cell_eq_dec targets (Str host) /\ 0 < n) /\
    sum_values [(Str "a", 3)]
    = List.length (filter (fun t => negb (is_null t)) targets).
Proof.
  split; [reflexivity|].
  exact (C7_target_counts Ref.lib (firstn 3 Examples.rs_sample) _ eq_refl).
Defined.

(** C7 as stated fails: for one record whose URL has no host name a report
    is produced, the record's target is the missing value, and the target
    counts are empty: the missing target is no key of them. *)
Lemma C7_counterexample :
  exists html a,
    @analyze_burp_log Ref.lib Examples.df_no_host None None = Ok (html, a) /\
    @target_of Ref.lib (Str "not a url") = Ok Null /\
    total_requests (productivity_metrics a) = 1 /\
    target_counts a = [].
Proof. eexists. eexists. split; [vm_compute; reflexivity | repeat split]. Qed.

(** A URL with an unmatched IPv6 bracket is not given a missing target:
    [urlparse] raises and so does the analysis. *)
Example unmatched_bracket_raises :
  @aggregate Ref.lib [mkRecord (Str "http://[") (Str "Proxy") (Examples.t 2 10)]
  = Raise ValueError.
Proof. reflexivity. Qed.

(** A record whose tool field is missing is counted in its bucket, but the
    report cannot be rendered: [html.escape] on line 171 is given a value
    that is no text. *)
Example missing_tool_raises_in_report :
  @aggregate Ref.lib [mkRecord (Str "http://a/x") Null (Examples.t 2 10)]
  = Raise AttributeError.
Proof. reflexivity. Qed.

(** C10: for every filtered, time-resolved record set each daily bucket's
    total is the sum of its per-tool counts, and the bucket totals add up
    to the total record count of the productivity metrics, the size of the
    record set. *)
Theorem C10_daily_buckets (L : PyLib) (rs : list record) (a : analysis_data) :
  analysis_of rs = Ok a ->
  (forall d b, In (d, b) (daily_summary a) -> total b = sum_values (tools b)) /\
  sum_totals (daily_summary a) = total_requests (productivity_metrics a) /\
  total_requests (productivity_metrics a) = List.length rs.
Proof.
  intros H. apply analysis_of_Ok in H as [targets [_ ->]]. simpl.
  destruct (daily_summary_invariant rs) as [H1 H2].
  repeat split; [|exact H2].
  intros d b Hin. rewrite Forall_forall in H1. exact (H1 (d, b) Hin).
Qed.

Lemma C10_witness :
  @analysis_of Ref.lib Examples.rs_sample
  = Ok (mkAnalysis
          [(Str "http://a/x", 2); (Str "http://a/y", 1); (Str "not a url", 1)]
          [(Str "http://a/x", [(Str "Repeater", 2)]); (Str "http://a/y", [(Str "Scanner", 1)]);
           (Null, [(Null, 1)]); (Str "not a url", [(Str "Proxy", 1)])]
          [("2024-01-02", mkBucket 2 [(Str "Repeater", 2)]);
           ("2024-01-03", mkBucket 2 [(Str "Scanner", 1); (Null, 1)]);
           ("2024-01-04", mkBucket 1 [(Str "Proxy", 1)])]
          [(Str "Repeater", 2); (Str "Scanner", 1); (Str "Proxy", 1)]
          [(Str "a", 3)]
          (mkProductivity 5 3 "1.67" "02/01/2024" 2)) /\
  sum_totals [("2024-01-02", mkBucket 2 [(Str "Repeater", 2)]);
              ("2024-01-03", mkBucket 2 [(Str "Scanner", 1); (Null, 1)]);
              ("2024-01-04", mkBucket 1 [(Str "Proxy", 1)])] = 5.
Proof.
  split; [reflexivity|].
  exact (proj1 (proj2 (C10_daily_buckets Ref.lib Examples.rs_sample _ eq_refl))).
Defined.

(** ** Escaping *)

(** [html.escape] leaves no character that opens or closes markup or an
    attribute value. *)
Lemma html_escape_no_markup (s : string) (c : ascii) :
  In c (list_ascii_of_string (html_escape s)) -> markup_char c = false.
Proof.
  induction s as [|x s IH]; simpl; [intros []|].
  unfold html_escape_char.
  destruct (nat_of_ascii x =? 38) eqn:E1;
    [|destruct (nat_of_ascii x =? 60) eqn:E2;
      [|destruct (nat_of_ascii x =? 62) eqn:E3;
        [|destruct (nat_of_ascii x =? 34) eqn:E4;
          [|destruct (nat_of_ascii x =? 39) eqn:E5]]]];
    simpl; intros H;
    repeat (destruct H as [<- | H]; [try reflexivity|]); try (now apply IH).
  unfold markup_char. now rewrite E2, E3, E4, E5.
Qed.

(** [json.dumps] copies text made of plain characters unchanged, the
    angle brackets and the slash among them. *)
Lemma json_escape_plain (s : string) :
  forallb json_plain (list_ascii_of_string s) = true -> json_escape s = s.
Proof.
  induction s as [|c s IH]; simpl; [reflexivity|].
  rewrite andb_true_iff. intros [Hc Hs]. rewrite (IH Hs).
  unfold json_plain in Hc. unfold json_escape_char.
  repeat rewrite andb_true_iff in Hc. destruct Hc as [[[H1 H2] H3] H4].
  apply negb_true_iff in H3. apply negb_true_iff in H4. rewrite H3, H4.
  apply Nat.leb_le in H1.
  repeat match goal with
         | |- context [?n =? ?k] =>
             destruct (n =? k) eqn:?E; [apply Nat.eqb_eq in E; lia|]; clear E
         end.
  assert (Hr : (32 <=? nat_of_ascii c) && (nat_of_ascii c <=? 126) = true).
  { now rewrite H2, (proj2 (Nat.leb_le _ _) H1). }
  now rewrite Hr.
Qed.

(** C9 (evaluated where the code departs from it): a record whose tool
    field is the text of a closing and an opening script tag yields a
    report; the tool table holds the text escaped, but line 246 writes it
    through [json.dumps] into the script block, where it appears as it is:
    the document contains markup taken from the data. *)
Theorem C9_tool_name_injects_script :
  exists html a,
    @analyze_burp_log Ref.lib Examples.df_script_tool None None = Ok (html, a) /\
    tool_summary a = [(Str "</script><script>alert(1)</script>", 1)] /\
    tool_rows_html (tool_summary a)
    = Ok "<tr><td>&lt;/script&gt;&lt;script&gt;alert(1)&lt;/script&gt;</td><td>1</td></tr>" /\
    tool_data_json (tool_summary a)
    = ("[[" ++ DQ ++ "</script><script>alert(1)</script>" ++ DQ ++ ", 1]]")%string /\
    contains_text "</script><script>alert(1)</script>" html = true.
Proof.
  eexists. eexists. split; [vm_compute; reflexivity | repeat split].
Qed.

(** * Further properties of the source file *)

(** ** Text helpers *)

Lemma lower_char_idem (c : ascii) : Py.lower_char (Py.lower_char c) = Py.lower_char c.
Proof. destruct c as [[] [] [] [] [] [] [] []]; vm_compute; reflexivity. Qed.

Lemma is_space_lower_char (c : ascii) : Py.is_space (Py.lower_char c) = Py.is_space c.
Proof. destruct c as [[] [] [] [] [] [] [] []]; vm_compute; reflexivity. Qed.

Lemma eqb_comma_lower_char (c : ascii) :
  Ascii.eqb (Py.lower_char c) "," = Ascii.eqb c ",".
Proof. destruct c as [[] [] [] [] [] [] [] []]; vm_compute; reflexivity. Qed.

Lemma lower_idem (s : string) : Py.lower (Py.lower s) = Py.lower s.
Proof. induction s as [|c s IH]; simpl; [reflexivity|]. now rewrite lower_char_idem, IH. Qed.

Lemma nonempty_lower (s : string) : nonempty (Py.lower s) = nonempty s.
Proof. destruct s; reflexivity. Qed.

Lemma nonempty_true (s : string) : nonempty s = true <-> s <> EmptyString.
Proof. destruct s; simpl; split; congruence. Qed.

Lemma lstrip_lower (s : string) : Py.lstrip (Py.lower s) = Py.lower (Py.lstrip s).
Proof.
  induction s as [|c s IH]; simpl; [reflexivity|].
  rewrite is_space_lower_char. destruct (Py.is_space c); [exact IH | reflexivity].
Qed.

Lemma rstrip_lower (s : string) : Py.rstrip (Py.lower s) = Py.lower (Py.rstrip s).
Proof.
  induction s as [|c s IH]; simpl; [reflexivity|].
  rewrite IH, is_space_lower_char.
  destruct (Py.rstrip s); simpl; [destruct (Py.is_space c)|]; reflexivity.
Qed.

Lemma strip_lower (s : string) : Py.strip (Py.lower s) = Py.lower (Py.strip s).
Proof. unfold Py.strip. now rewrite lstrip_lower, rstrip_lower. Qed.

Lemma lstrip_idem (s : string) : Py.lstrip (Py.lstrip s) = Py.lstrip s.
Proof.
  induction s as [|c s IH]; simpl; [reflexivity|].
  destruct (Py.is_space c) eqn:E; [exact IH|]. simpl. now rewrite E.
Qed.

Lemma rstrip_idem (s : string) : Py.rstrip (Py.rstrip s) = Py.rstrip s.
Proof.
  induction s as [|c s IH]; simpl; [reflexivity|].
  destruct (Py.rstrip s) as [|x r] eqn:E.
  - destruct (Py.is_space c) eqn:Ec; simpl; [reflexivity | now rewrite Ec].
  - simpl in *. now rewrite IH.
Qed.

(** Trimming on the right does not uncover white space on the left. *)
Lemma lstrip_rstrip (s : string) :
  Py.lstrip s = s -> Py.lstrip (Py.rstrip s) = Py.rstrip s.
Proof.
  destruct s as [|c s]; [reflexivity|]. simpl.
  destruct (Py.is_space c) eqn:E.
  - intros H. exfalso.
    assert (Hl : forall t, String.length (Py.lstrip t) <= String.length t).
    { induction t as [|x t IHt]; simpl; [lia|]. destruct (Py.is_space x); simpl; lia. }
    specialize (Hl s). rewrite H in Hl. simpl in Hl. lia.
  - intros _. destruct (Py.rstrip s); simpl; now rewrite E.
Qed.

Lemma strip_idem (s : string) : Py.strip (Py.strip s) = Py.strip s.
Proof.
  unfold Py.strip.
  rewrite (lstrip_rstrip (Py.lstrip s) (lstrip_idem s)). apply rstrip_idem.
Qed.

Lemma free_of_lstrip (c : ascii) (s : string) :
  free_of c s = true -> free_of c (Py.lstrip s) = true.
Proof.
  induction s as [|x s IH]; simpl; [reflexivity|].
  destruct (Py.is_space x); simpl; [|tauto].
  intros H. apply andb_true_iff in H. now apply IH.
Qed.

Lemma free_of_rstrip (c : ascii) (s : string) :
  free_of c s = true -> free_of c (Py.rstrip s) = true.
Proof.
  induction s as [|x s IH]; simpl; [reflexivity|].
  intros H. apply andb_true_iff in H as [Hx Hs]. specialize (IH Hs).
  destruct (Py.rstrip s); simpl; [destruct (Py.is_space x); simpl|];
    rewrite ?Hx; simpl; auto.
Qed.

Lemma free_of_strip (c : ascii) (s : string) :
  free_of c s = true -> free_of c (Py.strip s) = true.
Proof. intros H. unfold Py.strip. now apply free_of_rstrip, free_of_lstrip. Qed.

Lemma free_of_comma_lower (s : string) : free_of "," (Py.lower s) = free_of "," s.
Proof. induction s as [|c s IH]; simpl; [reflexivity|]. now rewrite eqb_comma_lower_char, IH. Qed.

(** ** [str.split] *)

Lemma split_on_free (sep : ascii) (s : string) :
  Forall (fun p => free_of sep p = true) (split_on sep s).
Proof.
  induction s as [|c s IH]; simpl; [repeat constructor|].
  destruct (Ascii.eqb c sep) eqn:E; [constructor; [reflexivity | exact IH]|].
  destruct (split_on sep s) as [|p ps]; [repeat constructor; simpl; now rewrite E|].
  inversion IH as [|x l Hp Hps]; subst. constructor; [|exact Hps].
  simpl. now rewrite E, Hp.
Qed.

Lemma split_on_whole (sep : ascii) (s : string) :
  free_of sep s = true -> split_on sep s = [s].
Proof.
  induction s as [|c s IH]; simpl; [reflexivity|].
  intros H. apply andb_true_iff in H as [Hc Hs]. apply negb_true_iff in Hc.
  now rewrite Hc, (IH Hs).
Qed.

Lemma split_on_app (sep : ascii) (p rest : string) :
  free_of sep p = true ->
  split_on sep (p ++ String sep rest) = p :: split_on sep rest.
Proof.
  induction p as [|c p IH]; simpl.
  - intros _. now rewrite Ascii.eqb_refl.
  - intros H. apply andb_true_iff in H as [Hc Hp]. apply negb_true_iff in Hc.
    now rewrite Hc, (IH Hp).
Qed.

Lemma split_on_lower (s : string) :
  split_on "," (Py.lower s) = map Py.lower (split_on "," s).
Proof.
  induction s as [|c s IH]; simpl; [reflexivity|].
  rewrite eqb_comma_lower_char, IH.
  destruct (Ascii.eqb c ","); [reflexivity|].
  destruct (split_on "," s); reflexivity.
Qed.

Lemma filter_map_comm {A B} (f : A -> B) (p : B -> bool) (l : list A) :
  filter p (map f l) = map f (filter (fun a => p (f a)) l).
Proof.
  induction l as [|a l IH]; simpl; [reflexivity|].
  destruct (p (f a)); simpl; now rewrite IH.
Qed.

(** ** The exclusion lists read by [main] *)

Lemma main_exclude_entries (f : string -> string) (s : string) :
  (forall x, Py.strip (f (Py.strip x)) = f (Py.strip x)) ->
  (forall x, nonempty (f x) = nonempty x) ->
  (forall x, free_of "," (f x) = free_of "," x) ->
  Forall (fun e => e <> EmptyString /\ Py.strip e = e /\ free_of "," e = true)
    (map (fun x => f (Py.strip x))
       (filter (fun x => nonempty (Py.strip x)) (split_on "," s))).
Proof.
  intros Hs Hn Hf. apply Forall_forall. intros e He.
  apply in_map_iff in He as [x [<- Hx]]. apply filter_In in Hx as [Hx Hne].
  repeat split.
  - apply nonempty_true. now rewrite Hn.
  - apply Hs.
  - rewrite Hf. apply free_of_strip.
    pose proof (split_on_free "," s) as F. rewrite Forall_forall in F. now apply F.
Qed.

Lemma exclude_extensions_normal (exclude_ext_str : string) :
  Forall (fun e => e <> EmptyString /\ Py.strip e = e /\ free_of "," e = true
                   /\ Py.lower e = e)
    (main_exclude_extensions exclude_ext_str).
Proof.
  unfold main_exclude_extensions.
  assert (F : Forall (fun e => e <> EmptyString /\ Py.strip e = e /\ free_of "," e = true)
                (map (fun x => Py.lower (Py.strip x))
                   (filter (fun x => nonempty (Py.strip x))
                      (split_on "," exclude_ext_str)))).
  { apply (main_exclude_entries Py.lower).
    - intros x. now rewrite strip_lower, strip_idem.
    - apply nonempty_lower.
    - apply free_of_comma_lower. }
  rewrite Forall_forall in *. intros e He. destruct (F e He) as [H1 [H2 H3]].
  repeat split; auto.
  apply in_map_iff in He as [x [<- _]]. apply lower_idem.
Qed.

Lemma exclude_tools_normal (exclude_tools_str : string) :
  Forall (fun e => e <> EmptyString /\ Py.strip e = e /\ free_of "," e = true)
    (main_exclude_tools exclude_tools_str).
Proof.
  unfold main_exclude_tools.
  apply (main_exclude_entries (fun x => x)); auto. intros x. apply strip_idem.
Qed.

(** X1: every entry of the two exclusion lists that [main] builds from the
    user's answers is a non-empty text without surrounding white space and
    without a comma, and the extension entries are in lower case. *)
Theorem X1_exclusion_entries_normalised (exclude_ext_str exclude_tools_str : string) :
  Forall (fun e => e <> EmptyString /\ Py.strip e = e /\ free_of "," e = true
                   /\ Py.lower e = e)
    (main_exclude_extensions exclude_ext_str) /\
  Forall (fun e => e <> EmptyString /\ Py.strip e = e /\ free_of "," e = true)
    (main_exclude_tools exclude_tools_str).
Proof.
  split; [apply exclude_extensions_normal | apply exclude_tools_normal].
Qed.

Lemma lstrip_all_space (s : string) :
  forallb Py.is_space (list_ascii_of_string s) = true -> Py.lstrip s = EmptyString.
Proof.
  induction s as [|c s IH]; simpl; [reflexivity|].
  intros H. apply andb_true_iff in H as [Hc Hs]. rewrite Hc. now apply IH.
Qed.

Lemma split_on_blank (s : string) :
  blank_list s = true ->
  Forall (fun p => forallb Py.is_space (list_ascii_of_string p) = true) (split_on "," s).
Proof.
  unfold blank_list. induction s as [|c s IH]; simpl; [repeat constructor|].
  intros H. apply andb_true_iff in H as [Hc Hs]. specialize (IH Hs).
  destruct (Ascii.eqb c ",") eqn:E; [constructor; [reflexivity | exact IH]|].
  rewrite orb_false_r in Hc.
  destruct (split_on "," s) as [|p ps]; [repeat constructor; simpl; now rewrite Hc|].
  inversion IH as [|x l Hp Hps]; subst. constructor; [|exact Hps].
  simpl. now rewrite Hc, Hp.
Qed.

Lemma blank_list_filter (s : string) :
  blank_list s = true ->
  filter (fun x => nonempty (Py.strip x)) (split_on "," s) = [].
Proof.
  intros H. pose proof (split_on_blank s H) as F.
  induction (split_on "," s) as [|p ps IH]; simpl; [reflexivity|].
  inversion F as [|x l Hp Hps]; subst.
  unfold Py.strip at 1. rewrite (lstrip_all_space p Hp). simpl. now apply IH.
Qed.

(** X2: answers made of white space and commas only (the empty answer
    among them) give two empty exclusion lists, and the analysis is then
    the one without any filter. *)
Theorem X2_blank_answers_skip_filters (L : PyLib) (master_df : DataFrame)
  (exclude_ext_str exclude_tools_str : string) :
  blank_list exclude_ext_str = true ->
  blank_list exclude_tools_str = true ->
  main_exclude_extensions exclude_ext_str = [] /\
  main_exclude_tools exclude_tools_str = [] /\
  main_analyze master_df exclude_ext_str exclude_tools_str
  = analyze_burp_log master_df None None.
Proof.
  intros He Ht. unfold main_analyze, main_exclude_extensions, main_exclude_tools.
  rewrite (blank_list_filter _ He), (blank_list_filter _ Ht). simpl.
  repeat split.
Qed.

Lemma X2_witness :
  blank_list " , ,  " = true /\ blank_list "" = true /\
  @main_analyze Ref.lib Examples.df_mixed " , ,  " ""
  = @analyze_burp_log Ref.lib Examples.df_mixed None None.
Proof.
  split; [reflexivity|]. split; [reflexivity|].
  apply (X2_blank_answers_skip_filters Ref.lib Examples.df_mixed " , ,  " "");
    reflexivity.
Defined.

(** X3: the extension answer is read without regard to letter case, and
    line 71 finds the entries already in lower case: the suffixes it builds
    are the entries with a dot in front. *)
Theorem X3_extension_answer_case_insensitive (exclude_ext_str : string) :
  main_exclude_extensions (Py.lower exclude_ext_str)
  = main_exclude_extensions exclude_ext_str /\
  extensions_tuple (main_exclude_extensions exclude_ext_str)
  = map (fun e => ("." ++ e)%string) (main_exclude_extensions exclude_ext_str).
Proof.
  split.
  - unfold main_exclude_extensions.
    rewrite split_on_lower, filter_map_comm, map_map.
    rewrite (filter_ext (fun a => nonempty (Py.strip (Py.lower a)))
               (fun a => nonempty (Py.strip a))).
    + apply map_ext. intros a. now rewrite strip_lower, lower_idem.
    + intros a. now rewrite strip_lower, nonempty_lower.
  - unfold extensions_tuple. apply map_ext_in. intros e He.
    unfold main_exclude_extensions in He.
    apply in_map_iff in He as [x [<- _]]. now rewrite lower_idem.
Qed.

Lemma split_on_join (e : string) (es : list string) :
  Forall (fun x => free_of "," x = true) (e :: es) ->
  split_on "," (Py.join ", " (e :: es)) = e :: map (String " ") es.
Proof.
  revert e. induction es as [|e' es IH]; intros e F.
  - simpl. apply split_on_whole. now inversion F.
  - inversion F as [|x l He Hes]; subst.
    change (Py.join ", " (e :: e' :: es))
      with (e ++ String "," (String " " (Py.join ", " (e' :: es))))%string.
    rewrite (split_on_app "," e _ He).
    change (split_on "," (String " " (Py.join ", " (e' :: es))))
      with (match split_on "," (Py.join ", " (e' :: es)) with
            | p :: ps => String " " p :: ps
            | [] => [String " " EmptyString]
            end).
    now rewrite (IH e' Hes).
Qed.

Lemma strip_leading_blank (x : string) : Py.strip (String " " x) = Py.strip x.
Proof. reflexivity. Qed.

(** Reading back the list printed with a comma and a blank between its
    entries. *)
Lemma reparse_joined (f : string -> string) (l : list string) :
  Forall (fun e => e <> EmptyString /\ Py.strip e = e /\ free_of "," e = true /\ f e = e) l ->
  map (fun x => f (Py.strip x))
      (filter (fun x => nonempty (Py.strip x)) (split_on "," (Py.join ", " l)))
  = l.
Proof.
  intros F. destruct l as [|e es]; [reflexivity|].
  rewrite split_on_join
    by (eapply Forall_impl; [|exact F]; simpl; tauto).
  inversion F as [|x l [He1 [He2 [He3 He4]]] Fes]; subst.
  cbn [filter]. rewrite He2, (proj2 (nonempty_true e) He1).
  cbn [map]. rewrite He2, He4. f_equal.
  clear -Fes. induction es as [|x es IH]; [reflexivity|].
  inversion Fes as [|y l [Hx1 [Hx2 [Hx3 Hx4]]] Fes']; subst.
  cbn [map filter]. rewrite strip_leading_blank, Hx2, (proj2 (nonempty_true x) Hx1).
  cbn [map]. rewrite strip_leading_blank, Hx2, Hx4. f_equal. now apply IH.
Qed.

(** X4: the exclusion lists are printed (lines 73 and 77) with a comma and
    a blank between their entries; given back as an answer, the printed
    text is read as the same list. *)
Theorem X4_printed_lists_read_back (exclude_ext_str exclude_tools_str : string) :
  main_exclude_extensions (Py.join ", " (main_exclude_extensions exclude_ext_str))
  = main_exclude_extensions exclude_ext_str /\
  main_exclude_tools (Py.join ", " (main_exclude_tools exclude_tools_str))
  = main_exclude_tools exclude_tools_str.
Proof.
  split.
  - unfold main_exclude_extensions at 1.
    apply (reparse_joined Py.lower), exclude_extensions_normal.
  - unfold main_exclude_tools at 1.
    apply (reparse_joined (fun x => x)).
    eapply Forall_impl; [|apply exclude_tools_normal]. simpl. tauto.
Qed.

(** ** [has_header] *)

Lemma readline_first_line (l rest rest' : string) (nl : ascii) :
  Ascii.eqb nl LF || Ascii.eqb nl CR = true ->
  readline (l ++ String nl rest)%string = readline (l ++ String nl rest')%string.
Proof.
  intros H. induction l as [|c l IH]; simpl.
  - now rewrite H.
  - now rewrite IH.
Qed.

(** X5: [has_header] looks at the first line only: what follows the first
    line end (LF or CR) of the file does not change its answer, and a file
    that cannot be read has no header. *)
Theorem X5_has_header_reads_first_line (l rest rest' : string) :
  has_header (Some (l ++ String LF rest)%string) = has_header (Some (l ++ String LF rest')%string) /\
  has_header (Some (l ++ String CR rest)%string) = has_header (Some (l ++ String CR rest')%string) /\
  has_header None = false.
Proof.
  unfold has_header. repeat split.
  - now rewrite (readline_first_line l rest rest' LF).
  - now rewrite (readline_first_line l rest rest' CR).
Qed.

(** ** The stage before the analysis *)

Lemma has_column_filtered (df : DataFrame) (dts : list dtype) (rws : list (list cell))
  (name : string) :
  has_column (mkDF (columns df) dts rws) name = has_column df name.
Proof. reflexivity. Qed.

Lemma regular_dropna (L : PyLib) (df : DataFrame) (time : list (option naive)) :
  regular_outcome
    (match dropna_time df time with [] => Stop NoTimestamps | r :: rs => Ok (r :: rs) end).
Proof. unfold regular_outcome. destruct (dropna_time df time); eauto 10. Qed.

Lemma resolve_stage_with_columns (L : PyLib) (df : DataFrame)
  (exts tools : option (list string)) :
  has_column df "Request.URL" = true ->
  has_column df "Request.Tool" = true ->
  has_column df "Response.Headers" = true ->
  regular_outcome (resolve_stage df exts tools).
Proof.
  intros Hu Ht Hh. unfold resolve_stage.
  destruct (empty df); [unfold regular_outcome; auto|].
  rewrite filter_stage_eq, Hu, Ht, !andb_false_r.
  destruct (truthy exts && negb (is_object (dtype_of df "Request.URL")));
    [unfold regular_outcome; cbn [bind]; auto 10|].
  set (df' := mkDF (columns df) (dtypes df)
                (filter (fun r => negb (dropped df exts tools r)) (rows df))).
  cbn [bind]. destruct (empty df'); [unfold regular_outcome; auto|].
  unfold check_required.
  replace (has_column df' "Request.URL") with true by (symmetry; exact Hu).
  replace (has_column df' "Request.Tool") with true by (symmetry; exact Ht).
  cbn [negb bind]. unfold resolve_times. rewrite primary_times_eq. cbn [bind].
  destruct (forallb isnull _).
  - rewrite (fallback_times_eq df' Hh).
    destruct (header_dates_cases df') as [[ts ->] | [s [e [H1 [H2 [H3 ->]]]]]]; cbn [bind].
    + destruct (existsb notna ts).
      * unfold dt_tz_localize_none. destruct (datetimelike ts); cbn [bind].
        -- apply regular_dropna.
        -- unfold regular_outcome. auto 10.
      * cbn [bind]. apply regular_dropna.
    + unfold regular_outcome. do 5 right. exists s, e. auto.
  - cbn [bind]. apply regular_dropna.
Qed.

(** X6: on a frame that has the request URL, request tool and response
    header columns, the stage before the analysis (lines 65-109) raises no
    [KeyError] of its own and reports no missing column: it hands on a
    non-empty record set, stops with the empty-data, all-filtered or
    no-timestamps diagnostic, raises the [AttributeError] of line 72 or
    line 100, or is left by an exception other than [TypeError] and
    [ValueError] that [parsedate_to_datetime] raised on line 56. *)
Theorem X6_outcomes_with_columns (L : PyLib) (df : DataFrame)
  (exts tools : option (list string)) :
  has_column df "Request.URL" = true ->
  has_column df "Request.Tool" = true ->
  has_column df "Response.Headers" = true ->
  regular_outcome (resolve_stage df exts tools).
Proof. apply resolve_stage_with_columns. Qed.

Lemma X6_witness :
  @resolve_stage Ref.lib Examples.df_zone_overflow (Some ["js"]) (Some ["Scanner"])
  = Raise OverflowError /\
  exists s, Ref.parsedate_to_datetime s = inr OverflowError.
Proof.
  split; [reflexivity|].
  destruct (X6_outcomes_with_columns Ref.lib Examples.df_zone_overflow
              (Some ["js"]) (Some ["Scanner"]) eq_refl eq_refl eq_refl)
    as [H | [H | [H | [H | [[r [rs H]] | [s [e [H1 [_ [_ H]]]]]]]]]];
    try discriminate H.
  injection H as <-. exists s. exact H1.
Defined.

Lemma NoDup_DEFAULT_HEADERS : NoDup DEFAULT_HEADERS.
Proof.
  unfold DEFAULT_HEADERS.
  repeat (constructor; [cbv [In]; intuition discriminate|]). constructor.
Qed.

(** X7: a file without header row is loaded with the column names of
    [DEFAULT_HEADERS] (line 39).  These 57 names are distinct and include
    the four columns the analysis reads, so on such a frame, whatever its
    rows, its dtypes and the exclusion lists, the filters raise no
    [KeyError] and the stage before the analysis reports neither a missing
    required column nor a missing headers column. *)
Theorem X7_default_schema_has_all_columns :
  NoDup DEFAULT_HEADERS /\ List.length DEFAULT_HEADERS = 57 /\
  (forall name,
     In name ["Request.URL"; "Request.Tool"; "Request.Time"; "Response.Headers"] ->
     In name DEFAULT_HEADERS) /\
  forall (L : PyLib) (dts : list dtype) (rws : list (list cell))
         (exts tools : option (list string)),
    (forall k, filter_stage (mkDF DEFAULT_HEADERS dts rws) exts tools <> Raise (KeyError k)) /\
    (forall c, resolve_stage (mkDF DEFAULT_HEADERS dts rws) exts tools
               <> Stop (MissingColumn c)) /\
    resolve_stage (mkDF DEFAULT_HEADERS dts rws) exts tools <> Stop NoHeadersColumn.
Proof.
  split; [exact NoDup_DEFAULT_HEADERS|]. split; [reflexivity|]. split.
  { intros name H. cbv [In] in H. cbv [DEFAULT_HEADERS In].
    repeat (destruct H as [<- | H]; [tauto|]). destruct H. }
  intros L dts rws exts tools. split.
  - intros k. rewrite filter_stage_eq.
    replace (has_column (mkDF DEFAULT_HEADERS dts rws) "Request.URL") with true
      by reflexivity.
    replace (has_column (mkDF DEFAULT_HEADERS dts rws) "Request.Tool") with true
      by reflexivity.
    rewrite !andb_false_r.
    destruct (truthy exts && negb (is_object _)); discriminate.
  - pose proof (resolve_stage_with_columns L (mkDF DEFAULT_HEADERS dts rws) exts tools
                  eq_refl eq_refl eq_refl) as H.
    unfold regular_outcome in H.
    split; [intros c|]; intros E; rewrite E in H;
      destruct H as [H | [H | [H | [H | [[r [rs H]] | [s [e [_ [_ [_ H]]]]]]]]]];
      discriminate H.
Qed.

(** ** [extract_date_from_headers] *)

Lemma string_app_assoc (a b c : string) : ((a ++ b) ++ c = a ++ (b ++ c))%string.
Proof. induction a as [|x a IH]; simpl; [reflexivity | now rewrite IH]. Qed.

Lemma match_literal_ci_lower (p rest : string) :
  match_literal_ci (Py.lower p) (p ++ rest) = Some rest.
Proof.
  induction p as [|c p IH]; simpl; [now destruct rest|].
  now rewrite Ascii.eqb_refl.
Qed.

Lemma free_of_cons (c x : ascii) (s : string) :
  free_of c (String x s) = true -> Ascii.eqb x c = false /\ free_of c s = true.
Proof.
  cbn [free_of]. intros H. apply andb_true_iff in H as [Hx Hs].
  now apply negb_true_iff in Hx.
Qed.

Lemma match_literal_ci_extend (pre l tail : string) :
  free_of LF pre = true ->
  match_literal_ci pre l = None ->
  match_literal_ci pre (l ++ String LF tail) = None.
Proof.
  revert l. induction pre as [|p pre IH]; intros l Hf H.
  - destruct l; discriminate H.
  - apply free_of_cons in Hf as [Hp Hpre].
    destruct l as [|c l]; cbn [append match_literal_ci] in *.
    + change (Py.lower_char LF) with LF. rewrite Ascii.eqb_sym, Hp. reflexivity.
    + destruct (Ascii.eqb (Py.lower_char c) p); [now apply IH | reflexivity].
Qed.

Lemma search_date_unfold (bol : bool) (s : string) :
  search_date bol s =
  match (if bol then match_date_here s else None) with
  | Some g => Some g
  | None =>
      match s with
      | EmptyString => None
      | String c s' => search_date (Ascii.eqb c LF) s'
      end
  end.
Proof. destruct s; reflexivity. Qed.

Lemma search_date_inside_line (l tail : string) :
  free_of LF l = true ->
  search_date false (l ++ String LF tail) = search_date true tail.
Proof.
  induction l as [|c l IH]; intros H; rewrite search_date_unfold; cbn [append].
  - now rewrite Ascii.eqb_refl.
  - apply free_of_cons in H as [Hc Hl]. rewrite Hc. now apply IH.
Qed.

Lemma search_date_inside_last (l : string) :
  free_of LF l = true -> search_date false l = None.
Proof.
  induction l as [|c l IH]; intros H; rewrite search_date_unfold; [reflexivity|].
  apply free_of_cons in H as [Hc Hl]. rewrite Hc. now apply IH.
Qed.

(** A line that does not start with the date literal is passed over. *)
Lemma search_date_skip_line (l tail : string) :
  free_of LF l = true ->
  match_literal_ci "date:" l = None ->
  search_date true (l ++ String LF tail) = search_date true tail.
Proof.
  intros Hf Hm. rewrite search_date_unfold. unfold match_date_here.
  rewrite (match_literal_ci_extend "date:" l tail eq_refl Hm).
  destruct l as [|c l]; cbn [append].
  - now rewrite Ascii.eqb_refl.
  - apply free_of_cons in Hf as [Hc Hl]. rewrite Hc. now apply search_date_inside_line.
Qed.

Lemma unlines_cons (l : string) (ls : list string) (tail : string) :
  (unlines (l :: ls) ++ tail = l ++ String LF (unlines ls ++ tail))%string.
Proof.
  unfold unlines. cbn [map Py.concat_all fold_right].
  now rewrite !string_app_assoc.
Qed.

Lemma search_date_skip_lines (ls : list string) (tail : string) :
  Forall (fun l => free_of LF l = true /\ match_literal_ci "date:" l = None) ls ->
  search_date true (unlines ls ++ tail) = search_date true tail.
Proof.
  induction ls as [|l ls IH]; intros F; [reflexivity|].
  inversion F as [|x y [Hf Hm] Fls]; subst.
  rewrite unlines_cons, (search_date_skip_line l _ Hf Hm). now apply IH.
Qed.

Lemma lstrip_app_space (ws s : string) :
  forallb Py.is_space (list_ascii_of_string ws) = true ->
  Py.lstrip (ws ++ s) = Py.lstrip s.
Proof.
  induction ws as [|c ws IH]; simpl; [reflexivity|].
  intros H. apply andb_true_iff in H as [Hc Hws]. rewrite Hc. now apply IH.
Qed.

Lemma lstrip_app_text (v s : string) :
  Py.lstrip v = v -> v <> EmptyString -> Py.lstrip (v ++ s) = (v ++ s)%string.
Proof.
  destruct v as [|c v]; [congruence|]. simpl. intros H _.
  destruct (Py.is_space c) eqn:E; [|reflexivity].
  exfalso.
  assert (Hl : forall t, String.length (Py.lstrip t) <= String.length t).
  { induction t as [|x t IHt]; simpl; [lia|]. destruct (Py.is_space x); simpl; lia. }
  specialize (Hl v). rewrite H in Hl. simpl in Hl. lia.
Qed.

Lemma until_newline_app (v tail : string) :
  free_of LF v = true -> line_end tail = true -> until_newline (v ++ tail) = v.
Proof.
  induction v as [|c v IH]; intros Hf Ht; cbn [append until_newline].
  - destruct tail as [|x tail]; [reflexivity|].
    cbn [line_end until_newline] in *. now rewrite Ht.
  - apply free_of_cons in Hf as [Hc Hv]. rewrite Hc. now rewrite IH.
Qed.

(** X8: the first line of the header block that starts with the letters
    of Date and a colon, in any letter case, decides: the text handed to
    [parsedate_to_datetime] in the try block of lines 55-58 is the first
    text after that colon, up to the end of its line and without
    surrounding white space, and the result is that of the block.  The
    white space
    after the colon may hold line feeds, so that for a date line without
    value the text of the following line is taken.  Later lines, further
    date lines among them, are not looked at. *)
Theorem X8_first_date_line_decides (L : PyLib) (ls : list string)
  (p ws v tail : string) :
  Forall (fun l => free_of LF l = true /\ match_literal_ci "date:" l = None) ls ->
  Py.lower p = "date:" ->
  forallb Py.is_space (list_ascii_of_string ws) = true ->
  Py.lstrip v = v -> v <> EmptyString -> free_of LF v = true ->
  line_end tail = true ->
  extract_date_from_headers (Str (unlines ls ++ p ++ ws ++ v ++ tail))
  = try_parsedate (Py.strip v).
Proof.
  intros F Hp Hws Hv Hne Hf Ht. unfold extract_date_from_headers.
  rewrite (search_date_skip_lines ls _ F), search_date_unfold.
  unfold match_date_here. rewrite <- Hp, match_literal_ci_lower.
  rewrite (lstrip_app_space ws _ Hws), (lstrip_app_text v tail Hv Hne).
  now rewrite (until_newline_app v tail Hf Ht).
Qed.

Lemma X8_witness :
  @extract_date_from_headers Ref.lib
    (Str (unlines ["HTTP/1.1 200 OK"; "Update: no"] ++ "DATE:" ++ String " " (String LF " ")
          ++ "Mon, 01 Jan 2024 10:00:00 GMT " ++ String LF "Date: Tue, 02 Jan 2024 10:00:00 GMT"))
  = Ok (Some (mkDatetime (mkNaive 2024 1 1 10 0 0) (Some 0%Z))).
Proof.
  apply (X8_first_date_line_decides Ref.lib ["HTTP/1.1 200 OK"; "Update: no"]
           "DATE:" (String " " (String LF " ")) "Mon, 01 Jan 2024 10:00:00 GMT "
           (String LF "Date: Tue, 02 Jan 2024 10:00:00 GMT"));
    try reflexivity; [repeat constructor | discriminate].
Defined.

(** X9: a header block none of whose lines starts with the letters of Date
    and a colon gives no date, and so does a header field that is no
    text. *)
Theorem X9_no_date_line (L : PyLib) (ls : list string) (last : string) :
  Forall (fun l => free_of LF l = true /\ match_literal_ci "date:" l = None) ls ->
  free_of LF last = true ->
  match_literal_ci "date:" last = None ->
  extract_date_from_headers (Str (unlines ls ++ last)) = Ok None /\
  extract_date_from_headers Null = Ok None.
Proof.
  intros F Hf Hm. split; [|reflexivity]. unfold extract_date_from_headers.
  rewrite (search_date_skip_lines ls _ F), search_date_unfold.
  unfold match_date_here. rewrite Hm.
  destruct last as [|c l]; [reflexivity|].
  apply free_of_cons in Hf as [Hc Hl].
  now rewrite Hc, (search_date_inside_last l Hl).
Qed.

Lemma X9_witness :
  @extract_date_from_headers Ref.lib
    (Str (unlines ["HTTP/1.1 200 OK"; "Update: Mon, 01 Jan 2024 10:00:00 GMT"] ++ "Server: x"))
  = Ok None /\
  @extract_date_from_headers Ref.lib Null = Ok None.
Proof.
  apply (X9_no_date_line Ref.lib ["HTTP/1.1 200 OK"; "Update: Mon, 01 Jan 2024 10:00:00 GMT"]
           "Server: x");
    try reflexivity. repeat constructor.
Defined.

(** ** The date range *)

Lemma naive_leb_iff (a b : naive) :
  naive_leb a b = true <->
  (year a < year b \/ (year a = year b /\
  (month a < month b \/ (month a = month b /\
  (day a < day b \/ (day a = day b /\
  (hour a < hour b \/ (hour a = hour b /\
  (minute a < minute b \/ (minute a = minute b /\
  (second a < second b \/ second a = second b))))))))))).
Proof.
  cbv [naive_leb].
  repeat (rewrite orb_true_iff || rewrite andb_true_iff
          || rewrite Nat.ltb_lt || rewrite Nat.eqb_eq).
  intuition auto.
Qed.

Lemma naive_leb_refl (a : naive) : naive_leb a a = true.
Proof. apply naive_leb_iff. lia. Qed.

Lemma naive_leb_total (a b : naive) : naive_leb a b = false -> naive_leb b a = true.
Proof.
  intros H. apply naive_leb_iff.
  assert (N : ~ naive_leb a b = true) by congruence.
  rewrite naive_leb_iff in N. lia.
Qed.

Lemma naive_leb_trans (a b c : naive) :
  naive_leb a b = true -> naive_leb b c = true -> naive_leb a c = true.
Proof. rewrite !naive_leb_iff. lia. Qed.

Lemma min_time_spec (ts : list naive) (t : naive) :
  naive_leb (min_time t ts) t = true /\
  Forall (fun x => naive_leb (min_time t ts) x = true) ts /\
  In (min_time t ts) (t :: ts).
Proof.
  revert t. induction ts as [|x ts IH]; intros t; cbn [min_time fold_left].
  - split; [apply naive_leb_refl|]. split; [constructor | now left].
  - fold (min_time (if naive_leb t x then t else x) ts).
    destruct (IH (if naive_leb t x then t else x)) as [H1 [H2 H3]].
    destruct (naive_leb t x) eqn:E.
    + split; [exact H1|]. split.
      * constructor; [exact (naive_leb_trans _ _ _ H1 E) | exact H2].
      * destruct H3 as [H3 | H3]; [now left | now right; right].
    + split; [exact (naive_leb_trans _ _ _ H1 (naive_leb_total _ _ E))|]. split.
      * constructor; [exact H1 | exact H2].
      * destruct H3 as [H3 | H3]; [now right; left | now right; right].
Qed.

Lemma max_time_spec (ts : list naive) (t : naive) :
  naive_leb t (max_time t ts) = true /\
  Forall (fun x => naive_leb x (max_time t ts) = true) ts /\
  In (max_time t ts) (t :: ts).
Proof.
  revert t. induction ts as [|x ts IH]; intros t; cbn [max_time fold_left].
  - split; [apply naive_leb_refl|]. split; [constructor | now left].
  - fold (max_time (if naive_leb x t then t else x) ts).
    destruct (IH (if naive_leb x t then t else x)) as [H1 [H2 H3]].
    destruct (naive_leb x t) eqn:E.
    + split; [exact H1|]. split.
      * constructor; [exact (naive_leb_trans _ _ _ E H1) | exact H2].
      * destruct H3 as [H3 | H3]; [now left | now right; right].
    + split; [exact (naive_leb_trans _ _ _ (naive_leb_total _ _ E) H1)|]. split.
      * constructor; [exact H1 | exact H2].
      * destruct H3 as [H3 | H3]; [now right; left | now right; right].
Qed.

(** X10: the two ends of the analysis period (line 112) are Event Times of
    the record set, and every Event Time of the set lies between them. *)
Theorem X10_date_range_bounds (t : naive) (ts : list naive) :
  Forall (fun x => naive_leb (min_time t ts) x = true /\
                   naive_leb x (max_time t ts) = true) (t :: ts) /\
  In (min_time t ts) (t :: ts) /\ In (max_time t ts) (t :: ts).
Proof.
  destruct (min_time_spec ts t) as [A1 [A2 A3]].
  destruct (max_time_spec ts t) as [B1 [B2 B3]].
  split; [|split; assumption].
  constructor; [split; assumption|].
  rewrite Forall_forall in *. intros x Hx. split; [now apply A2 | now apply B2].
Qed.

(** ** Grouping with [dict_update] *)

Section GroupFacts.
Variables K V R : Type.
Variable eqb : K -> K -> bool.
Hypothesis eqb_eq : forall a b, eqb a b = true <-> a = b.

Lemma eqb_false_sym (a b : K) : eqb a b = false -> eqb b a = false.
Proof.
  intros H. destruct (eqb b a) eqn:E; [|reflexivity].
  apply eqb_eq in E. subst. assert (eqb a a = true) by now apply eqb_eq. congruence.
Qed.

Lemma get_dict_update (k k' : K) (f : V -> V) (dflt : V) (d : dict K V) :
  get eqb k' (dict_update eqb k f dflt d)
  = if eqb k k'
    then Some (f (match get eqb k d with Some v => v | None => dflt end))
    else get eqb k' d.
Proof.
  induction d as [|[k0 v] d IH]; cbn [dict_update get]; [reflexivity|].
  destruct (eqb k0 k) eqn:E0; cbn [get].
  - apply eqb_eq in E0. subst k0. now destruct (eqb k k').
  - rewrite IH. destruct (eqb k0 k') eqn:E1; [|reflexivity].
    apply eqb_eq in E1. subst k0. now rewrite (eqb_false_sym _ _ E0).
Qed.

Lemma keys_dict_update (k k' : K) (f : V -> V) (dflt : V) (d : dict K V) :
  In k' (keys (dict_update eqb k f dflt d)) <-> k' = k \/ In k' (keys d).
Proof.
  induction d as [|[k0 v] d IH]; cbn [dict_update keys map fst In].
  - intuition.
  - destruct (eqb k0 k) eqn:E0; cbn [keys map fst In].
    + apply eqb_eq in E0. subst k0. intuition.
    + unfold keys in IH. rewrite IH. intuition.
Qed.

Lemma NoDup_keys_dict_update (k : K) (f : V -> V) (dflt : V) (d : dict K V) :
  NoDup (keys d) -> NoDup (keys (dict_update eqb k f dflt d)).
Proof.
  induction d as [|[k0 v] d IH]; cbn [dict_update keys map fst]; intros ND.
  - constructor; [intros [] | constructor].
  - inversion ND as [|x l Hx Hl]; subst.
    destruct (eqb k0 k) eqn:E0; cbn [keys map fst].
    + now constructor.
    + constructor; [|now apply IH].
      intros Hin. apply (keys_dict_update k k0 f dflt d) in Hin as [E | Hin];
        [|contradiction].
      subst k0. assert (eqb k k = true) by now apply eqb_eq. congruence.
Qed.

Lemma get_keys (k : K) (d : dict K V) :
  In k (keys d) <-> exists v, get eqb k d = Some v.
Proof.
  induction d as [|[k0 v] d IH]; cbn [keys map fst In get].
  - split; [intros [] | intros [v H]; discriminate].
  - destruct (eqb k0 k) eqn:E0.
    + apply eqb_eq in E0. split; eauto.
    + unfold keys in IH. rewrite IH. split; [intros [E | H]; [|exact H] | tauto].
      subst k0. assert (eqb k k = true) by now apply eqb_eq. congruence.
Qed.

Lemma In_get_dict (k : K) (v : V) (d : dict K V) :
  NoDup (keys d) -> (In (k, v) d <-> get eqb k d = Some v).
Proof.
  induction d as [|[k0 v0] d IH]; cbn [keys map fst In get]; intros ND.
  - split; [intros [] | discriminate].
  - inversion ND as [|x l Hx Hl]; subst.
    destruct (eqb k0 k) eqn:E0.
    + apply eqb_eq in E0. subst k0. split.
      * intros [E | Hin]; [congruence|].
        exfalso. apply Hx. change k with (fst (k, v)). now apply in_map.
      * intros E. left. congruence.
    + rewrite <- (IH Hl). split; [intros [E | Hin]; [|exact Hin] | tauto].
      injection E as -> ->. assert (eqb k k = true) by now apply eqb_eq. congruence.
Qed.

Variable key : R -> K.
Variable upd : R -> V -> V.
Variable dflt : V.

(** The loop [for r in rs: d[key(r)] = upd(r, d[key(r)])] on a
    [defaultdict]. *)
Let group (rs : list R) (d : dict K V) : dict K V :=
  fold_left (fun d r => dict_update eqb (key r) (upd r) dflt d) rs d.

Lemma group_keys (rs : list R) (d : dict K V) :
  NoDup (keys d) ->
  NoDup (keys (group rs d)) /\
  forall k, In k (keys (group rs d)) <-> In k (map key rs) \/ In k (keys d).
Proof.
  unfold group. revert d. induction rs as [|r rs IH]; intros d ND; cbn [fold_left map In].
  - split; [exact ND | tauto].
  - destruct (IH _ (NoDup_keys_dict_update (key r) (upd r) dflt d ND)) as [H1 H2].
    split; [exact H1|]. intros k. rewrite H2, keys_dict_update. intuition.
Qed.

(** A measure [m] of the values that the update of a record [r] raises by
    [w r]: under each key, it is the sum of [w] over the records of that
    key. *)
Lemma group_measure (m : V -> nat) (w : R -> nat) (rs : list R) (d : dict K V) (k : K) :
  (forall r v, m (upd r v) = w r + m v) -> m dflt = 0 ->
  match get eqb k (group rs d) with Some v => m v | None => 0 end
  = list_sum (map w (filter (fun r => eqb (key r) k) rs))
    + match get eqb k d with Some v => m v | None => 0 end.
Proof.
  intros Hm H0. unfold group. revert d.
  induction rs as [|r rs IH]; intros d; cbn [fold_left filter]; [reflexivity|].
  rewrite IH, get_dict_update.
  destruct (eqb (key r) k) eqn:E; [|reflexivity].
  apply eqb_eq in E. subst k. cbn [map]. rewrite Hm.
  change (list_sum (w r :: map w (filter (fun r0 => eqb (key r0) (key r)) rs)))
    with (w r + list_sum (map w (filter (fun r0 => eqb (key r0) (key r)) rs))).
  destruct (get eqb (key r) d); [lia | rewrite H0; lia].
Qed.

End GroupFacts.

Lemma cell_eqb_eq (a b : cell) : cell_eqb a b = true <-> a = b.
Proof. unfold cell_eqb. destruct (cell_eq_dec a b); split; congruence. Qed.

Lemma list_sum_ones {A} (l : list A) : list_sum (map (fun _ => 1) l) = List.length l.
Proof. induction l as [|a l IH]; simpl; [reflexivity | now rewrite IH]. Qed.

Lemma list_sum_indicator {A} (p : A -> bool) (l : list A) :
  list_sum (map (fun a => if p a then 1 else 0) l) = List.length (filter p l).
Proof.
  induction l as [|a l IH]; simpl; [reflexivity|].
  destruct (p a); simpl; now rewrite IH.
Qed.

Lemma count_for_incr_cell (t t' : cell) (d : dict cell nat) :
  count_for cell_eqb t (incr cell_eqb t' d)
  = (if cell_eqb t' t then 1 else 0) + count_for cell_eqb t d.
Proof.
  unfold count_for, incr.
  rewrite (get_dict_update cell nat cell_eqb cell_eqb_eq).
  destruct (cell_eqb t' t) eqn:E; [|reflexivity].
  apply cell_eqb_eq in E. subst. now destruct (get cell_eqb t d).
Qed.

(** ** Counts per URL, per tool and per day *)

Lemma value_counts_cells (s : list cell) :
  NoDup (keys (value_counts cell_eqb is_null s)) /\
  ~ In Null (keys (value_counts cell_eqb is_null s)) /\
  (forall x n, In (Str x, n) (value_counts cell_eqb is_null s) <->
               n = count_occ cell_eq_dec s (Str x) /\ 0 < n).
Proof.
  destruct (value_counts_spec cell cell_eq_dec is_null s) as [ND [Hna Hitems]].
  change (fun a b : cell => if cell_eq_dec a b then true else false) with cell_eqb in *.
  split; [exact ND|]. split.
  - intros Hin. apply Hna in Hin. discriminate.
  - intros x n. rewrite Hitems. simpl. tauto.
Qed.

(** X11: the endpoint counts (line 117) have distinct keys, none of them a
    missing value, and hold a URL with the count [n] exactly when [n > 0]
    records of the set have that URL. *)
Theorem X11_endpoint_counts_items (L : PyLib) (rs : list record) (a : analysis_data) :
  analysis_of rs = Ok a ->
  NoDup (keys (endpoint_counts a)) /\
  ~ In Null (keys (endpoint_counts a)) /\
  (forall u n, In (Str u, n) (endpoint_counts a) <->
               n = count_occ cell_eq_dec (map r_url rs) (Str u) /\ 0 < n).
Proof.
  intros H. apply analysis_of_Ok in H as [targets [_ ->]]. cbn [endpoint_counts].
  apply value_counts_cells.
Qed.

Lemma X11_witness :
  exists a, @analysis_of Ref.lib Examples.rs_sample = Ok a /\
    NoDup (keys (endpoint_counts a)) /\
    ~ In Null (keys (endpoint_counts a)) /\
    (forall u n, In (Str u, n) (endpoint_counts a) <->
                 n = count_occ cell_eq_dec (map r_url Examples.rs_sample) (Str u) /\ 0 < n).
Proof.
  eexists. split; [reflexivity|].
  apply (X11_endpoint_counts_items Ref.lib Examples.rs_sample). reflexivity.
Defined.

(** X12: the tool counts (line 131) have distinct keys, none of them a
    missing value, hold a tool with the count [n] exactly when [n > 0]
    records of the set have that tool, and sum to the number of records
    whose tool field is not missing. *)
Theorem X12_tool_summary_items (L : PyLib) (rs : list record) (a : analysis_data) :
  analysis_of rs = Ok a ->
  NoDup (keys (tool_summary a)) /\
  ~ In Null (keys (tool_summary a)) /\
  (forall t n, In (Str t, n) (tool_summary a) <->
               n = count_occ cell_eq_dec (map r_tool rs) (Str t) /\ 0 < n) /\
  sum_values (tool_summary a)
  = List.length (filter (fun r => negb (is_null (r_tool r))) rs).
Proof.
  intros H. apply analysis_of_Ok in H as [targets [_ ->]]. cbn [tool_summary].
  destruct (value_counts_cells (map r_tool rs)) as [H1 [H2 H3]].
  split; [exact H1|]. split; [exact H2|]. split; [exact H3|].
  rewrite sum_values_value_counts, filter_map_comm, length_map.
  reflexivity.
Qed.

Lemma X12_witness :
  exists a, @analysis_of Ref.lib Examples.rs_sample = Ok a /\
    NoDup (keys (tool_summary a)) /\
    ~ In Null (keys (tool_summary a)) /\
    (forall t n, In (Str t, n) (tool_summary a) <->
                 n = count_occ cell_eq_dec (map r_tool Examples.rs_sample) (Str t) /\ 0 < n) /\
    sum_values (tool_summary a) = 4.
Proof.
  eexists. split; [reflexivity|].
  apply (X12_tool_summary_items Ref.lib Examples.rs_sample). reflexivity.
Defined.

Lemma count_occ_filter_cell (f : record -> cell) (rs : list record) (u : cell) :
  count_occ cell_eq_dec (map f rs) u = List.length (filter (fun r => cell_eqb (f r) u) rs).
Proof.
  induction rs as [|r rs IH]; simpl; [reflexivity|].
  unfold cell_eqb at 1. destruct (cell_eq_dec (f r) u); simpl; now rewrite IH.
Qed.

Lemma tool_endpoint_counts_spec (rs : list record) :
  NoDup (keys (tool_endpoint_counts_of rs)) /\
  (forall u, In u (keys (tool_endpoint_counts_of rs)) <-> In u (map r_url rs)) /\
  (forall u t,
     match get cell_eqb u (tool_endpoint_counts_of rs) with
     | Some inner => count_for cell_eqb t inner
     | None => 0
     end
     = List.length (filter (fun r => cell_eqb (r_url r) u && cell_eqb (r_tool r) t) rs)) /\
  (forall u, drill_down_total u (tool_endpoint_counts_of rs)
             = List.length (filter (fun r => cell_eqb (r_url r) u) rs)).
Proof.
  unfold tool_endpoint_counts_of.
  destruct (group_keys cell (dict cell nat) record cell_eqb cell_eqb_eq
              r_url (fun r => incr cell_eqb (r_tool r)) [] rs [] (NoDup_nil _))
    as [H1 H2].
  split; [exact H1|]. split; [intros u; rewrite H2; simpl; tauto|]. split.
  - intros u t.
    rewrite (group_measure cell (dict cell nat) record cell_eqb cell_eqb_eq
               r_url (fun r => incr cell_eqb (r_tool r)) []
               (count_for cell_eqb t) (fun r => if cell_eqb (r_tool r) t then 1 else 0)
               rs [] u).
    + cbn [get]. rewrite Nat.add_0_r, list_sum_indicator, filter_filter. reflexivity.
    + intros r v. apply count_for_incr_cell.
    + reflexivity.
  - intros u. unfold drill_down_total.
    rewrite (group_measure cell (dict cell nat) record cell_eqb cell_eqb_eq
               r_url (fun r => incr cell_eqb (r_tool r)) []
               sum_values (fun _ => 1) rs [] u).
    + cbn [get]. now rewrite Nat.add_0_r, list_sum_ones.
    + intros r v. apply sum_values_incr.
    + reflexivity.
Qed.

(** X13: the counts per tool and endpoint (lines 120-122) have distinct
    keys and an entry for a URL exactly when a record of the set has that
    URL; under a URL, the count of a tool is the number of records with
    that URL and that tool, and the counts add up to the number of records
    with that URL, which for a URL of the endpoint counts is its endpoint
    count. *)
Theorem X13_tool_endpoint_counts (L : PyLib) (rs : list record) (a : analysis_data) :
  analysis_of rs = Ok a ->
  NoDup (keys (tool_endpoint_counts a)) /\
  (forall u, In (Str u) (keys (tool_endpoint_counts a)) <-> In (Str u) (map r_url rs)) /\
  (forall u t,
     match get cell_eqb (Str u) (tool_endpoint_counts a) with
     | Some inner => count_for cell_eqb (Str t) inner
     | None => 0
     end
     = List.length
         (filter (fun r => cell_eqb (r_url r) (Str u) && cell_eqb (r_tool r) (Str t)) rs)) /\
  (forall u, drill_down_total (Str u) (tool_endpoint_counts a)
             = List.length (filter (fun r => cell_eqb (r_url r) (Str u)) rs)) /\
  (forall u n, In (Str u, n) (endpoint_counts a) ->
               drill_down_total (Str u) (tool_endpoint_counts a) = n).
Proof.
  intros H. apply analysis_of_Ok in H as [targets [_ ->]].
  cbn [tool_endpoint_counts endpoint_counts].
  destruct (tool_endpoint_counts_spec rs) as [H1 [H2 [H3 H4]]].
  split; [exact H1|]. split; [intros u; apply H2|].
  split; [intros u t; apply H3|]. split; [intros u; apply H4|].
  intros u n Hin. apply value_counts_cells in Hin as [-> _].
  now rewrite H4, count_occ_filter_cell.
Qed.

Lemma X13_witness :
  exists a, @analysis_of Ref.lib Examples.rs_sample = Ok a /\
    drill_down_total (Str "http://a/x") (tool_endpoint_counts a) = 2 /\
    drill_down_total (Str "http://a/z") (tool_endpoint_counts a) = 0.
Proof.
  eexists. split; [reflexivity|].
  pose proof (X13_tool_endpoint_counts Ref.lib Examples.rs_sample _ eq_refl)
    as [_ [_ [_ [H _]]]].
  split; [exact (H "http://a/x") | exact (H "http://a/z")].
Defined.

Lemma daily_summary_spec (rs : list record) :
  NoDup (keys (daily_summary_of rs)) /\
  (forall k, In k (keys (daily_summary_of rs))
             <-> In k (map (fun r => strftime_Ymd (date_of (r_time r))) rs)) /\
  (forall k, bucket_total k (daily_summary_of rs)
             = List.length
                 (filter (fun r => String.eqb (strftime_Ymd (date_of (r_time r))) k) rs)) /\
  (forall k t,
     match get String.eqb k (daily_summary_of rs) with
     | Some b => count_for cell_eqb t (tools b)
     | None => 0
     end
     = List.length
         (filter (fun r => String.eqb (strftime_Ymd (date_of (r_time r))) k
                           && cell_eqb (r_tool r) t) rs)).
Proof.
  unfold daily_summary_of.
  pose (key := fun r => strftime_Ymd (date_of (r_time r))).
  pose (upd := fun (r : record) (b : bucket) =>
                 mkBucket (S (total b)) (incr cell_eqb (r_tool r) (tools b))).
  pose proof (group_keys string bucket record String.eqb String.eqb_eq
                key upd (mkBucket 0 []) rs [] (NoDup_nil _)) as [H1 H2].
  pose proof (fun k => group_measure string bucket record String.eqb String.eqb_eq
                key upd (mkBucket 0 []) total (fun _ => 1) rs [] k
                (fun r v => eq_refl) eq_refl) as H3.
  pose proof (fun k t => group_measure string bucket record String.eqb String.eqb_eq
                key upd (mkBucket 0 [])
                (fun b => count_for cell_eqb t (tools b))
                (fun r => if cell_eqb (r_tool r) t then 1 else 0) rs [] k
                (fun r v => count_for_incr_cell t (r_tool r) (tools v)) eq_refl) as H4.
  unfold key, upd in *. cbv beta in *. clear key upd.
  split; [exact H1|]. split; [intros k; rewrite H2; simpl; tauto|]. split.
  - intros k. unfold bucket_total. rewrite H3.
    cbn [get]. now rewrite Nat.add_0_r, list_sum_ones.
  - intros k t. rewrite H4.
    cbn [get]. rewrite Nat.add_0_r, list_sum_indicator, filter_filter. reflexivity.
Qed.

(** X14: the daily summary (lines 125-129) has one bucket for each day on
    which the record set has a record, under the day's [%Y-%m-%d] text; the
    bucket's total is the number of records of that day and its count of a
    tool the number of records of that day with that tool. *)
Theorem X14_daily_buckets_by_day (L : PyLib) (rs : list record) (a : analysis_data) :
  analysis_of rs = Ok a ->
  NoDup (keys (daily_summary a)) /\
  (forall k, In k (keys (daily_summary a))
             <-> In k (map (fun r => strftime_Ymd (date_of (r_time r))) rs)) /\
  (forall k, bucket_total k (daily_summary a)
             = List.length
                 (filter (fun r => String.eqb (strftime_Ymd (date_of (r_time r))) k) rs)) /\
  (forall k t,
     match get String.eqb k (daily_summary a) with
     | Some b => count_for cell_eqb (Str t) (tools b)
     | None => 0
     end
     = List.length
         (filter (fun r => String.eqb (strftime_Ymd (date_of (r_time r))) k
                           && cell_eqb (r_tool r) (Str t)) rs)).
Proof.
  intros H. apply analysis_of_Ok in H as [targets [_ ->]]. cbn [daily_summary].
  destruct (daily_summary_spec rs) as [H1 [H2 [H3 H4]]].
  split; [exact H1|]. split; [exact H2|]. split; [exact H3|].
  intros k t. apply H4.
Qed.

Lemma X14_witness :
  exists a, @analysis_of Ref.lib Examples.rs_sample = Ok a /\
    bucket_total "2024-01-03" (daily_summary a) = 2 /\
    bucket_total "2024-01-05" (daily_summary a) = 0.
Proof.
  eexists. split; [reflexivity|].
  pose proof (X14_daily_buckets_by_day Ref.lib Examples.rs_sample _ eq_refl)
    as [_ [_ [H _]]].
  split; [exact (H "2024-01-03") | exact (H "2024-01-05")].
Defined.

(** ** Sorting for presentation *)

Lemma insert_desc_sorted {K} (x : K * nat) (l : list (K * nat)) :
  Sorted (fun a b => snd b <= snd a) l ->
  Sorted (fun a b => snd b <= snd a) (insert_desc x l).
Proof.
  induction l as [|y l IH]; intros S; cbn [insert_desc].
  - repeat constructor.
  - destruct (snd y <=? snd x) eqn:E.
    + apply Nat.leb_le in E. constructor; [exact S | now constructor].
    + apply Nat.leb_gt in E. inversion S as [|a b Sl Hd]; subst.
      constructor; [now apply IH|].
      destruct l as [|z l]; cbn [insert_desc].
      * constructor. lia.
      * destruct (snd z <=? snd x); constructor; [lia|].
        now inversion Hd.
Qed.

Lemma insert_desc_filter {K} (c : nat) (x : K * nat) (l : list (K * nat)) :
  filter (fun e => snd e =? c) (insert_desc x l)
  = if snd x =? c then x :: filter (fun e => snd e =? c) l
    else filter (fun e => snd e =? c) l.
Proof.
  induction l as [|y l IH]; cbn [insert_desc filter].
  - reflexivity.
  - destruct (snd y <=? snd x) eqn:E; cbn [filter]; [reflexivity|].
    rewrite IH. apply Nat.leb_gt in E.
    destruct (snd x =? c) eqn:Ex; [|reflexivity].
    apply Nat.eqb_eq in Ex.
    destruct (snd y =? c) eqn:Ey; [|reflexivity].
    apply Nat.eqb_eq in Ey. lia.
Qed.

(** X15: the order of lines 160, 168 and 216,
    [sorted(items, key=count, reverse=True)], is a rearrangement of the
    items by non-increasing count that keeps the items of equal count in
    the order they had. *)
Theorem X15_sorted_by_count_descending (K : Type) (l : list (K * nat)) :
  Permutation (sort_desc l) l /\
  Sorted (fun a b => snd b <= snd a) (sort_desc l) /\
  (forall c, filter (fun e => snd e =? c) (sort_desc l)
             = filter (fun e => snd e =? c) l).
Proof.
  split; [apply sort_desc_perm|]. split.
  - induction l as [|x l IH]; cbn [sort_desc fold_right]; [constructor|].
    now apply insert_desc_sorted.
  - intros c. induction l as [|x l IH]; cbn [sort_desc fold_right]; [reflexivity|].
    fold (sort_desc l). rewrite insert_desc_filter, IH. cbn [filter].
    now destruct (snd x =? c).
Qed.

Lemma insert_key_perm {V} (x : string * V) (l : list (string * V)) :
  Permutation (insert_key x l) (x :: l).
Proof.
  induction l as [|y l IH]; cbn [insert_key]; [reflexivity|].
  destruct (String.leb (fst x) (fst y)); [reflexivity|].
  rewrite IH. apply perm_swap.
Qed.

Lemma insert_key_sorted {V} (x : string * V) (l : list (string * V)) :
  Sorted (fun a b => String.leb (fst a) (fst b) = true) l ->
  Sorted (fun a b => String.leb (fst a) (fst b) = true) (insert_key x l).
Proof.
  induction l as [|y l IH]; intros S; cbn [insert_key].
  - repeat constructor.
  - destruct (String.leb (fst x) (fst y)) eqn:E.
    + constructor; [exact S | now constructor].
    + assert (Eyx : String.leb (fst y) (fst x) = true).
      { destruct (String.leb_total (fst x) (fst y)); [congruence | assumption]. }
      inversion S as [|a b Sl Hd]; subst.
      constructor; [now apply IH|].
      destruct l as [|z l]; cbn [insert_key].
      * now constructor.
      * destruct (String.leb (fst x) (fst z)); constructor; [exact Eyx|].
        now inversion Hd.
Qed.

(** X16: the daily buckets are presented (line 164, [sorted(items)]) as a
    rearrangement of the items of the daily summary in non-decreasing
    order of their day text. *)
Theorem X16_daily_items_sorted_by_day (V : Type) (d : dict string V) :
  Permutation (sorted_items d) d /\
  Sorted (fun a b => String.leb (fst a) (fst b) = true) (sorted_items d).
Proof.
  split.
  - induction d as [|x d IH]; cbn [sorted_items fold_right]; [reflexivity|].
    rewrite insert_key_perm. now constructor.
  - induction d as [|x d IH]; cbn [sorted_items fold_right]; [constructor|].
    now apply insert_key_sorted.
Qed.

(** ** From the call to its record set *)

Lemma analyze_Ok (L : PyLib) (df : DataFrame) (exts tools : option (list string))
  (h : string) (a : analysis_data) :
  analyze_burp_log df exts tools = Ok (h, a) ->
  exists rs, resolve_stage df exts tools = Ok rs /\ analysis_of rs = Ok a /\
             html_content (date_range_str rs) a = Ok h.
Proof.
  unfold analyze_burp_log, aggregate.
  destruct (resolve_stage df exts tools) as [rs| |] eqn:E1; cbn [bind]; try discriminate.
  destruct (analysis_of rs) as [a'| |] eqn:E2; cbn [bind]; try discriminate.
  destruct (html_content (date_range_str rs) a') as [h'| |] eqn:E3; cbn [bind];
    try discriminate.
  intros H. injection H as <- <-. eauto.
Qed.

Lemma resolve_stage_Ok (L : PyLib) (df : DataFrame) (exts tools : option (list string))
  (rs : list record) :
  resolve_stage df exts tools = Ok rs ->
  exists time,
    rs = dropna_time
           (mkDF (columns df) (dtypes df)
              (filter (fun r => negb (dropped df exts tools r)) (rows df)))
           time /\
    rs <> [].
Proof.
  unfold resolve_stage. destruct (empty df); [discriminate|].
  rewrite filter_stage_eq.
  destruct (truthy exts && negb (has_column df "Request.URL")); [discriminate|].
  destruct (truthy exts && negb (is_object (dtype_of df "Request.URL"))); [discriminate|].
  destruct (truthy tools && negb (has_column df "Request.Tool")); [discriminate|].
  cbn [bind]. destruct (empty _); [discriminate|].
  destruct (check_required _) as [[]| |]; cbn [bind]; try discriminate.
  destruct (resolve_times _) as [time| |]; cbn [bind]; try discriminate.
  destruct (dropna_time _ time) as [|r rs'] eqn:E; [discriminate|].
  intros H. injection H as <-. exists time. split; [now rewrite E | discriminate].
Qed.

Lemma flat_map_length_le {A B} (f : A -> list B) (l : list A) :
  (forall a, List.length (f a) <= 1) -> List.length (flat_map f l) <= List.length l.
Proof.
  intros H. induction l as [|a l IH]; simpl; [lia|].
  rewrite length_app. specialize (H a). lia.
Qed.

Lemma dropna_time_length (df : DataFrame) (time : list (option naive)) :
  List.length (dropna_time df time) <= List.length (rows df).
Proof.
  unfold dropna_time.
  eapply Nat.le_trans; [apply flat_map_length_le | rewrite length_combine; lia].
  intros [row [t|]]; simpl; lia.
Qed.

Lemma dropna_time_In (df : DataFrame) (time : list (option naive)) (r : record) :
  In r (dropna_time df time) ->
  exists row, In row (rows df) /\
              r_url r = cell_of df "Request.URL" row /\
              r_tool r = cell_of df "Request.Tool" row.
Proof.
  unfold dropna_time. intros H. apply in_flat_map in H as [[row t] [Hin Hr]].
  apply in_combine_l in Hin. cbn [fst snd] in Hr.
  destruct t as [t|]; [|contradiction]. destruct Hr as [<- | []].
  exists row. now repeat split.
Qed.

Lemma filter_length_le {A} (f : A -> bool) (l : list A) :
  List.length (filter f l) <= List.length l.
Proof. induction l as [|a l IH]; simpl; [lia|]. destruct (f a); simpl; lia. Qed.

(** ** Productivity metrics *)

Lemma date_eqb_eq (a b : date) : date_eqb a b = true <-> a = b.
Proof.
  destruct a as [y m d], b as [y' m' d']. unfold date_eqb. cbn [d_year d_month d_day].
  rewrite !andb_true_iff, !Nat.eqb_eq. split; [intros [[-> ->] ->] | intros [= -> -> ->]]; auto.
Qed.

Section TallyFacts.
Variable K : Type.
Variable eqb : K -> K -> bool.
Hypothesis eqb_eq : forall a b, eqb a b = true <-> a = b.

Lemma tally_keys (l : list K) :
  NoDup (keys (tally eqb l)) /\ forall k, In k (keys (tally eqb l)) <-> In k l.
Proof.
  unfold tally, incr.
  pose proof (group_keys K nat K eqb eqb_eq (fun k => k) (fun _ => S) 0 l [] (NoDup_nil _))
    as [H1 H2].
  split; [exact H1|]. intros k. rewrite H2, map_id. simpl. tauto.
Qed.

Lemma tally_count (l : list K) (k : K) :
  count_for eqb k (tally eqb l) = List.length (filter (fun x => eqb x k) l).
Proof.
  unfold tally, incr, count_for.
  pose proof (group_measure K nat K eqb eqb_eq (fun k => k) (fun _ => S) 0
                (fun n => n) (fun _ => 1) l [] k (fun r v => eq_refl) eq_refl) as H.
  cbv beta in H. rewrite H. cbn [get]. now rewrite Nat.add_0_r, list_sum_ones.
Qed.

Lemma tally_length (l : list K) :
  List.length (tally eqb l) <= List.length l /\ (l <> [] -> 1 <= List.length (tally eqb l)).
Proof.
  destruct (tally_keys l) as [ND Hk]. split.
  - replace (List.length (tally eqb l)) with (List.length (keys (tally eqb l)))
      by apply length_map.
    apply NoDup_incl_length; [exact ND|]. intros k Hin. now apply Hk.
  - intros Hl. destruct l as [|x l]; [congruence|].
    assert (Hin : In x (keys (tally eqb (x :: l)))) by (apply Hk; now left).
    destruct (tally eqb (x :: l)); [destruct Hin | simpl; lia].
Qed.

(** The items of [value_counts] on a column without missing values. *)
Lemma tally_items (l : list K) (k : K) (n : nat) :
  In (k, n) (tally eqb l) <->
  n = List.length (filter (fun x => eqb x k) l) /\ 0 < n.
Proof.
  destruct (tally_keys l) as [ND Hk].
  rewrite (In_get_dict K nat eqb eqb_eq k n _ ND).
  pose proof (tally_count l k) as Hc. unfold count_for in Hc. split.
  - intros H. rewrite H in Hc. split; [exact Hc|].
    assert (Hin : In k l) by (apply Hk, (get_keys K nat eqb eqb_eq); eauto).
    rewrite Hc. clear -Hin eqb_eq. induction l as [|x l IH]; [destruct Hin|].
    cbn [filter]. destruct (eqb x k) eqn:E; [simpl; lia|].
    destruct Hin as [-> | Hin]; [|now apply IH].
    assert (eqb k k = true) by now apply eqb_eq. congruence.
  - intros [-> Hpos].
    destruct (get eqb k (tally eqb l)) as [m|] eqn:G; [now rewrite Hc|].
    rewrite <- Hc in Hpos. lia.
Qed.

End TallyFacts.

Lemma sort_desc_sorted {K} (l : list (K * nat)) :
  Sorted (fun a b => snd b <= snd a) (sort_desc l).
Proof.
  induction l as [|x l IH]; cbn [sort_desc fold_right]; [constructor|].
  now apply insert_desc_sorted.
Qed.

(** The first item after sorting has the greatest count. *)
Lemma sort_desc_head_max {K} (l : list (K * nat)) (x : K * nat) (rest : list (K * nat)) :
  sort_desc l = x :: rest -> forall y, In y l -> snd y <= snd x.
Proof.
  intros E y Hy.
  pose proof (sort_desc_sorted l) as S. rewrite E in S.
  apply Sorted_StronglySorted in S; [|intros a b c Hab Hbc; lia].
  apply (Permutation_in _ (Permutation_sym (sort_desc_perm l))) in Hy. rewrite E in Hy.
  destruct Hy as [<- | Hy]; [lia|].
  inversion S as [|a b Sl Hall]; subst. rewrite Forall_forall in Hall. now apply Hall.
Qed.

Section ProductivityFacts.
Context {L : PyLib}.

Lemma day_counts_items (rs : list record) (d : date) (n : nat) :
  In (d, n) (value_counts date_eqb (fun _ => false) (map (fun r => date_of (r_time r)) rs))
  <-> n = records_on d rs /\ 0 < n.
Proof.
  unfold value_counts. cbn [negb].
  rewrite (filter_all (fun _ => true)) by reflexivity.
  split.
  - intros H. apply (Permutation_in _ (sort_desc_perm _)) in H.
    apply (tally_items date date_eqb date_eqb_eq) in H.
    unfold records_on. now rewrite filter_map_comm, length_map in H.
  - intros H. apply (Permutation_in _ (Permutation_sym (sort_desc_perm _))).
    apply (tally_items date date_eqb date_eqb_eq).
    unfold records_on in H. now rewrite filter_map_comm, length_map.
Qed.

Lemma productivity_spec (rs : list record) :
  rs <> [] ->
  total_requests (productivity_of rs) = List.length rs /\
  1 <= active_days (productivity_of rs) <= List.length rs /\
  avg_per_day (productivity_of rs)
  = format_2f (List.length rs) (active_days (productivity_of rs)) /\
  (forall r, In r rs ->
     records_on (date_of (r_time r)) rs <= peak_day_count (productivity_of rs)) /\
  exists r, In r rs /\
    peak_day (productivity_of rs) = strftime_dmY (date_of (r_time r)) /\
    peak_day_count (productivity_of rs) = records_on (date_of (r_time r)) rs /\
    1 <= peak_day_count (productivity_of rs) <= List.length rs.
Proof.
  intros Hne. unfold productivity_of.
  set (dates := map (fun r => date_of (r_time r)) rs).
  set (dc := value_counts date_eqb (fun _ => false) dates).
  cbn [total_requests active_days avg_per_day peak_day peak_day_count].
  assert (Hlen : 1 <= List.length dc <= List.length rs).
  { unfold dc, value_counts. cbn [negb].
    rewrite (filter_all (fun _ => true)) by reflexivity.
    rewrite (Permutation_length (sort_desc_perm _)).
    destruct (tally_length date date_eqb date_eqb_eq dates) as [H1 H2].
    unfold dates in *. rewrite length_map in H1. split; [|exact H1].
    apply H2. destruct rs; [congruence | discriminate]. }
  split; [reflexivity|]. split; [exact Hlen|]. split.
  - destruct (0 <? List.length dc) eqn:E; [reflexivity|].
    apply Nat.ltb_ge in E. lia.
  - destruct dc as [|[d c] rest] eqn:Edc; [simpl in Hlen; lia|].
    assert (Hd : In (d, c) dc) by (rewrite Edc; now left).
    apply day_counts_items in Hd as [Hc Hpos].
    split.
    + intros r Hr.
      assert (Hin : In (date_of (r_time r), records_on (date_of (r_time r)) rs) dc).
      { apply day_counts_items. split; [reflexivity|].
        unfold records_on. clear -Hr. induction rs as [|x rs IH]; [destruct Hr|].
        cbn [filter].
        destruct (date_eqb (date_of (r_time x)) (date_of (r_time r))) eqn:E; [simpl; lia|].
        destruct Hr as [-> | Hr]; [|now apply IH].
        assert (date_eqb (date_of (r_time r)) (date_of (r_time r)) = true)
          by now apply date_eqb_eq.
        congruence. }
      unfold dc, value_counts in Edc.
      apply (sort_desc_head_max _ _ _ Edc
               (date_of (r_time r), records_on (date_of (r_time r)) rs)).
      apply (Permutation_in _ (sort_desc_perm _)). fold (value_counts date_eqb (fun _ => false) dates).
      fold dc in Hin |- *. unfold dc in Hin. exact Hin.
    + assert (Hex : exists r, In r rs /\ date_of (r_time r) = d).
      { unfold records_on in Hc. rewrite Hc in Hpos.
        destruct (filter (fun r => date_eqb (date_of (r_time r)) d) rs) as [|r fl] eqn:F;
          [simpl in Hpos; lia|].
        assert (Hr : In r (filter (fun r => date_eqb (date_of (r_time r)) d) rs))
          by (rewrite F; now left).
        apply filter_In in Hr as [Hr Hd]. apply date_eqb_eq in Hd. eauto. }
      destruct Hex as [r [Hr <-]]. exists r.
      split; [exact Hr|]. split; [reflexivity|]. split; [exact Hc|].
      split; [lia|]. rewrite Hc. apply filter_length_le.
Qed.

End ProductivityFacts.

(** X17: whenever a report is produced, its productivity metrics are those
    of a non-empty record set: the total is at least 1 and at most the
    number of input rows, the number of active days and the peak-day count
    lie between 1 and the total, and the average is the formatted quotient
    of total and active days: the fallback values of lines 136-138 (0 and
    N/A) do not occur in a report. *)
Theorem X17_productivity_of_a_report (L : PyLib) (df : DataFrame)
  (exts tools : option (list string)) (h : string) (a : analysis_data) :
  analyze_burp_log df exts tools = Ok (h, a) ->
  1 <= total_requests (productivity_metrics a) <= List.length (rows df) /\
  1 <= active_days (productivity_metrics a) <= total_requests (productivity_metrics a) /\
  1 <= peak_day_count (productivity_metrics a) <= total_requests (productivity_metrics a) /\
  avg_per_day (productivity_metrics a)
  = format_2f (total_requests (productivity_metrics a)) (active_days (productivity_metrics a)) /\
  exists t, peak_day (productivity_metrics a) = strftime_dmY (date_of t).
Proof.
  intros H. apply analyze_Ok in H as [rs [Hr [Ha _]]].
  apply resolve_stage_Ok in Hr as [time [Hrs Hne]].
  apply analysis_of_Ok in Ha as [targets [_ ->]]. cbn [productivity_metrics].
  destruct (productivity_spec rs Hne) as [H1 [H2 [H3 [_ [r [_ [H5 [_ H7]]]]]]]].
  rewrite H1.
  assert (Hlen : List.length rs <= List.length (rows df)).
  { rewrite Hrs. eapply Nat.le_trans; [apply dropna_time_length|].
    cbn [rows]. apply filter_length_le. }
  assert (1 <= List.length rs) by (destruct rs; [congruence | simpl; lia]).
  repeat split; try lia; try assumption. eauto.
Qed.

Lemma X17_witness :
  exists h a,
    @analyze_burp_log Ref.lib Examples.df_mixed (Some ["js"]) (Some ["Scanner"]) = Ok (h, a) /\
    1 <= total_requests (productivity_metrics a) <= 5 /\
    1 <= active_days (productivity_metrics a) <= total_requests (productivity_metrics a).
Proof.
  destruct (@analyze_burp_log Ref.lib Examples.df_mixed (Some ["js"]) (Some ["Scanner"]))
    as [[h a]| |] eqn:E; [|vm_compute in E; discriminate E ..].
  exists h, a. split; [reflexivity|].
  pose proof (X17_productivity_of_a_report Ref.lib Examples.df_mixed
                (Some ["js"]) (Some ["Scanner"]) h a E) as [H1 [H2 _]].
  split; [exact H1 | exact H2].
Defined.

(** X18: the peak activity day (lines 137-138) is a day of the record set
    with the greatest number of records, and the peak-day count is that
    number: no day of the set has more records. *)
Theorem X18_peak_day_is_a_maximum (L : PyLib) (rs : list record) (a : analysis_data) :
  analysis_of rs = Ok a ->
  rs <> [] ->
  (forall r, In r rs ->
     records_on (date_of (r_time r)) rs <= peak_day_count (productivity_metrics a)) /\
  exists r, In r rs /\
    peak_day (productivity_metrics a) = strftime_dmY (date_of (r_time r)) /\
    peak_day_count (productivity_metrics a) = records_on (date_of (r_time r)) rs.
Proof.
  intros Ha Hne. apply analysis_of_Ok in Ha as [targets [_ ->]]. cbn [productivity_metrics].
  destruct (productivity_spec rs Hne) as [_ [_ [_ [H4 [r [H5 [H6 [H7 _]]]]]]]].
  split; [exact H4|]. eauto.
Qed.

Lemma X18_witness :
  exists a, @analysis_of Ref.lib Examples.rs_sample = Ok a /\
    peak_day (productivity_metrics a) = "02/01/2024" /\
    peak_day_count (productivity_metrics a) = 2 /\
    forall r, In r Examples.rs_sample ->
      records_on (date_of (r_time r)) Examples.rs_sample
      <= peak_day_count (productivity_metrics a).
Proof.
  eexists. split; [reflexivity|]. split; [reflexivity|]. split; [reflexivity|].
  apply (X18_peak_day_is_a_maximum Ref.lib Examples.rs_sample _ eq_refl). discriminate.
Defined.

(** ** More on the filter stage *)

(** X19: the two filters do not depend on each other: whenever the filter
    stage returns, filtering by tool first and by extension afterwards
    returns the same frame. *)
Theorem X19_filters_commute (df : DataFrame) (exts tools : option (list string))
  (df' : DataFrame) :
  filter_stage df exts tools = Ok df' ->
  exists d1, filter_stage df None tools = Ok d1 /\ filter_stage d1 exts None = Ok df'.
Proof.
  rewrite !filter_stage_eq.
  destruct (truthy exts && negb (has_column df "Request.URL")) eqn:E1; [discriminate|].
  destruct (truthy exts && negb (is_object (dtype_of df "Request.URL"))) eqn:E3;
    [discriminate|].
  destruct (truthy tools && negb (has_column df "Request.Tool")) eqn:E2; [discriminate|].
  intros H. injection H as <-. cbn [truthy andb]. eexists. split; [reflexivity|].
  rewrite filter_stage_eq. rewrite has_column_filtered, E1.
  replace (dtype_of (mkDF (columns df) (dtypes df) _) "Request.URL")
    with (dtype_of df "Request.URL") by reflexivity.
  rewrite E3. cbn [truthy andb columns dtypes rows].
  f_equal. f_equal. rewrite filter_filter. apply filter_ext. intros r.
  unfold dropped, cell_of. cbn [columns as_list].
  rewrite ext_excluded_nil, tool_excluded_nil, orb_false_r. cbn [orb].
  now destruct (ext_excluded _ _), (tool_excluded _ _).
Qed.

Lemma X19_witness :
  exists d1,
    filter_stage Examples.df_mixed None (Some ["Scanner"]) = Ok d1 /\
    filter_stage d1 (Some ["js"]) None = Ok Examples.df_mixed_kept.
Proof.
  apply (X19_filters_commute Examples.df_mixed (Some ["js"]) (Some ["Scanner"])
           Examples.df_mixed_kept).
  reflexivity.
Defined.

(** X20: what the filters exclude does not reach the report: no key of the
    tool counts is an excluded tool, and no key of the endpoint counts is a
    URL that an excluded extension matches. *)
Theorem X20_excluded_values_absent (L : PyLib) (df : DataFrame)
  (exts tools : option (list string)) (h : string) (a : analysis_data) :
  analyze_burp_log df exts tools = Ok (h, a) ->
  (forall t n, In (Str t, n) (tool_summary a) -> ~ In t (as_list tools)) /\
  (forall u n, In (Str u, n) (endpoint_counts a) ->
               ext_excluded (as_list exts) (Str u) = false).
Proof.
  intros H. apply analyze_Ok in H as [rs [Hr [Ha _]]].
  apply resolve_stage_Ok in Hr as [time [Hrs _]].
  apply analysis_of_Ok in Ha as [targets [_ ->]]. cbn [tool_summary endpoint_counts].
  assert (Hkeep : forall r, In r rs ->
            ext_excluded (as_list exts) (r_url r) = false /\
            tool_excluded (as_list tools) (r_tool r) = false).
  { intros r Hin. rewrite Hrs in Hin. apply dropna_time_In in Hin as [row [Hrow [-> ->]]].
    cbn [rows] in Hrow. apply filter_In in Hrow as [_ Hd].
    apply negb_true_iff in Hd. unfold dropped in Hd. apply orb_false_iff in Hd.
    exact Hd. }
  split.
  - intros t n Hin. apply value_counts_cells in Hin as [-> Hpos].
    apply (count_occ_In cell_eq_dec) in Hpos. apply in_map_iff in Hpos as [r [Et Hr]].
    destruct (Hkeep r Hr) as [_ Hk]. rewrite Et in Hk.
    intros Hex. apply tool_excluded_spec in Hex. congruence.
  - intros u n Hin. apply value_counts_cells in Hin as [-> Hpos].
    apply (count_occ_In cell_eq_dec) in Hpos. apply in_map_iff in Hpos as [r [Eu Hr]].
    destruct (Hkeep r Hr) as [Hk _]. now rewrite Eu in Hk.
Qed.

Lemma X20_witness :
  exists h a,
    @analyze_burp_log Ref.lib Examples.df_mixed (Some ["js"]) (Some ["Scanner"]) = Ok (h, a) /\
    forall t n, In (Str t, n) (tool_summary a) -> ~ In t ["Scanner"].
Proof.
  destruct (@analyze_burp_log Ref.lib Examples.df_mixed (Some ["js"]) (Some ["Scanner"]))
    as [[h a]| |] eqn:E; [|vm_compute in E; discriminate E ..].
  exists h, a. split; [reflexivity|].
  exact (proj1 (X20_excluded_values_absent Ref.lib Examples.df_mixed
                  (Some ["js"]) (Some ["Scanner"]) h a E)).
Defined.

(** ** The inserted text *)

Lemma all_chars_app (p : ascii -> bool) (a b : string) :
  all_chars p (a ++ b) = all_chars p a && all_chars p b.
Proof.
  unfold all_chars. induction a as [|c a IH]; simpl; [reflexivity|].
  now rewrite IH, andb_assoc.
Qed.

Lemma count_char_app (c : ascii) (a b : string) :
  count_char c (a ++ b) = count_char c a + count_char c b.
Proof. induction a as [|x a IH]; simpl; [reflexivity|]. rewrite IH. lia. Qed.

Lemma count_char_free (c : ascii) (s : string) :
  free_of c s = true -> count_char c s = 0.
Proof.
  induction s as [|x s IH]; simpl; [reflexivity|].
  intros H. apply andb_true_iff in H as [Hx Hs]. apply negb_true_iff in Hx.
  now rewrite Hx, IH.
Qed.

Lemma free_of_not_In (c : ascii) (s : string) :
  ~ In c (list_ascii_of_string s) -> free_of c s = true.
Proof.
  induction s as [|x s IH]; simpl; [reflexivity|].
  intros H. apply andb_true_iff. split.
  - apply negb_true_iff. destruct (Ascii.eqb x c) eqn:E; [|reflexivity].
    apply Ascii.eqb_eq in E. tauto.
  - apply IH. tauto.
Qed.

Lemma html_escape_free (c : ascii) (s : string) :
  markup_char c = true -> free_of c (html_escape s) = true.
Proof.
  intros H. apply free_of_not_In. intros Hin.
  apply html_escape_no_markup in Hin. congruence.
Qed.

Lemma uint_text_spec (p : ascii -> bool) (d : Decimal.uint) :
  forallb p (list_ascii_of_string "0123456789") = true ->
  all_chars p (NilEmpty.string_of_uint d) = true.
Proof.
  unfold all_chars. cbn [list_ascii_of_string forallb]. intros H.
  repeat (apply andb_true_iff in H; destruct H as [? H]).
  induction d; cbn [NilEmpty.string_of_uint list_ascii_of_string forallb];
    rewrite ?IHd; auto; now rewrite ?andb_true_r.
Qed.

(** The decimal text of a number consists of digits. *)
Lemma str_of_nat_spec (p : ascii -> bool) (n : nat) :
  forallb p (list_ascii_of_string "0123456789") = true ->
  all_chars p (Py.str_of_nat n) = true.
Proof.
  intros H. unfold Py.str_of_nat, NilZero.string_of_uint.
  destruct (Nat.to_uint n) eqn:E; try (rewrite <- E; now apply uint_text_spec).
  unfold all_chars. cbn [list_ascii_of_string forallb] in *.
  apply andb_true_iff in H as [H _]. now rewrite H.
Qed.

Lemma all_chars_free (c : ascii) (s : string) :
  all_chars (fun x => negb (Ascii.eqb x c)) s = free_of c s.
Proof.
  unfold all_chars. induction s as [|x s IH]; simpl; [reflexivity|]. now rewrite IH.
Qed.

Lemma str_of_nat_free (c : ascii) (n : nat) :
  markup_char c = true -> free_of c (Py.str_of_nat n) = true.
Proof.
  intros H. rewrite <- all_chars_free. apply str_of_nat_spec.
  unfold markup_char in H.
  repeat (apply orb_true_iff in H; destruct H as [H | H]);
    apply Nat.eqb_eq in H;
    rewrite <- (ascii_nat_embedding c), H; reflexivity.
Qed.

Lemma count_char_concat_rows {A} (c : ascii) (k : nat) (row : A -> string) (l : list A) :
  (forall a, count_char c (row a) = k) ->
  count_char c (Py.concat_all (map row l)) = k * List.length l.
Proof.
  intros H. unfold Py.concat_all.
  induction l as [|a l IH]; cbn [map fold_right List.length count_char];
    [now rewrite Nat.mul_0_r|].
  rewrite count_char_app, H, IH, Nat.mul_succ_r. lia.
Qed.

(** X21: in the endpoint rows of the report (line 170) the characters that
    open or close markup come from the fixed tags only: each row has six
    opening and six closing angle brackets and no quote, whatever the URL
    text is. *)
Theorem X21_endpoint_rows_markup (endpoint_counts : dict cell nat) :
  count_char "<" (escaped_endpoints_html endpoint_counts) = 6 * List.length endpoint_counts /\
  count_char ">" (escaped_endpoints_html endpoint_counts) = 6 * List.length endpoint_counts /\
  count_char (ascii_of_nat 34) (escaped_endpoints_html endpoint_counts) = 0 /\
  count_char "'" (escaped_endpoints_html endpoint_counts) = 0.
Proof.
  unfold escaped_endpoints_html.
  assert (G : forall c k,
    markup_char c = true ->
    count_char c "<tr><td>" + (count_char c "</td><td>" + count_char c "</td></tr>") = k ->
    count_char c
      (Py.concat_all
         (map (fun ec : cell * nat =>
                 ("<tr><td>" ++ html_escape (str_of_cell (fst ec)) ++ "</td><td>"
                  ++ Py.str_of_nat (snd ec) ++ "</td></tr>")%string)
            (sort_desc endpoint_counts)))
    = k * List.length endpoint_counts).
  { intros c k Hc Hk.
    rewrite <- (Permutation_length (sort_desc_perm endpoint_counts)).
    apply count_char_concat_rows. intros ec.
    rewrite !count_char_app,
      (count_char_free c _ (html_escape_free c _ Hc)),
      (count_char_free c _ (str_of_nat_free c _ Hc)).
    lia. }
  repeat split.
  - apply (G "<"%char 6); reflexivity.
  - apply (G ">"%char 6); reflexivity.
  - apply (G (ascii_of_nat 34) 0); reflexivity.
  - apply (G "'"%char 0); reflexivity.
Qed.

Lemma json_escape_char_printable (c : ascii) :
  all_chars printable (json_escape_char c) = true.
Proof. destruct c as [[] [] [] [] [] [] [] []]; vm_compute; reflexivity. Qed.

Lemma json_escape_printable (s : string) : all_chars printable (json_escape s) = true.
Proof.
  induction s as [|c s IH]; cbn [json_escape]; [reflexivity|].
  now rewrite all_chars_app, json_escape_char_printable, IH.
Qed.

Lemma json_string_printable (s : string) : all_chars printable (json_string s) = true.
Proof.
  unfold json_string. now rewrite !all_chars_app, json_escape_printable.
Qed.

Lemma join_all_chars (p : ascii -> bool) (sep : string) (parts : list string) :
  all_chars p sep = true ->
  Forall (fun x => all_chars p x = true) parts ->
  all_chars p (Py.join sep parts) = true.
Proof.
  intros Hs F. induction parts as [|x parts IH]; [reflexivity|].
  inversion F as [|y l Hx Hl]; subst.
  destruct parts as [|x' parts]; [exact Hx|].
  change (Py.join sep (x :: x' :: parts))
    with (x ++ sep ++ Py.join sep (x' :: parts))%string.
  now rewrite !all_chars_app, Hx, Hs, (IH Hl).
Qed.

Lemma json_array_printable (items : list string) :
  Forall (fun x => all_chars printable x = true) items ->
  all_chars printable (json_array items) = true.
Proof.
  intros F. unfold json_array.
  now rewrite !all_chars_app, (join_all_chars printable ", " items eq_refl F).
Qed.

Lemma str_of_nat_printable (n : nat) : all_chars printable (Py.str_of_nat n) = true.
Proof. now apply str_of_nat_spec. Qed.

(** X22: what lines 246, 253 and 254 write into the script block through
    [json.dumps] consists of printable ASCII characters only, whatever the
    tool names are: no line end and no control character reaches the
    script. *)
Theorem X22_script_data_printable (tool_summary : dict cell nat)
  (daily_summary : dict string bucket) :
  all_chars printable (tool_data_json tool_summary) = true /\
  all_chars printable (daily_chart_labels daily_summary) = true /\
  all_chars printable (daily_chart_data daily_summary) = true.
Proof.
  split; [|split].
  - unfold tool_data_json. apply json_array_printable, Forall_forall.
    intros x Hx. apply in_map_iff in Hx as [[t n] [<- _]].
    apply json_array_printable. repeat constructor.
    + destruct t; [apply json_string_printable | reflexivity].
    + apply str_of_nat_printable.
  - unfold daily_chart_labels. apply json_array_printable, Forall_forall.
    intros x Hx. apply in_map_iff in Hx as [dv [<- _]]. apply json_string_printable.
  - unfold daily_chart_data. apply json_array_printable, Forall_forall.
    intros x Hx. apply in_map_iff in Hx as [dv [<- _]]. apply str_of_nat_printable.
Qed.

(** ** When the report is produced *)

Lemma mapM_Ok_all {A B} (f : A -> outcome B) (l : list A) :
  (forall a, In a l -> exists b, f a = Ok b) -> exists bs, mapM f l = Ok bs.
Proof.
  induction l as [|a l IH]; intros H; cbn [mapM]; [eauto|].
  destruct (H a (or_introl eq_refl)) as [b ->].
  destruct IH as [bs ->]; [intros x Hx; apply H; now right|].
  cbn [bind]. eauto.
Qed.

Lemma mapM_Ok_each {A B} (f : A -> outcome B) (l : list A) (bs : list B) :
  mapM f l = Ok bs -> forall a, In a l -> exists b, f a = Ok b.
Proof.
  intros H a Ha. apply mapM_Forall2 in H.
  induction H as [|x b l' bs' Hx Hl IH]; [destruct Ha|].
  destruct Ha as [<- | Ha]; eauto.
Qed.

Lemma sorted_items_perm {V} (d : dict string V) : Permutation (sorted_items d) d.
Proof.
  induction d as [|x d IH]; cbn [sorted_items fold_right]; [reflexivity|].
  rewrite insert_key_perm. now constructor.
Qed.

Lemma keys_incr_cell (t t' : cell) (d : dict cell nat) :
  In t' (keys (incr cell_eqb t d)) <-> t' = t \/ In t' (keys d).
Proof. unfold incr. apply (keys_dict_update cell nat cell_eqb cell_eqb_eq). Qed.

(** The tool keys of the daily buckets are tool values of the records. *)
Lemma daily_tools_from_records (rs : list record) :
  Forall (fun kv => forall t, In t (keys (tools (snd kv))) -> In t (map r_tool rs))
    (daily_summary_of rs).
Proof.
  unfold daily_summary_of.
  assert (G : forall (done : list cell) d,
    Forall (fun kv : string * bucket =>
              forall t, In t (keys (tools (snd kv))) -> In t done) d ->
    Forall (fun kv : string * bucket =>
              forall t, In t (keys (tools (snd kv))) -> In t (done ++ map r_tool rs))
      (fold_left
         (fun d r =>
            dict_update String.eqb (strftime_Ymd (date_of (r_time r)))
              (fun b => mkBucket (S (total b)) (incr cell_eqb (r_tool r) (tools b)))
              (mkBucket 0 []) d) rs d)).
  { induction rs as [|r rs IH]; intros done d Hd; cbn [fold_left map].
    - rewrite app_nil_r. exact Hd.
    - replace (done ++ r_tool r :: map r_tool rs)
        with ((done ++ [r_tool r]) ++ map r_tool rs) by now rewrite <- app_assoc.
      apply IH.
      apply (Forall_dict_update string bucket String.eqb
               (fun b => forall t, In t (keys (tools b)) -> In t (done ++ [r_tool r]))).
      + intros b Hb t Ht. cbn [tools] in Ht. apply keys_incr_cell in Ht as [-> | Ht].
        * apply in_or_app. right. now left.
        * now apply Hb.
      + intros t Ht. cbn [tools] in Ht. apply keys_incr_cell in Ht as [-> | []].
        apply in_or_app. right. now left.
      + eapply Forall_impl; [|exact Hd]. intros kv H t Ht.
        apply in_or_app. left. now apply H. }
  apply (G [] []). constructor.
Qed.

Lemma html_content_Ok (dr : string) (a : analysis_data) :
  (exists h, html_content dr a = Ok h) <->
  (exists daily, escaped_daily_summary_html (daily_summary a) = Ok daily) /\
  (exists tool_rows, tool_rows_html (tool_summary a) = Ok tool_rows).
Proof.
  unfold html_content. cbn [bind].
  destruct (escaped_daily_summary_html (daily_summary a)) as [daily| |]; cbn [bind].
  - destruct (tool_rows_html (tool_summary a)) as [tr| |]; cbn [bind].
    + split; eauto.
    + split; [intros [h H]; discriminate | intros [_ [x H]]; discriminate].
    + split; [intros [h H]; discriminate | intros [_ [x H]]; discriminate].
  - split; [intros [h H]; discriminate | intros [[x H] _]; discriminate].
  - split; [intros [h H]; discriminate | intros [[x H] _]; discriminate].
Qed.

Lemma daily_html_Ok (ds : dict string bucket) :
  (exists daily, escaped_daily_summary_html ds = Ok daily) <->
  (forall k b t, In (k, b) ds -> In t (keys (tools b)) -> t <> Null).
Proof.
  unfold escaped_daily_summary_html. split.
  - intros [daily H] k b t Hkb Ht.
    destruct (mapM _ (sorted_items ds)) as [rws| |] eqn:E; cbn [bind] in H;
      try discriminate.
    apply (Permutation_in _ (Permutation_sym (sorted_items_perm ds))) in Hkb.
    destruct (mapM_Ok_each _ _ _ E (k, b) Hkb) as [row Hrow]. cbn [fst snd] in Hrow.
    destruct (mapM _ (tools b)) as [ts| |] eqn:Et; cbn [bind] in Hrow; try discriminate.
    unfold keys in Ht. apply in_map_iff in Ht as [[t' c] [<- Htc]].
    destruct (mapM_Ok_each _ _ _ Et (t', c) Htc) as [x Hx]. cbn [fst snd] in Hx.
    destruct t'; [discriminate | discriminate Hx].
  - intros H.
    destruct (mapM_Ok_all
                (fun dv : string * bucket =>
                   ts <- mapM (fun tc : cell * nat =>
                                 t <- html_escape_cell (fst tc) ;;
                                 Ok (t ++ ": " ++ Py.str_of_nat (snd tc))%string)
                              (tools (snd dv)) ;;
                   Ok ("<tr><td>" ++ dmY_of_Ymd (fst dv) ++ "</td><td>"
                       ++ Py.str_of_nat (total (snd dv)) ++ "</td><td>"
                       ++ Py.join "<br>" ts ++ "</td></tr>")%string)
                (sorted_items ds)) as [rws ->].
    + intros [k b] Hkb. apply (Permutation_in _ (sorted_items_perm ds)) in Hkb.
      cbn [fst snd].
      destruct (mapM_Ok_all
                  (fun tc : cell * nat =>
                     t <- html_escape_cell (fst tc) ;;
                     Ok (t ++ ": " ++ Py.str_of_nat (snd tc))%string)
                  (tools b)) as [ts ->]; [|cbn [bind]; eauto].
      intros [t c] Htc. cbn [fst snd].
      assert (Hn : t <> Null).
      { apply (H k b t Hkb). unfold keys. change t with (fst (t, c)). now apply in_map. }
      destruct t; [cbn [html_escape_cell bind]; eauto | congruence].
    + cbn [bind]. eauto.
Qed.

Lemma tool_rows_Ok (ts : dict cell nat) :
  ~ In Null (keys ts) -> exists tool_rows, tool_rows_html ts = Ok tool_rows.
Proof.
  intros H. unfold tool_rows_html.
  destruct (mapM_Ok_all
              (fun tc : cell * nat =>
                 t <- html_escape_cell (fst tc) ;;
                 Ok ("<tr><td>" ++ t ++ "</td><td>" ++ Py.str_of_nat (snd tc)
                     ++ "</td></tr>")%string)
              (sort_desc ts)) as [rws ->]; [|cbn [bind]; eauto].
  intros [t c] Htc. apply (Permutation_in _ (sort_desc_perm ts)) in Htc. cbn [fst snd].
  destruct t; [cbn [html_escape_cell bind]; eauto|].
  exfalso. apply H. unfold keys. change Null with (fst (Null, c)). now apply in_map.
Qed.

(** X23: on a filtered, time-resolved record set in which every record has
    a tool and every URL text is one that [urlparse] accepts, lines 111-291
    raise nothing: the analysis data and the report document are
    produced. *)
Theorem X23_report_is_produced (L : PyLib) (rs : list record) :
  (forall r, In r rs -> r_tool r <> Null) ->
  (forall r u, In r rs -> r_url r = Str u -> exists host, urlparse_hostname u = Ok host) ->
  exists html a, aggregate rs = Ok (html, a).
Proof.
  intros Htool Hurl. unfold aggregate.
  destruct (mapM_Ok_all (fun r => target_of (r_url r)) rs) as [targets Ht].
  { intros r Hr. unfold target_of. destruct (r_url r) as [u|] eqn:E; [|eauto].
    destruct (Hurl r u Hr E) as [host ->]. cbn [bind]. eauto. }
  unfold analysis_of. rewrite Ht. cbn [bind].
  match goal with |- context [html_content ?dr ?a] =>
    destruct (proj2 (html_content_Ok dr a)) as [h ->]; [|cbn [bind]; eauto]
  end.
  cbn [daily_summary tool_summary]. split.
  - apply daily_html_Ok. intros k b t Hkb Ht'.
    pose proof (daily_tools_from_records rs) as F. rewrite Forall_forall in F.
    specialize (F (k, b) Hkb t Ht'). apply in_map_iff in F as [r [<- Hr]].
    now apply Htool.
  - apply tool_rows_Ok. apply value_counts_cells.
Qed.

Lemma X23_witness :
  exists html a, @aggregate Ref.lib (firstn 3 Examples.rs_sample) = Ok (html, a).
Proof.
  apply (X23_report_is_produced Ref.lib (firstn 3 Examples.rs_sample)).
  - intros r [<- | [<- | [<- | []]]]; discriminate.
  - intros r u [<- | [<- | [<- | []]]] E; injection E as <-; eexists; reflexivity.
Defined.

Lemma filter_length_pos {A} (p : A -> bool) (l : list A) (a : A) :
  In a l -> p a = true -> 1 <= List.length (filter p l).
Proof.
  intros Hin Hp. assert (H : In a (filter p l)) by (apply filter_In; auto).
  destruct (filter p l); [destruct H | simpl; lia].
Qed.

(** X24: no report is produced for a filtered, time-resolved record set
    that holds a record whose tool field is missing: line 171 gives the
    missing value to [html.escape]. *)
Theorem X24_missing_tool_prevents_report (L : PyLib) (rs : list record) (r : record) :
  In r rs -> r_tool r = Null ->
  forall html a, aggregate rs <> Ok (html, a).
Proof.
  intros Hr Hnull html a H. unfold aggregate in H.
  destruct (analysis_of rs) as [a'| |] eqn:Ea; cbn [bind] in H; try discriminate.
  destruct (html_content (date_range_str rs) a') as [h| |] eqn:Eh; cbn [bind] in H;
    try discriminate.
  assert (Hh : exists h, html_content (date_range_str rs) a' = Ok h) by eauto.
  apply html_content_Ok in Hh as [Hd _].
  apply analysis_of_Ok in Ea as [targets [_ ->]]. cbn [daily_summary] in Hd.
  pose proof (proj1 (daily_html_Ok (daily_summary_of rs)) Hd) as Hkeys.
  destruct (daily_summary_spec rs) as [ND [_ [_ H4]]].
  specialize (H4 (strftime_Ymd (date_of (r_time r))) Null).
  assert (Hpos : 1 <= List.length
            (filter (fun r0 => String.eqb (strftime_Ymd (date_of (r_time r0)))
                                 (strftime_Ymd (date_of (r_time r)))
                               && cell_eqb (r_tool r0) Null) rs)).
  { apply (filter_length_pos _ rs r Hr).
    rewrite String.eqb_refl, Hnull. reflexivity. }
  rewrite <- H4 in Hpos.
  destruct (get String.eqb (strftime_Ymd (date_of (r_time r))) (daily_summary_of rs))
    as [b|] eqn:G; [|lia].
  apply (In_get_dict string bucket String.eqb String.eqb_eq _ _ _ ND) in G.
  apply (Hkeys _ b Null G); [|reflexivity].
  apply (get_keys cell nat cell_eqb cell_eqb_eq).
  unfold count_for in Hpos. destruct (get cell_eqb Null (tools b)); [eauto | lia].
Qed.

Lemma X24_witness :
  @aggregate Ref.lib Examples.rs_sample = Raise AttributeError.
Proof.
  destruct (@aggregate Ref.lib Examples.rs_sample) as [[html a]| |] eqn:E.
  - exfalso.
    apply (X24_missing_tool_prevents_report Ref.lib Examples.rs_sample
             (mkRecord Null Null (Examples.t 3 9))
             (or_intror (or_intror (or_intror (or_introl eq_refl)))) eq_refl html a).
    exact E.
  - vm_compute in E. discriminate E.
  - vm_compute in E. injection E as <-. reflexivity.
Defined.

(** X25: what a non-empty frame without a required column gives, in every
    case: the [KeyError] of the extension filter on an absent URL column,
    else the [AttributeError] of [.str] when the extension filter meets a
    URL column that is not of dtype object, else the [KeyError] of the tool
    filter on an absent tool column, else the all-filtered diagnostic when
    nothing passes the filters, else the missing-column diagnostic of lines
    83-87, the request URL being checked first.  It never gives a report. *)
Theorem X25_missing_required_column (L : PyLib) (df : DataFrame)
  (exts tools : option (list string)) :
  empty df = false ->
  has_column df "Request.URL" && has_column df "Request.Tool" = false ->
  analyze_burp_log df exts tools =
  if truthy exts && negb (has_column df "Request.URL")
  then Raise (KeyError "Request.URL")
  else if truthy exts && negb (is_object (dtype_of df "Request.URL"))
  then Raise AttributeError
  else if truthy tools && negb (has_column df "Request.Tool")
  then Raise (KeyError "Request.Tool")
  else if empty (mkDF (columns df) (dtypes df)
                   (filter (fun r => negb (dropped df exts tools r)) (rows df)))
  then Stop AllFiltered
  else if has_column df "Request.URL" then Stop (MissingColumn "Request.Tool")
  else Stop (MissingColumn "Request.URL").
Proof.
  intros E H. unfold analyze_burp_log, resolve_stage. rewrite E, filter_stage_eq.
  clear E.
  destruct (truthy exts && negb (has_column df "Request.URL")); [reflexivity|].
  destruct (truthy exts && negb (is_object (dtype_of df "Request.URL"))); [reflexivity|].
  destruct (truthy tools && negb (has_column df "Request.Tool")); [reflexivity|].
  cbn [bind].
  destruct (empty (mkDF (columns df) (dtypes df)
                     (filter (fun r => negb (dropped df exts tools r)) (rows df))));
    [reflexivity|].
  unfold check_required. rewrite !has_column_filtered.
  destruct (has_column df "Request.URL"); cbn [negb bind]; [|reflexivity].
  cbn [andb] in H. rewrite H. reflexivity.
Qed.

Lemma X25_witness :
  @analyze_burp_log Ref.lib Examples.df_no_tool (Some ["js"]) None
  = Stop (MissingColumn "Request.Tool") /\
  @analyze_burp_log Ref.lib
    (mkDF ["Entry.Tool"; "Request.URL"; "Request.Time"] [object; float64; object]
       [[Str "Proxy"; Null; Str "01/02/2024 10:00:00 AM"]]) (Some ["js"]) None
  = Raise AttributeError.
Proof.
  split.
  - exact (X25_missing_required_column Ref.lib Examples.df_no_tool (Some ["js"]) None
             eq_refl eq_refl).
  - exact (X25_missing_required_column Ref.lib
             (mkDF ["Entry.Tool"; "Request.URL"; "Request.Time"] [object; float64; object]
                [[Str "Proxy"; Null; Str "01/02/2024 10:00:00 AM"]]) (Some ["js"]) None
             eq_refl eq_refl).
Defined.

(** X26: as soon as one record of the frame resolves by its request time,
    every record's Event Time is the parse of its request time: the
    response headers are not consulted, and a record whose request time
    does not parse stays without Event Time even when its headers carry a
    date. *)
Theorem X26_primary_strategy_alone (L : PyLib) (df : DataFrame) :
  (exists r, In r (rows df) /\ to_datetime (cell_of df "Request.Time" r) <> None) ->
  resolve_times df
  = Ok (map (fun r => to_datetime (cell_of df "Request.Time" r)) (rows df)).
Proof. apply resolve_times_primary. Qed.

Lemma X26_witness :
  @resolve_times Ref.lib
    (mkDF ["Request.Time"; "Response.Headers"] [object; object]
       [[Str "01/02/2024 10:00:00 AM"; Null];
        [Str "n/a"; Examples.headers "Mon, 01 Jan 2024 10:00:00 GMT"]])
  = Ok [Some (mkNaive 2024 1 2 10 0 0); None].
Proof.
  apply (X26_primary_strategy_alone Ref.lib
           (mkDF ["Request.Time"; "Response.Headers"] [object; object]
              [[Str "01/02/2024 10:00:00 AM"; Null];
               [Str "n/a"; Examples.headers "Mon, 01 Jan 2024 10:00:00 GMT"]])).
  exists [Str "01/02/2024 10:00:00 AM"; Null]. split; [now left | discriminate].
Defined.


